(** * pytrakt: HTTP transport, token authenticator and device flow

    A shallow embedding of [trakt/api.py] ([HttpClient], [TokenAuth]) and
    [trakt/auth/device.py] ([DeviceAuth]).  Python objects that are mutated
    in place (the [TokenAuth] dict, the device flow's config object, the
    file system, the network) live in one explicit [world]; every method is
    a state-and-exception computation over it.  A client is the record of
    its attributes at the call; the one case where two holders of one
    client matter, a [TokenAuth] attached to the client it holds, is built
    by [self_signing]. *)

From stdpp Require Import gmap strings list fin_maps pretty.

Local Set Warnings "-register-all".
Local Open Scope string_scope.
Local Open Scope Z_scope.

(** ** Python values

    The values the code handles are those [json.loads] produces: [None],
    booleans, integers, strings, lists and dicts with string keys.  JSON
    numbers with a fraction (Python floats) are outside the model. *)

Inductive value : Type :=
| VNone
| VBool (b : bool)
| VInt (z : Z)
| VStr (s : string)
| VList (l : list value)
| VDict (m : gmap string value).

(** [x is None] *)
Definition is_None (v : value) : bool :=
  match v with VNone => true | _ => false end.

(** Truth value of an object, as [not x] and [if x] compute it. *)
Definition truthy (v : value) : bool :=
  match v with
  | VNone => false
  | VBool b => b
  | VInt z => negb (z =? 0)
  | VStr s => match s with EmptyString => false | _ => true end
  | VList l => match l with [] => false | _ => true end
  | VDict m => match map_to_list m with [] => false | _ => true end
  end.

(** ** Responses, requests, exceptions *)

(** A [requests.Response].  [content] stands for the body through the only
    use the code makes of it, [json.loads(content.decode('UTF-8','ignore'))]:
    [Some v] when that yields [v], [None] when the body is not JSON. *)
Record response := Response {
  status_code : Z;
  reason : string;
  content : option value
}.

(** An exception class of the [errors] module: its name and the
    [http_code] class attribute that [error_map] reads. *)
Record ErrClass := {
  cls_name : string;
  http_code : Z
}.

Inductive exn : Type :=
| TraktError (cls : ErrClass) (resp : response)  (* [cls(response)] *)
| KeyError (key : string)
| AttributeError (attr : string)
| TypeError
| ValueError                                     (* for [fromtimestamp], also its OverflowError *)
| OverflowError
| JSONDecodeError
| ConnectionError
| FileNotFoundError
| RecursionError.

(** What [session.request] is given besides method, url and headers:
    [params=data] for GET, [data=json.dumps(data)] otherwise. *)
Inductive payload : Type :=
| Params (data : value)
| Body (data : value).

Record http_request := Request {
  rq_method : string;
  rq_url : string;
  rq_headers : gmap string value;
  rq_payload : payload
}.

(** The headers of a request that [requests] hands to an auth hook are a
    [CaseInsensitiveDict]: names that differ only in case are one entry,
    and an assignment replaces the entry, its spelling included.  Header
    names are ASCII ([http.client] sends no other), so [lower] acts on the
    letters A to Z. *)
Definition lower_ascii (c : Ascii.ascii) : Ascii.ascii :=
  let n := Ascii.N_of_ascii c in
  if ((65 <=? n) && (n <=? 90))%N then Ascii.ascii_of_N (n + 32) else c.

Fixpoint lower (s : string) : string :=
  match s with
  | EmptyString => EmptyString
  | String c s' => String (lower_ascii c) (lower s')
  end.

(** [headers[name] = v] on a [CaseInsensitiveDict] *)
Definition header_assign (name : string) (v : value) (h : gmap string value)
    : gmap string value :=
  <[name := v]> (filter (λ kv : string * value, lower kv.1 ≠ lower name) h).

(** Contents of a file: a JSON document, or text [json.load] rejects. *)
Inductive file : Type :=
| FileJson (doc : value)
| FileText (text : string).

(** ** The world *)

Record world := World {
  fields : gmap string value;   (* items of the [TokenAuth] dict *)
  files : gmap string file;     (* the file system, by path *)
  inbox : list response;        (* what the server answers, in order *)
  sent : list http_request;     (* requests put on the wire so far *)
  clock : Z;                    (* microseconds since the epoch, UTC *)
  config : gmap string value;   (* attributes of [DeviceAuth.config] *)
  slept : list value;           (* arguments of [sleep], in order *)
  printed : list string         (* lines given to [print], in order *)
}.

Definition set_fields (f : gmap string value → gmap string value) (w : world) : world :=
  World (f (fields w)) (files w) (inbox w) (sent w) (clock w) (config w) (slept w) (printed w).

Definition set_files (f : gmap string file → gmap string file) (w : world) : world :=
  World (fields w) (f (files w)) (inbox w) (sent w) (clock w) (config w) (slept w) (printed w).

Definition set_inbox (l : list response) (w : world) : world :=
  World (fields w) (files w) l (sent w) (clock w) (config w) (slept w) (printed w).

Definition set_sent (l : list http_request) (w : world) : world :=
  World (fields w) (files w) (inbox w) l (clock w) (config w) (slept w) (printed w).

Definition set_clock (t : Z) (w : world) : world :=
  World (fields w) (files w) (inbox w) (sent w) t (config w) (slept w) (printed w).

Definition set_config (f : gmap string value → gmap string value) (w : world) : world :=
  World (fields w) (files w) (inbox w) (sent w) (clock w) (f (config w)) (slept w) (printed w).

Definition set_slept (l : list value) (w : world) : world :=
  World (fields w) (files w) (inbox w) (sent w) (clock w) (config w) l (printed w).

Definition set_printed (l : list string) (w : world) : world :=
  World (fields w) (files w) (inbox w) (sent w) (clock w) (config w) (slept w) l.

(** ** Computations: state plus exceptions

    A raised exception keeps the world as it was at the [raise]: Python
    rolls nothing back. *)

Inductive result (A : Type) : Type :=
| Ok (a : A)
| Raise (e : exn).
Arguments Ok {A} a.
Arguments Raise {A} e.

Definition M (A : Type) : Type := world → result A * world.

Definition ret {A} (a : A) : M A := λ w, (Ok a, w).

Definition raise {A} (e : exn) : M A := λ w, (Raise e, w).

Definition bind {A B} (c : M A) (k : A → M B) : M B :=
  λ w, match c w with
       | (Ok a, w') => k a w'
       | (Raise e, w') => (Raise e, w')
       end.

Notation "x <~ c ;; k" := (bind c (λ x, k))
  (at level 100, c at next level, right associativity).
Notation "c ;;; k" := (bind c (λ _, k))
  (at level 100, right associativity).

(** [try: c  except <classes matched by handles>: h] *)
Definition try_except {A} (c : M A) (handles : exn → bool) (h : M A) : M A :=
  λ w, match c w with
       | (Ok a, w') => (Ok a, w')
       | (Raise e, w') => if handles e then h w' else (Raise e, w')
       end.

Definition lift {A} (r : result A) : M A := λ w, (r, w).

Definition get_world : M world := λ w, (Ok w, w).

Definition modify (f : world → world) : M unit := λ w, (Ok tt, f w).

(** ** The [errors] module

    [trakt/errors.py] is not among the sources; the code reads two things
    from it.  [errors_all] lists the members named in [errors.__all__],
    each with its [http_code]; [is_OAuthException cls] says whether an
    instance of [cls] is caught by [except OAuthException]. *)
Record errors_module := {
  errors_all : list ErrClass;
  is_OAuthException : ErrClass → bool
}.

(** ** The [requests] session

    [session.request(method, url, headers=, auth=, params= | data=)] builds
    the request, runs the auth hook on it once when there is one, and puts
    the result on the wire; the server's answer is the next response of
    the world's [inbox].  An empty [inbox] is a network failure. *)

Definition hook : Type := http_request → M http_request.

Definition transmit (r : http_request) : M response :=
  λ w, let w1 := set_sent (sent w ++ [r]) w in
       match inbox w with
       | [] => (Raise ConnectionError, w1)
       | resp :: rest => (Ok resp, set_inbox rest w1)
       end.

Definition session_request (method url : string) (hdrs : gmap string value)
    (auth : option hook) (p : payload) : M response :=
  r <~ match auth with
       | Some h => h (Request method url hdrs p)
       | None => ret (Request method url hdrs p)
       end ;;
  transmit r.

(** ** [class HttpClient] *)

Module HttpClient.

Record t := Make {
  auth : option hook;
  base_url : string;
  headers : gmap string value
}.

(** [__init__]: no auth hook, no headers. *)
Definition init (base : string) : t := Make None base ∅.

(** [self.headers.update(headers)]: the new entries win. *)
Definition set_headers (c : t) (h : gmap string value) : t :=
  Make (auth c) (base_url c) (h ∪ headers c).

(** [self.auth = auth]: an assignment to the client object, which every
    holder of the client sees.  A holder is a record here and is given the
    client as it is after the assignment; for the [TokenAuth] that holds
    the very client it signs, [self_signing] below builds that client. *)
Definition set_auth (c : t) (a : hook) : t :=
  Make (Some a) (base_url c) (headers c).

Section WithErrors.
Context (errors : errors_module).

(** [errs]: every member of [errors.__all__] but the base exception. *)
Definition errs : list ErrClass :=
  filter (λ att, cls_name att ≠ "TraktException") (errors_all errors).

(** [{err.http_code: err for err in errs}]: of two classes with one code
    the later one stays. *)
Definition error_map : gmap Z ErrClass :=
  foldl (λ m err, <[http_code err := err]> m) ∅ errs.

Definition raise_if_needed (resp : response) : M unit :=
  match error_map !! status_code resp with
  | Some cls => raise (TraktError cls resp)
  | None => ret tt
  end.

(** [json.loads(response.content.decode('UTF-8', 'ignore'))] *)
Definition json_loads (resp : response) : M value :=
  match content resp with
  | Some v => ret v
  | None => raise JSONDecodeError
  end.

(** The [logger.debug] calls write to the log only and are left out. *)
Definition request (c : t) (method url : string) (data : value) : M value :=
  let url := base_url c +:+ url in
  resp <~ (if String.eqb method "get"
           then session_request method url (headers c) (auth c) (Params data)
           else session_request method url (headers c) (auth c) (Body data)) ;;
  if status_code resp =? 204 then ret VNone
  else raise_if_needed resp ;;; json_loads resp.

Definition get (c : t) (url : string) : M value :=
  request c "get" url VNone.

(** No [return]: the call yields [None] whatever [request] returned. *)
Definition delete (c : t) (url : string) : M value :=
  request c "delete" url VNone ;;; ret VNone.

Definition post (c : t) (url : string) (data : value) : M value :=
  request c "post" url data.

Definition put (c : t) (url : string) (data : value) : M value :=
  request c "put" url data.

End WithErrors.
End HttpClient.

(** ** Python operations the code applies to values *)

(** [d.get(key)] (and [d.get(key, None)]): only a dict has [get]. *)
Definition py_get (d : value) (key : string) : M value :=
  match d with
  | VDict m => ret (default VNone (m !! key))
  | _ => raise (AttributeError "get")
  end.

(** [d[key]]: a dict raises [KeyError] on an absent key; a string key
    subscripts nothing else. *)
Definition py_getitem (d : value) (key : string) : M value :=
  match d with
  | VDict m => match m !! key with
               | Some v => ret v
               | None => raise (KeyError key)
               end
  | _ => raise TypeError
  end.

(** [d[key] = v] *)
Definition py_setitem (d : value) (key : string) (v : value) : M value :=
  match d with
  | VDict m => ret (VDict (<[key := v]> m))
  | _ => raise TypeError
  end.

(** A number as [+] and [*] see it: [bool] is a subclass of [int]. *)
Definition as_int (v : value) : option Z :=
  match v with
  | VInt z => Some z
  | VBool b => Some (Z.b2z b)
  | _ => None
  end.

(** [a + b] *)
Definition py_add (a b : value) : M value :=
  match as_int a, as_int b with
  | Some x, Some y => ret (VInt (x + y))
  | _, _ =>
      match a, b with
      | VStr s1, VStr s2 => ret (VStr (s1 +:+ s2))
      | VList l1, VList l2 => ret (VList (l1 ++ l2))
      | _, _ => raise TypeError
      end
  end.

(** [a * 2], the effect of [a *= 2] on an immutable or rebound operand. *)
Definition py_double (a : value) : M value :=
  match a with
  | VInt z => ret (VInt (z * 2))
  | VBool b => ret (VInt (Z.b2z b * 2))
  | VStr s => ret (VStr (s +:+ s))
  | VList l => ret (VList (l ++ l))
  | _ => raise TypeError
  end.

(** ** Time

    A [datetime] in UTC is its number of microseconds since the epoch.
    [datetime.fromtimestamp(ts, tz=timezone.utc)] accepts the seconds of
    years 1 to 9999 and raises outside them. *)

Definition MIN_TIMESTAMP : Z := -62135596800.
Definition MAX_TIMESTAMP : Z := 253402300799.

Definition in_datetime_range (ts : Z) : bool :=
  (MIN_TIMESTAMP <=? ts) && (ts <=? MAX_TIMESTAMP).

Definition fromtimestamp (ts : value) : M Z :=
  match as_int ts with
  | Some z => if in_datetime_range z then ret (z * 1000000)
              else raise ValueError
  | None => raise TypeError
  end.

(** [datetime.now(tz=timezone.utc)] *)
Definition now : M Z := λ w, (Ok (clock w), w).

(** [timedelta(days=n)] in microseconds. *)
Definition timedelta_days (n : Z) : Z := n * 86400 * 1000000.

(** ** [class TokenAuth(dict, AuthBase)] *)

(** Modelled from the spec: [trakt.core.AuthConfig], the NamedTuple whose
    declaration is not among the sources.  Its members are the credential
    fields of the data model and [REDIRECT_URI], which [refresh_token]
    reads from the dict that [__init__] fills with them. *)
Record AuthConfig := {
  APPLICATION_ID : value;
  CLIENT_ID : value;
  CLIENT_SECRET : value;
  OAUTH_EXPIRES_AT : value;
  OAUTH_REFRESH : value;
  OAUTH_TOKEN : value;
  OAUTH_TOKEN_VALID : value;
  REDIRECT_URI : value
}.

Definition _asdict (p : AuthConfig) : gmap string value :=
  list_to_map [
    ("APPLICATION_ID", APPLICATION_ID p);
    ("CLIENT_ID", CLIENT_ID p);
    ("CLIENT_SECRET", CLIENT_SECRET p);
    ("OAUTH_EXPIRES_AT", OAUTH_EXPIRES_AT p);
    ("OAUTH_REFRESH", OAUTH_REFRESH p);
    ("OAUTH_TOKEN", OAUTH_TOKEN p);
    ("OAUTH_TOKEN_VALID", OAUTH_TOKEN_VALID p);
    ("REDIRECT_URI", REDIRECT_URI p)
  ].

(** [for x in l: body(x)] *)
Fixpoint for_each {A} (l : list A) (body : A → M unit) : M unit :=
  match l with
  | [] => ret tt
  | x :: l' => body x ;;; for_each l' body
  end.

Module TokenAuth.

(** The attributes set once by [__init__]; the dict items are the world's
    [fields], shared by everyone who holds the object. *)
Record t := Make {
  client : HttpClient.t;
  config_path : string
}.

(** [self[key]] *)
Definition getitem (key : string) : M value :=
  λ w, match fields w !! key with
       | Some v => (Ok v, w)
       | None => (Raise (KeyError key), w)
       end.

(** [self[key] = v] *)
Definition setitem (key : string) (v : value) : M unit :=
  modify (set_fields (insert key v)).

(** [__init__]: an empty dict, updated with the items of
    [params._asdict()]. *)
Definition init (params : AuthConfig) : M unit :=
  modify (set_fields (λ _, _asdict params ∪ ∅)).

(** [os.path.exists(path)] *)
Definition path_exists (path : string) : M bool :=
  λ w, (Ok (bool_decide (is_Some (files w !! path))), w).

(** [with open(path) as f: json.load(f)] *)
Definition json_load (path : string) : M value :=
  λ w, match files w !! path with
       | Some (FileJson doc) => (Ok doc, w)
       | Some (FileText _) => (Raise JSONDecodeError, w)
       | None => (Raise FileNotFoundError, w)
       end.

Definition keys : list string :=
  ["APPLICATION_ID"; "CLIENT_ID"; "CLIENT_SECRET";
   "OAUTH_EXPIRES_AT"; "OAUTH_REFRESH"; "OAUTH_TOKEN"].

Definition load_config (a : t) : M unit :=
  cid <~ getitem "CLIENT_ID" ;;
  both <~ (if negb (is_None cid)
           then (sec <~ getitem "CLIENT_SECRET" ;; ret (negb (is_None sec)))
           else ret false) ;;
  skip <~ (if both : bool then ret true
           else (ex <~ path_exists (config_path a) ;; ret (negb ex))) ;;
  if skip : bool then ret tt
  else
    config_data <~ json_load (config_path a) ;;
    for_each keys (λ key,
      cur <~ getitem key ;;
      if negb (is_None cur) then ret tt
      else (v <~ py_get config_data key ;; setitem key v)).

(** [with open(self.config_path, 'w') as f: json.dump(kwargs, f)] *)
Definition store_token (a : t) (kwargs : gmap string value) : M unit :=
  modify (set_files (insert (config_path a) (FileJson (VDict kwargs)))).

Section WithErrors.
Context (errors : errors_module).

(** [except OAuthException] *)
Definition caught_as_OAuthException (e : exn) : bool :=
  match e with
  | TraktError cls _ => is_OAuthException errors cls
  | _ => false
  end.

(** The [logger] calls are left out, except that the second
    [logger.info] formats [datetime.fromtimestamp(self['OAUTH_EXPIRES_AT'])],
    which can raise. *)
Definition refresh_token (a : t) : M unit :=
  cid <~ getitem "CLIENT_ID" ;;
  sec <~ getitem "CLIENT_SECRET" ;;
  ref <~ getitem "OAUTH_REFRESH" ;;
  uri <~ getitem "REDIRECT_URI" ;;
  let data := VDict (list_to_map [
    ("client_id", cid);
    ("client_secret", sec);
    ("refresh_token", ref);
    ("redirect_uri", uri);
    ("grant_type", VStr "refresh_token")]) in
  got <~ try_except
           (r <~ HttpClient.post errors (client a) "/oauth/token" data ;; ret (Some r))
           caught_as_OAuthException
           (ret None) ;;
  match got with
  | None => ret tt
  | Some resp =>
      tok <~ py_get resp "access_token" ;;
      setitem "OAUTH_TOKEN" tok ;;;
      ref' <~ py_get resp "refresh_token" ;;
      setitem "OAUTH_REFRESH" ref' ;;;
      created <~ py_get resp "created_at" ;;
      expires <~ py_get resp "expires_in" ;;
      exp <~ py_add created expires ;;
      setitem "OAUTH_EXPIRES_AT" exp ;;;
      setitem "OAUTH_TOKEN_VALID" (VBool true) ;;;
      exp' <~ getitem "OAUTH_EXPIRES_AT" ;;
      fromtimestamp exp' ;;;
      k1 <~ getitem "CLIENT_ID" ;;
      k2 <~ getitem "CLIENT_SECRET" ;;
      k3 <~ getitem "OAUTH_TOKEN" ;;
      k4 <~ getitem "OAUTH_REFRESH" ;;
      k5 <~ getitem "OAUTH_EXPIRES_AT" ;;
      store_token a (list_to_map [
        ("CLIENT_ID", k1);
        ("CLIENT_SECRET", k2);
        ("OAUTH_TOKEN", k3);
        ("OAUTH_REFRESH", k4);
        ("OAUTH_EXPIRES_AT", k5)])
  end.

Definition validate_token (a : t) : M unit :=
  current <~ now ;;
  ts <~ getitem "OAUTH_EXPIRES_AT" ;;
  expires_at <~ fromtimestamp ts ;;
  if timedelta_days 2 <? expires_at - current
  then setitem "OAUTH_TOKEN_VALID" (VBool true)
  else refresh_token a.

Definition get_token (a : t) : M (value * value) :=
  load_config a ;;;
  valid <~ getitem "OAUTH_TOKEN_VALID" ;;
  go <~ (if negb (truthy valid)
         then (exp <~ getitem "OAUTH_EXPIRES_AT" ;;
               if negb (is_None exp)
               then (ref <~ getitem "OAUTH_REFRESH" ;; ret (negb (is_None ref)))
               else ret false)
         else ret false) ;;
  (if go : bool then validate_token a else ret tt) ;;;
  client_id <~ getitem "CLIENT_ID" ;;
  client_token <~ getitem "OAUTH_TOKEN" ;;
  ret (client_id, client_token).

(** [str(x)], which an f-string applies to [x].  For lists and dicts it is
    Python's [repr], taken as given. *)
Context (py_repr : value → string).

Definition py_str (v : value) : string :=
  match v with
  | VNone => "None"
  | VBool true => "True"
  | VBool false => "False"
  | VInt z => pretty z
  | VStr s => s
  | _ => py_repr v
  end.

(** [r.headers.update({...})] assigns the two entries in the order of the
    dict literal; the hook returns the request it was given. *)
Definition __call__ (a : t) (r : http_request) : M http_request :=
  p <~ get_token a ;;
  let '(client_id, client_token) := p in
  ret (Request (rq_method r) (rq_url r)
         (header_assign "Authorization" (VStr ("Bearer " +:+ py_str client_token))
            (header_assign "trakt-api-key" client_id (rq_headers r)))
         (rq_payload r)).

End WithErrors.
End TokenAuth.

(** ** [class DeviceAuth] *)

(** What a variable of [device.py] can hold: a decoded JSON value, or a
    [requests.Response] object. *)
Inductive pyobj : Type :=
| OValue (v : value)
| OResponse (r : response).

(** [o.status_code] *)
Definition attr_status_code (o : pyobj) : M Z :=
  match o with
  | OResponse r => ret (status_code r)
  | OValue _ => raise (AttributeError "status_code")
  end.

(** [o.reason] *)
Definition attr_reason (o : pyobj) : M string :=
  match o with
  | OResponse r => ret (reason r)
  | OValue _ => raise (AttributeError "reason")
  end.

(** [o.json()] *)
Definition meth_json (o : pyobj) : M value :=
  match o with
  | OResponse r => match content r with
                   | Some v => ret v
                   | None => raise JSONDecodeError
                   end
  | OValue _ => raise (AttributeError "json")
  end.

(** [o.get(key)] *)
Definition obj_get (o : pyobj) (key : string) : M value :=
  match o with
  | OValue v => py_get v key
  | OResponse _ => raise (AttributeError "get")
  end.

(** [o[key]] *)
Definition obj_getitem (o : pyobj) (key : string) : M value :=
  match o with
  | OValue v => py_getitem v key
  | OResponse _ => raise TypeError
  end.

(** [o[key] = v] *)
Definition obj_setitem (o : pyobj) (key : string) (v : value) : M pyobj :=
  match o with
  | OValue d => (d' <~ py_setitem d key v ;; ret (OValue d'))
  | OResponse _ => raise TypeError
  end.

(** [print(line)] *)
Definition print (line : string) : M unit :=
  modify (λ w, set_printed (printed w ++ [line]) w).

(** The longest [time.sleep] takes, in seconds: the duration is converted
    to nanoseconds in a signed 64-bit integer. *)
Definition MAX_SLEEP : Z := 9223372036.

(** [sleep(secs)]: a number that is not negative and whose nanoseconds fit
    64 bits; the clock moves on. *)
Definition sleep (secs : value) : M unit :=
  match as_int secs with
  | Some z => if z <? 0 then raise ValueError
              else if MAX_SLEEP <? z then raise OverflowError
              else modify (λ w, set_clock (clock w + z * 1000000)
                                  (set_slept (slept w ++ [secs]) w))
  | None => raise TypeError
  end.

(** [time()], to the whole second. *)
Definition time : M value := λ w, (Ok (VInt (clock w / 1000000)), w).

(** The one method of [self.client] that [DeviceAuth] calls. *)
Definition Client : Type := string → value → M pyobj.

(** An [HttpClient] as [self.client]: [post] returns what [request]
    returns, the decoded JSON. *)
Definition of_HttpClient (errors : errors_module) (c : HttpClient.t) : Client :=
  λ url data, v <~ HttpClient.post errors c url data ;; ret (OValue v).

Module DeviceAuth.

Record t := Make {
  client : Client;
  config_path : string;     (* where [self.config] persists itself *)
  client_id : value;
  client_secret : value;
  store : bool
}.

(** [self.config.NAME] *)
Definition config_getattr (name : string) : M value :=
  λ w, match config w !! name with
       | Some v => (Ok v, w)
       | None => (Raise (AttributeError name), w)
       end.

(** [self.config.NAME = v] *)
Definition config_setattr (name : string) (v : value) : M unit :=
  modify (set_config (insert name v)).

(** Modelled from the spec: [AuthConfig.update] of [trakt/config.py], which
    is not among the sources.  It sets the given credential fields. *)
Definition config_update (kwargs : list (string * value)) : M unit :=
  modify (set_config (λ m, list_to_map kwargs ∪ m)).

(** Modelled from the spec: [AuthConfig.store] of [trakt/config.py], which
    is not among the sources.  It serializes the fields as JSON and
    overwrites the config file. *)
Definition config_store (d : t) : M unit :=
  λ w, (Ok tt, set_files (insert (config_path d) (FileJson (VDict (config w)))) w).

Section WithEnvironment.
(** [trakt.auth.get_client_info], not among the sources: it asks for the
    client id and secret. *)
Context (get_client_info : M (value * value)).
Context (py_repr : value → string).

Definition update_tokens (d : t) : M unit :=
  p <~ (if is_None (client_id d) && is_None (client_secret d)
        then get_client_info
        else ret (client_id d, client_secret d)) ;;
  config_setattr "CLIENT_ID" (fst p) ;;;
  config_setattr "CLIENT_SECRET" (snd p).

Definition get_device_code (d : t) : M pyobj :=
  cid <~ config_getattr "CLIENT_ID" ;;
  resp <~ client d "/oauth/device/code" (VDict {["client_id" := cid]}) ;;
  user_code <~ obj_get resp "user_code" ;;
  verification_url <~ obj_get resp "verification_url" ;;
  print ("Your user code is: " +:+ TokenAuth.py_str py_repr user_code
         +:+ ", please navigate to " +:+ TokenAuth.py_str py_repr verification_url
         +:+ " to authenticate") ;;;
  requested <~ time ;;
  obj_setitem resp "requested" requested.

Definition get_device_token (d : t) (device_code : value) (store : bool) : M pyobj :=
  cid <~ config_getattr "CLIENT_ID" ;;
  sec <~ config_getattr "CLIENT_SECRET" ;;
  let data := VDict (list_to_map [
    ("code", device_code);
    ("client_id", cid);
    ("client_secret", sec)]) in
  resp <~ client d "/oauth/device/token" data ;;
  code <~ attr_status_code resp ;;
  (if code =? 200
   then
     data <~ meth_json resp ;;
     tok <~ py_get data "access_token" ;;
     ref <~ py_get data "refresh_token" ;;
     created <~ py_get data "created_at" ;;
     expires <~ py_get data "expires_in" ;;
     exp <~ py_add created expires ;;
     config_update [("OAUTH_TOKEN", tok); ("OAUTH_REFRESH", ref);
                    ("OAUTH_EXPIRES_AT", exp)] ;;;
     if store then config_store d else ret tt
   else ret tt) ;;;
  ret resp.

Definition error_messages : gmap Z string :=
  list_to_map [
    (404, "Invalid device_code");
    (409, "You already approved this code");
    (410, "The tokens have expired, restart the process");
    (418, "You explicitly denied this code")].

(** [success_message.format_map(d)] *)
Definition success_message (d : value) : M string :=
  access_token <~ py_getitem d "access_token" ;;
  refresh_token <~ py_getitem d "refresh_token" ;;
  ret ("You've been successfully authenticated. With access_token "
       +:+ TokenAuth.py_str py_repr access_token
       +:+ " and refresh_token " +:+ TokenAuth.py_str py_repr refresh_token).

(** The [while True] loop of [authenticate], run for at most [fuel]
    iterations: [Some response] when the loop reached a [break], [None]
    when it is still polling after [fuel] rounds. *)
Fixpoint poll (fuel : nat) (d : t) (device_code interval : value) : M (option pyobj) :=
  match fuel with
  | O => ret None
  | S fuel' =>
      resp <~ get_device_token d device_code (store d) ;;
      code <~ attr_status_code resp ;;
      if code =? 200 then
        body <~ meth_json resp ;;
        line <~ success_message body ;;
        print line ;;;
        ret (Some resp)
      else if code =? 429 then
        interval' <~ py_double interval ;;
        sleep interval' ;;;
        poll fuel' d device_code interval'
      else if negb (code =? 400) then
        why <~ attr_reason resp ;;
        print (default why (error_messages !! code)) ;;;
        ret (Some resp)
      else
        sleep interval ;;;
        poll fuel' d device_code interval
  end.

Definition authenticate (fuel : nat) (d : t) : M (option pyobj) :=
  update_tokens d ;;;
  resp <~ get_device_code d ;;
  device_code <~ obj_getitem resp "device_code" ;;
  interval <~ obj_getitem resp "interval" ;;
  poll fuel d device_code interval.

End WithEnvironment.
End DeviceAuth.

(** ** Vocabulary of the statements *)

(** The response an exception was built from, for a caller that inspects
    it. *)
Definition carried_response (e : exn) : option response :=
  match e with
  | TraktError _ resp => Some resp
  | _ => None
  end.

(** The payload [request] hands to the session for a method. *)
Definition payload_of (method : string) (data : value) : payload :=
  if String.eqb method "get" then Params data else Body data.

(** The keys [TokenAuth.__init__] puts into the dict. *)
Definition credential_names : list string :=
  ["APPLICATION_ID"; "CLIENT_ID"; "CLIENT_SECRET"; "OAUTH_EXPIRES_AT";
   "OAUTH_REFRESH"; "OAUTH_TOKEN"; "OAUTH_TOKEN_VALID"; "REDIRECT_URI"].

(** Every key of [__init__] is in the dict (its value may be [None]). *)
Definition has_keys (w : world) : Prop :=
  Forall (λ k, is_Some (fields w !! k)) credential_names.

(** A field that holds something other than [None]. *)
Definition is_set (w : world) (key : string) : Prop :=
  ∃ v, fields w !! key = Some v ∧ v ≠ VNone.

(** The body of the refresh request, from the dict as it is. *)
Definition refresh_data (w : world) : value :=
  VDict (list_to_map [
    ("client_id", default VNone (fields w !! "CLIENT_ID"));
    ("client_secret", default VNone (fields w !! "CLIENT_SECRET"));
    ("refresh_token", default VNone (fields w !! "OAUTH_REFRESH"));
    ("redirect_uri", default VNone (fields w !! "REDIRECT_URI"));
    ("grant_type", VStr "refresh_token")]).

(** The refresh request as a hook-free client puts it on the wire. *)
Definition refresh_request (c : HttpClient.t) (w : world) : http_request :=
  Request "post" (HttpClient.base_url c +:+ "/oauth/token")
    (HttpClient.headers c) (Body (refresh_data w)).

(** What a computation leaves alone. *)
Definition only_fields_change (w w' : world) : Prop :=
  files w' = files w ∧ inbox w' = inbox w ∧ sent w' = sent w
  ∧ clock w' = clock w ∧ config w' = config w
  ∧ slept w' = slept w ∧ printed w' = printed w.

(** One round of the loop of [load_config]. *)
Definition load_key (config_data : value) (key : string) : M unit :=
  cur <~ TokenAuth.getitem key ;;
  if negb (is_None cur) then ret tt
  else (v <~ py_get config_data key ;; TokenAuth.setitem key v).

(** The world once a request went out and the first waiting response,
    before [rest], came back. *)
Definition after_exchange (rq : http_request) (rest : list response) (w : world) : world :=
  set_inbox rest (set_sent (sent w ++ [rq]) w).

(** The keyword arguments [refresh_token] hands to [store_token]. *)
Definition persisted (w : world) : gmap string value :=
  list_to_map [
    ("CLIENT_ID", default VNone (fields w !! "CLIENT_ID"));
    ("CLIENT_SECRET", default VNone (fields w !! "CLIENT_SECRET"));
    ("OAUTH_TOKEN", default VNone (fields w !! "OAUTH_TOKEN"));
    ("OAUTH_REFRESH", default VNone (fields w !! "OAUTH_REFRESH"));
    ("OAUTH_EXPIRES_AT", default VNone (fields w !! "OAUTH_EXPIRES_AT"))].

(** A computation that neither sends a request nor consumes a response. *)
Definition network_quiet {A} (c : M A) : Prop :=
  ∀ w r w', c w = (r, w') → sent w' = sent w ∧ inbox w' = inbox w.

(** The request [__call__] returns for client id [cid] and token [tok]. *)
Definition signed (py_repr : value → string) (cid tok : value)
    (r : http_request) : http_request :=
  Request (rq_method r) (rq_url r)
    (header_assign "Authorization" (VStr ("Bearer " +:+ TokenAuth.py_str py_repr tok))
       (header_assign "trakt-api-key" cid (rq_headers r)))
    (rq_payload r).

(** The condition under which [get_token] skips [validate_token]. *)
Definition no_refresh_path (w : world) : Prop :=
  ∀ valid exp ref,
    fields w !! "OAUTH_TOKEN_VALID" = Some valid →
    fields w !! "OAUTH_EXPIRES_AT" = Some exp →
    fields w !! "OAUTH_REFRESH" = Some ref →
    truthy valid = true ∨ exp = VNone ∨ ref = VNone.

(** The world after [sleep(secs)] for a whole number of seconds. *)
Definition after_sleep (secs : Z) (w : world) : world :=
  set_clock (clock w + secs * 1000000) (set_slept (slept w ++ [VInt secs]) w).

(** The world after [print(line)]. *)
Definition after_print (line : string) (w : world) : world :=
  set_printed (printed w ++ [line]) w.

(** The token request of the device flow as a hook-free [HttpClient]
    puts it on the wire. *)
Definition device_token_request (c : HttpClient.t) (device_code cid sec : value)
    : http_request :=
  Request "post" (HttpClient.base_url c +:+ "/oauth/device/token")
    (HttpClient.headers c)
    (Body (VDict (list_to_map [
       ("code", device_code);
       ("client_id", cid);
       ("client_secret", sec)]))).

(** The exception a poll over an [HttpClient] ends in, by the response. *)
Definition poll_exception (errors : errors_module) (resp : response) : exn :=
  if status_code resp =? 204 then AttributeError "status_code"
  else match HttpClient.error_map errors !! status_code resp with
       | Some cls => TraktError cls resp
       | None => match content resp with
                 | Some _ => AttributeError "status_code"
                 | None => JSONDecodeError
                 end
       end.

(** [auth = TokenAuth(client, path, params); client.set_auth(auth)]: one
    client object, held by [auth] and signed by it.  The hook of that
    client is [auth], whose own client is that client again, hook
    included.  The knot is unrolled by the number [depth] of nested hook
    calls the Python stack has room for: the call past it raises. *)
Fixpoint self_signed (errors : errors_module) (py_repr : value → string)
    (base : string) (hdrs : gmap string value) (path : string)
    (depth : nat) : hook :=
  match depth with
  | O => λ _, raise RecursionError
  | S depth' =>
      TokenAuth.__call__ errors py_repr
        (TokenAuth.Make
           (HttpClient.Make (Some (self_signed errors py_repr base hdrs path depth'))
              base hdrs)
           path)
  end.


(** The client after [client.set_auth(auth)], for the [auth] that was
    built on this client. *)
Definition self_signing (errors : errors_module) (py_repr : value → string)
    (c : HttpClient.t) (path : string) (depth : nat) : HttpClient.t :=
  HttpClient.set_auth c
    (self_signed errors py_repr (HttpClient.base_url c) (HttpClient.headers c)
       path depth).

(** What [load_config] leaves in a field that held [cur], given the
    object [m] of the file: an unset field takes [m.get(key)], any other
    stays. *)
Definition filled (m : gmap string value) (key : string) (cur : option value)
    : option value :=
  match cur with
  | Some VNone => Some (default VNone (m !! key))
  | _ => cur
  end.

(** [load_config] does not return at once: the client id or the client
    secret is unset. *)
Definition wants_load (w : world) : Prop :=
  fields w !! "CLIENT_ID" = Some VNone ∨ fields w !! "CLIENT_SECRET" = Some VNone.

(** A decoded JSON value that is not an object. *)
Definition not_a_dict (v : value) : Prop :=
  match v with VDict _ => False | _ => True end.


(** A computation that removes no key from the dict. *)
Definition key_keeping {A} (c : M A) : Prop :=
  ∀ w r w' k, c w = (r, w') → is_Some (fields w !! k) → is_Some (fields w' !! k).


(** The five names [refresh_token] passes to [store_token]. *)
Definition persisted_names : list string :=
  ["CLIENT_ID"; "CLIENT_SECRET"; "OAUTH_TOKEN"; "OAUTH_REFRESH"; "OAUTH_EXPIRES_AT"].


(** A computation that sends nothing, or one POST to the token endpoint
    under [base]. *)
Definition refresh_only {A} (base : string) (c : M A) : Prop :=
  ∀ w r w', c w = (r, w') →
    sent w' = sent w
    ∨ ∃ rq, sent w' = (sent w ++ [rq])%list
            ∧ rq_method rq = "post"
            ∧ rq_url rq = base +:+ "/oauth/token".


(** The code request of the device flow as a hook-free [HttpClient] puts
    it on the wire. *)
Definition device_code_request (c : HttpClient.t) (cid : value) : http_request :=
  Request "post" (HttpClient.base_url c +:+ "/oauth/device/code")
    (HttpClient.headers c) (Body (VDict {["client_id" := cid]})).


(** A client of the kind the loop of [authenticate] is written for: a
    [post] to the token endpoint of the device flow hands back the next
    waiting response as a response object, raising for no status, and
    leaves the config, the files, the clock and the output alone.  What
    the client does at any other url is open: it may answer the code
    request with the decoded body, as [get_device_code] needs it. *)
Definition answers_polls_with_responses (c : Client) : Prop :=
  ∀ data w r rest,
    inbox w = r :: rest →
    ∃ w1, c "/oauth/device/token" data w = (Ok (OResponse r), w1)
          ∧ inbox w1 = rest ∧ config w1 = config w ∧ files w1 = files w
          ∧ slept w1 = slept w ∧ printed w1 = printed w.

(** The statuses on which the loop goes on. *)
Definition transitional (r : response) : Prop :=
  status_code r = 400 ∨ status_code r = 429.

(** The interval after a transitional response: doubled by a 429. *)
Definition next_interval (i : Z) (r : response) : Z :=
  if status_code r =? 429 then i * 2 else i.

(** The sleeps of a run of transitional responses from interval [i]. *)
Fixpoint sleeps (i : Z) (rs : list response) : list value :=
  match rs with
  | [] => []
  | r :: rs' => VInt (next_interval i r) :: sleeps (next_interval i r) rs'
  end.

(** The interval after such a run. *)
Fixpoint last_interval (i : Z) (rs : list response) : Z :=
  match rs with
  | [] => i
  | r :: rs' => last_interval (next_interval i r) rs'
  end.


(** The world after [get_device_token] took the token object [m] of a
    200 response: the three fields in the config, and the config in the
    file when asked to store. *)
Definition after_grant (d : DeviceAuth.t) (store : bool) (m : gmap string value)
    (exp : value) (w : world) : world :=
  let w2 := set_config
              (λ c, list_to_map [
                 ("OAUTH_TOKEN", default VNone (m !! "access_token"));
                 ("OAUTH_REFRESH", default VNone (m !! "refresh_token"));
                 ("OAUTH_EXPIRES_AT", exp)] ∪ c) w in
  if store
  then set_files (insert (DeviceAuth.config_path d) (FileJson (VDict (config w2)))) w2
  else w2.

(** ** Concrete data for the examples *)

Module Sample.

(** An [errors] module in the shape of [trakt/errors.py]. *)
Definition errors : errors_module := {|
  errors_all := [
    Build_ErrClass "TraktException" 0;
    Build_ErrClass "BadRequestException" 400;
    Build_ErrClass "OAuthException" 401;
    Build_ErrClass "ForbiddenException" 403;
    Build_ErrClass "NotFoundException" 404;
    Build_ErrClass "ConflictException" 409;
    Build_ErrClass "ProcessException" 422;
    Build_ErrClass "RateLimitException" 429;
    Build_ErrClass "TraktInternalException" 500;
    Build_ErrClass "TraktUnavailable" 503];
  is_OAuthException := λ cls, String.eqb (cls_name cls) "OAuthException"
|}.

(** An [errors] module with no class but the base exception. *)
Definition no_errors : errors_module := {|
  errors_all := [Build_ErrClass "TraktException" 0];
  is_OAuthException := λ _, false
|}.

Definition repr (v : value) : string := "<container>".

Definition client : HttpClient.t := HttpClient.init "https://api.trakt.tv".

Definition auth : TokenAuth.t := TokenAuth.Make client "pytrakt.json".

(** A second client, whose requests are signed by [auth]; [auth] itself
    sends its refresh through [client], which has no hook. *)
Definition signing_client : HttpClient.t :=
  HttpClient.set_auth client (TokenAuth.__call__ errors repr auth).

(** The same, on a client whose caller had set an [authorization] header
    of its own, in lower case, and an [Accept] header. *)
Definition caller_headers : gmap string value :=
  list_to_map [("authorization", VStr "Basic abc");
               ("Accept", VStr "application/json")].

Definition respelling_client : HttpClient.t :=
  HttpClient.set_auth (HttpClient.set_headers client caller_headers)
    (TokenAuth.__call__ errors repr auth).

(** 2023-11-14 22:13:20 UTC *)
Definition now_s : Z := 1700000000.

Definition params (expires_at token valid : value) : AuthConfig := {|
  APPLICATION_ID := VNone;
  CLIENT_ID := VStr "my-id";
  CLIENT_SECRET := VStr "my-secret";
  OAUTH_EXPIRES_AT := expires_at;
  OAUTH_REFRESH := VStr "old-refresh";
  OAUTH_TOKEN := token;
  OAUTH_TOKEN_VALID := valid;
  REDIRECT_URI := VStr "urn:ietf:wg:oauth:2.0:oob"
|}.

Definition unset : AuthConfig := {|
  APPLICATION_ID := VNone;
  CLIENT_ID := VNone;
  CLIENT_SECRET := VNone;
  OAUTH_EXPIRES_AT := VNone;
  OAUTH_REFRESH := VNone;
  OAUTH_TOKEN := VNone;
  OAUTH_TOKEN_VALID := VNone;
  REDIRECT_URI := VStr "urn:ietf:wg:oauth:2.0:oob"
|}.

(** A world right after [TokenAuth.__init__], with the given server
    answers waiting and no file on disk. *)
Definition world_of (p : AuthConfig) (answers : list response) : world :=
  snd (TokenAuth.init p (World ∅ ∅ answers [] (now_s * 1000000) ∅ [] [])).

Definition token_body : value :=
  VDict (list_to_map [
    ("access_token", VStr "new-token");
    ("token_type", VStr "bearer");
    ("expires_in", VInt 7776000);
    ("refresh_token", VStr "new-refresh");
    ("scope", VStr "public");
    ("created_at", VInt 1700000000)]).

Definition token_response : response := Response 200 "OK" (Some token_body).

Definition code_response : response :=
  Response 200 "OK" (Some (VDict (list_to_map [
    ("device_code", VStr "abc");
    ("user_code", VStr "5055CC52");
    ("verification_url", VStr "https://trakt.tv/activate");
    ("expires_in", VInt 600);
    ("interval", VInt 5)]))).

Definition pending : response := Response 400 "Bad Request" (Some (VDict ∅)).

Definition slow_down : response := Response 429 "Too Many Requests" (Some (VDict ∅)).

Definition unauthorized : response := Response 401 "Unauthorized" None.

Definition no_content : response := Response 204 "No Content" None.

Definition null_body : response := Response 200 "OK" (Some VNone).

Definition empty_object : response := Response 200 "OK" (Some (VDict ∅)).

(** The device flow over the [HttpClient], asked to store the token. *)
Definition device (e : errors_module) : DeviceAuth.t :=
  DeviceAuth.Make (of_HttpClient e client) "pytrakt.json"
    (VStr "my-id") (VStr "my-secret") true.

Definition device_world (answers : list response) : world :=
  World ∅ ∅ answers [] (now_s * 1000000) ∅ [] [].

(** Only the client id is given; the rest is on disk. *)
Definition id_only : AuthConfig := {|
  APPLICATION_ID := VNone;
  CLIENT_ID := VStr "my-id";
  CLIENT_SECRET := VNone;
  OAUTH_EXPIRES_AT := VNone;
  OAUTH_REFRESH := VNone;
  OAUTH_TOKEN := VNone;
  OAUTH_TOKEN_VALID := VNone;
  REDIRECT_URI := VStr "urn:ietf:wg:oauth:2.0:oob"
|}.

Definition config_file : file :=
  FileJson (VDict (list_to_map [
    ("CLIENT_ID", VStr "file-id");
    ("CLIENT_SECRET", VStr "file-secret");
    ("OAUTH_TOKEN", VStr "file-token");
    ("OAUTH_REFRESH", VStr "file-refresh");
    ("OAUTH_EXPIRES_AT", VInt 1707776000)])).

Definition with_file (f : file) (w : world) : world :=
  set_files (insert "pytrakt.json" f) w.

Definition kwargs : gmap string value :=
  list_to_map [
    ("CLIENT_ID", VStr "my-id");
    ("CLIENT_SECRET", VStr "my-secret");
    ("OAUTH_TOKEN", VStr "new-token");
    ("OAUTH_REFRESH", VStr "new-refresh");
    ("OAUTH_EXPIRES_AT", VInt 1707776000)].

(** A client of another kind, whose [post] returns the response object
    itself: what the status tests of [device.py] expect. *)
Definition raw_client : Client :=
  λ url data,
    resp <~ transmit (Request "post" ("https://api.trakt.tv" +:+ url) ∅ (Body data)) ;;
    ret (OResponse resp).

Definition raw_device : DeviceAuth.t :=
  DeviceAuth.Make raw_client "pytrakt.json" (VStr "my-id") (VStr "my-secret") true.

Definition denied : response := Response 418 "I'm a teapot" None.

(** A 200 answer to the refresh request that lacks [created_at] and
    [expires_in]. *)
Definition truncated_token_response : response :=
  Response 200 "OK" (Some (VDict (list_to_map [
    ("access_token", VStr "new-token");
    ("refresh_token", VStr "new-refresh")]))).


(** A config file that is not JSON. *)
Definition broken_file : file := FileText "CLIENT_ID = my-id".

Definition extra_headers : gmap string value :=
  list_to_map [("Content-Type", VStr "application/json");
               ("trakt-api-version", VStr "2")].


(** A config file that holds a JSON array. *)
Definition array_file : file := FileJson (VList [VStr "my-id"; VStr "my-secret"]).


(** A config file whose expiry is text. *)
Definition text_expiry_file : file :=
  FileJson (VDict (list_to_map [
    ("CLIENT_SECRET", VStr "file-secret");
    ("OAUTH_TOKEN", VStr "file-token");
    ("OAUTH_REFRESH", VStr "file-refresh");
    ("OAUTH_EXPIRES_AT", VStr "2024-02-12")])).

(** An application id is known, and the token is about to expire. *)
Definition with_application : AuthConfig := {|
  APPLICATION_ID := VStr "my-app";
  CLIENT_ID := VStr "my-id";
  CLIENT_SECRET := VStr "my-secret";
  OAUTH_EXPIRES_AT := VInt (now_s + 3600);
  OAUTH_REFRESH := VStr "old-refresh";
  OAUTH_TOKEN := VStr "old-token";
  OAUTH_TOKEN_VALID := VNone;
  REDIRECT_URI := VStr "urn:ietf:wg:oauth:2.0:oob"
|}.

Definition application_file : file :=
  FileJson (VDict (list_to_map [
    ("APPLICATION_ID", VStr "my-app");
    ("CLIENT_ID", VStr "my-id")])).


Definition server_error : response := Response 500 "Internal Server Error" None.


(** A device flow that was given the client id only. *)
Definition device_id_only : DeviceAuth.t :=
  DeviceAuth.Make (of_HttpClient errors client) "pytrakt.json"
    (VStr "my-id") VNone false.

(** A device flow that was given neither id nor secret. *)
Definition device_asking : DeviceAuth.t :=
  DeviceAuth.Make (of_HttpClient errors client) "pytrakt.json" VNone VNone false.

(** What the user types when asked. *)
Definition typed_in : M (value * value) := ret (VStr "typed-id", VStr "typed-secret").

(** A code response without [user_code] and [verification_url], and with
    a [requested] of its own. *)
Definition bare_code_response : response :=
  Response 200 "OK" (Some (VDict (list_to_map [
    ("device_code", VStr "abc");
    ("requested", VStr "never");
    ("interval", VInt 5)]))).


(** A 200 answer to a poll whose body has the times but no tokens. *)
Definition tokenless_grant : response :=
  Response 200 "OK" (Some (VDict (list_to_map [
    ("expires_in", VInt 7776000);
    ("created_at", VInt 1700000000)]))).

(** A client between the two: it answers a poll of the device flow with
    the response object and every other request, the code request among
    them, with the decoded body. *)
Definition hybrid_client : Client :=
  λ url data,
    resp <~ transmit (Request "post" ("https://api.trakt.tv" +:+ url) ∅ (Body data)) ;;
    if String.eqb url "/oauth/device/token" then ret (OResponse resp)
    else match content resp with
         | Some v => ret (OValue v)
         | None => raise JSONDecodeError
         end.

Definition hybrid_device : DeviceAuth.t :=
  DeviceAuth.Make hybrid_client "pytrakt.json" (VStr "my-id") (VStr "my-secret") true.

(** The object [get_device_code] returns for [code_response]. *)
Definition stamped_code : gmap string value :=
  list_to_map [
    ("device_code", VStr "abc");
    ("user_code", VStr "5055CC52");
    ("verification_url", VStr "https://trakt.tv/activate");
    ("expires_in", VInt 600);
    ("interval", VInt 5);
    ("requested", VInt now_s)].

(** The world in which [authenticate] over [hybrid_device] enters its
    loop: the id and the secret are in the config, the code request went
    out and was answered by [code_response], the user code was printed. *)
Definition after_code_request (answers : list response) : world :=
  snd (DeviceAuth.get_device_code repr hybrid_device
         (snd (DeviceAuth.update_tokens typed_in hybrid_device
                 (device_world (code_response :: answers))))).

Definition polling_world (answers : list response) : world :=
  set_config (λ _, list_to_map [("CLIENT_ID", VStr "my-id");
                                ("CLIENT_SECRET", VStr "my-secret")])
    (device_world answers).

End Sample.

(** * Properties *)

(** ** Running computations *)

Ltac wsimpl :=
  cbn [fields files inbox sent clock config slept printed
       set_fields set_files set_inbox set_sent set_clock set_config
       set_slept set_printed after_exchange fst snd].

Lemma bind_Ok {A B} (c : M A) (k : A → M B) w a w' :
  c w = (Ok a, w') → bind c k w = k a w'.
Proof. intros H. unfold bind. by rewrite H. Qed.

Lemma bind_Raise {A B} (c : M A) (k : A → M B) w e w' :
  c w = (Raise e, w') → bind c k w = (Raise e, w').
Proof. intros H. unfold bind. by rewrite H. Qed.

Lemma bind_ret {A B} (a : A) (k : A → M B) w : bind (ret a) k w = k a w.
Proof. reflexivity. Qed.

Lemma bind_raise {A B} (e : exn) (k : A → M B) w :
  bind (raise e) k w = (Raise e, w).
Proof. reflexivity. Qed.

Lemma bind_assoc {A B C} (c : M A) (f : A → M B) (g : B → M C) w :
  bind (bind c f) g w = bind c (λ x, bind (f x) g) w.
Proof. unfold bind. by destruct (c w) as [[a|e] w1]. Qed.

Lemma bind_inv_Ok {A B} (c : M A) (k : A → M B) w b w2 :
  bind c k w = (Ok b, w2) →
  ∃ a w1, c w = (Ok a, w1) ∧ k a w1 = (Ok b, w2).
Proof.
  unfold bind. destruct (c w) as [[a|e] w1]; [eauto | discriminate].
Qed.

(** ** Request headers *)

Lemma lookup_header_assign_eq name v h :
  header_assign name v h !! name = Some v.
Proof. apply lookup_insert_eq. Qed.

(** A name that is another header keeps its entry. *)
Lemma lookup_header_assign_other name v h k :
  lower k ≠ lower name → header_assign name v h !! k = h !! k.
Proof.
  intros Hk. unfold header_assign.
  rewrite lookup_insert_ne by (by intros ->).
  destruct (h !! k) as [x|] eqn:E.
  - by apply map_lookup_filter_Some_2.
  - apply map_lookup_filter_None_2. by left.
Qed.

(** Another spelling of the same header is gone. *)
Lemma lookup_header_assign_respelled name v h k :
  lower k = lower name → k ≠ name → header_assign name v h !! k = None.
Proof.
  intros Hk Hne. unfold header_assign.
  rewrite lookup_insert_ne by done.
  apply map_lookup_filter_None_2. right. intros x _. simpl. by intros ?.
Qed.

(** ** [HttpClient] *)

Section HttpClientProperties.
Context (errors : errors_module).

Lemma request_unfold c method url data w :
  HttpClient.request errors c method url data w =
  bind (session_request method (HttpClient.base_url c +:+ url)
          (HttpClient.headers c) (HttpClient.auth c) (payload_of method data))
       (λ resp, if status_code resp =? 204 then ret VNone
                else HttpClient.raise_if_needed errors resp ;;;
                     HttpClient.json_loads resp) w.
Proof.
  unfold HttpClient.request, payload_of. by destruct (String.eqb method "get").
Qed.

(** A class is in [error_map] only if [errs] lists it under that code. *)
Lemma error_map_lookup_elem code cls :
  HttpClient.error_map errors !! code = Some cls →
  cls ∈ HttpClient.errs errors ∧ http_code cls = code.
Proof.
  unfold HttpClient.error_map.
  generalize (HttpClient.errs errors) as l.
  intros l. induction l as [|err l IH] using rev_ind; simpl.
  - by rewrite lookup_empty.
  - rewrite foldl_app. simpl. rewrite lookup_insert.
    case_decide as Hc.
    + intros [= <-]. split; [|done].
      apply elem_of_app. right. apply list_elem_of_singleton. done.
    + intros H. destruct (IH H) as [Hin Hcode]. split; [|done].
      apply elem_of_app. by left.
Qed.

(** The base exception is never in the map. *)
Lemma error_map_not_base code cls :
  HttpClient.error_map errors !! code = Some cls →
  cls_name cls ≠ "TraktException".
Proof.
  intros H. apply error_map_lookup_elem in H as [H _].
  unfold HttpClient.errs in H. by apply list_elem_of_filter in H as [H _].
Qed.

(** C4. When the session answers a request with a response whose status
    is in the failure table (and is not 204, which is handled before the
    table is consulted), [request] raises the exception class the table
    maps that status to, built from that very response. *)
Theorem request_raises_mapped_error c method url data w resp w1 cls :
  session_request method (HttpClient.base_url c +:+ url)
    (HttpClient.headers c) (HttpClient.auth c) (payload_of method data) w
    = (Ok resp, w1) →
  status_code resp ≠ 204 →
  HttpClient.error_map errors !! status_code resp = Some cls →
  ∃ e, HttpClient.request errors c method url data w = (Raise e, w1)
       ∧ e = TraktError cls resp
       ∧ http_code cls = status_code resp
       ∧ carried_response e = Some resp.
Proof.
  intros Hs H204 Hmap. exists (TraktError cls resp).
  split; [|split; [done|split; [|done]]].
  - rewrite request_unfold, (bind_Ok _ _ _ _ _ Hs).
    apply Z.eqb_neq in H204. rewrite H204.
    unfold HttpClient.raise_if_needed. rewrite Hmap. reflexivity.
  - by apply error_map_lookup_elem in Hmap as [_ ?].
Qed.

(** C5 (amended). On a 204 response [request] returns [None] without
    consulting the failure table or decoding the body.  A non-204 response
    that [request] returns from yields that same [None] exactly when its
    body is the JSON [null]; every other payload, the empty object
    included, differs from it. *)
Theorem request_204_returns_None c method url data w resp w1 :
  session_request method (HttpClient.base_url c +:+ url)
    (HttpClient.headers c) (HttpClient.auth c) (payload_of method data) w
    = (Ok resp, w1) →
  status_code resp = 204 →
  HttpClient.request errors c method url data w = (Ok VNone, w1)
  ∧ ∀ c' method' url' data' w' resp' w1' v,
      session_request method' (HttpClient.base_url c' +:+ url')
        (HttpClient.headers c') (HttpClient.auth c') (payload_of method' data') w'
        = (Ok resp', w1') →
      status_code resp' ≠ 204 →
      HttpClient.request errors c' method' url' data' w' = (Ok v, w1') →
      content resp' = Some v ∧ (v = VNone ↔ content resp' = Some VNone)
      ∧ (content resp' = Some (VDict ∅) → v ≠ VNone).
Proof.
  intros Hs H204. split.
  - rewrite request_unfold, (bind_Ok _ _ _ _ _ Hs), H204. reflexivity.
  - intros c' method' url' data' w' resp' w1' v Hs' Hn Hr.
    rewrite request_unfold, (bind_Ok _ _ _ _ _ Hs') in Hr.
    apply Z.eqb_neq in Hn. rewrite Hn in Hr.
    unfold HttpClient.raise_if_needed, HttpClient.json_loads, bind in Hr.
    destruct (HttpClient.error_map errors !! status_code resp'); [discriminate|].
    simpl in Hr. destruct (content resp') as [v'|]; [|discriminate].
    injection Hr as ->. split; [done|]. split.
    + split; [by intros ->|by intros [= ->]].
    + by intros [= ->].
Qed.

(** C9. [delete] returns [None] whenever it returns: it runs [request]
    and drops the result.  On a response that is no 204, a body that
    [request] decodes and hands back is discarded by [delete], and a
    status of the failure table still raises its exception. *)
Theorem delete_returns_None c url w :
  (∀ v w', HttpClient.delete errors c url w = (Ok v, w') → v = VNone)
  ∧ (∀ resp w1,
       session_request "delete" (HttpClient.base_url c +:+ url)
         (HttpClient.headers c) (HttpClient.auth c) (Body VNone) w = (Ok resp, w1) →
       status_code resp ≠ 204 →
       (∀ v, HttpClient.error_map errors !! status_code resp = None →
             content resp = Some v →
             HttpClient.request errors c "delete" url VNone w = (Ok v, w1)
             ∧ HttpClient.delete errors c url w = (Ok VNone, w1))
       ∧ (∀ cls, HttpClient.error_map errors !! status_code resp = Some cls →
                 HttpClient.delete errors c url w
                 = (Raise (TraktError cls resp), w1))).
Proof.
  split.
  - intros v w' H. unfold HttpClient.delete in H.
    apply bind_inv_Ok in H as (a & w2 & _ & H). by injection H as <- _.
  - intros resp w1 Hs Hn. apply Z.eqb_neq in Hn. split.
    + intros v Hmap Hc.
      assert (HttpClient.request errors c "delete" url VNone w = (Ok v, w1)) as Hr.
      { rewrite request_unfold. change (payload_of "delete" VNone) with (Body VNone).
        rewrite (bind_Ok _ _ _ _ _ Hs), Hn.
        unfold HttpClient.raise_if_needed, HttpClient.json_loads, bind.
        by rewrite Hmap, Hc. }
      split; [done|]. unfold HttpClient.delete. by rewrite (bind_Ok _ _ _ _ _ Hr).
    + intros cls Hmap. unfold HttpClient.delete.
      apply bind_Raise. rewrite request_unfold.
      change (payload_of "delete" VNone) with (Body VNone).
      rewrite (bind_Ok _ _ _ _ _ Hs), Hn.
      unfold HttpClient.raise_if_needed. by rewrite Hmap.
Qed.

End HttpClientProperties.

(** ** [TokenAuth]: the credential store *)

Lemma has_keys_lookup w key :
  has_keys w → key ∈ credential_names → is_Some (fields w !! key).
Proof. unfold has_keys. rewrite Forall_forall. auto. Qed.

Lemma init_has_keys params w : has_keys (snd (TokenAuth.init params w)).
Proof.
  unfold has_keys. simpl. rewrite (right_id_L ∅ (∪)).
  repeat constructor; unfold _asdict; simpl; by simplify_map_eq.
Qed.

Lemma getitem_Some key v w :
  fields w !! key = Some v → TokenAuth.getitem key w = (Ok v, w).
Proof. intros H. unfold TokenAuth.getitem. by rewrite H. Qed.

Lemma getitem_None key w :
  fields w !! key = None → TokenAuth.getitem key w = (Raise (KeyError key), w).
Proof. intros H. unfold TokenAuth.getitem. by rewrite H. Qed.

Lemma only_fields_change_refl w : only_fields_change w w.
Proof. by repeat split. Qed.

Lemma only_fields_change_trans w1 w2 w3 :
  only_fields_change w1 w2 → only_fields_change w2 w3 → only_fields_change w1 w3.
Proof. unfold only_fields_change. intuition congruence. Qed.

Lemma load_key_keeps config_data key w r w' :
  load_key config_data key w = (r, w') →
  only_fields_change w w'
  ∧ ∀ k, fields w !! k ≠ Some VNone → fields w' !! k = fields w !! k.
Proof.
  unfold load_key, bind, TokenAuth.getitem.
  destruct (fields w !! key) as [cur|] eqn:Hcur.
  - destruct cur; simpl;
      try (intros [= <- <-]; split; [apply only_fields_change_refl | done]).
    destruct config_data; simpl; intros [= <- <-];
      try (split; [apply only_fields_change_refl | done]).
    split; [by repeat split|].
    intros k Hk. simpl.
    destruct (decide (key = k)) as [->|Hne]; [done|].
    by rewrite lookup_insert_ne.
  - intros [= <- <-]. split; [apply only_fields_change_refl | done].
Qed.

Lemma load_loop_keeps config_data l w r w' :
  for_each l (load_key config_data) w = (r, w') →
  only_fields_change w w'
  ∧ ∀ k, fields w !! k ≠ Some VNone → fields w' !! k = fields w !! k.
Proof.
  revert w. induction l as [|key l IH]; intros w; simpl.
  - intros [= <- <-]. split; [apply only_fields_change_refl | done].
  - unfold bind at 1.
    destruct (load_key config_data key w) as [[[]|e] w1] eqn:H1.
    + intros H2. apply load_key_keeps in H1 as [F1 K1].
      apply IH in H2 as [F2 K2]. split.
      * eapply only_fields_change_trans; eauto.
      * intros k Hk. rewrite K2; [by apply K1|]. by rewrite K1.
    + intros [= <- <-]. by apply load_key_keeps in H1.
Qed.

Lemma load_config_unfold a :
  TokenAuth.load_config a =
  (cid <~ TokenAuth.getitem "CLIENT_ID" ;;
   both <~ (if negb (is_None cid)
            then (sec <~ TokenAuth.getitem "CLIENT_SECRET" ;; ret (negb (is_None sec)))
            else ret false) ;;
   skip <~ (if both : bool then ret true
            else (ex <~ TokenAuth.path_exists (TokenAuth.config_path a) ;; ret (negb ex))) ;;
   if skip : bool then ret tt
   else
     config_data <~ TokenAuth.json_load (TokenAuth.config_path a) ;;
     for_each TokenAuth.keys (load_key config_data)).
Proof. reflexivity. Qed.

(** [load_config] touches nothing but the dict, and there no field that
    is set. *)
Lemma load_config_keeps a w r w' :
  TokenAuth.load_config a w = (r, w') →
  only_fields_change w w'
  ∧ ∀ k, fields w !! k ≠ Some VNone → fields w' !! k = fields w !! k.
Proof.
  rewrite load_config_unfold.
  unfold bind, TokenAuth.getitem, TokenAuth.path_exists, TokenAuth.json_load, ret.
  intros H.
  repeat (case_match; simplify_eq/=);
    try (split; [apply only_fields_change_refl | done]).
  all: match goal with
       | H : _ ?w0 = (_, ?w1) |- only_fields_change ?w0 ?w1 ∧ _ =>
           exact (load_loop_keeps _ TokenAuth.keys _ _ _ H)
       end.
Qed.

Lemma load_config_noop_set a w :
  is_set w "CLIENT_ID" → is_set w "CLIENT_SECRET" →
  TokenAuth.load_config a w = (Ok tt, w).
Proof.
  intros (cid & Hcid & Hn1) (sec & Hsec & Hn2).
  rewrite load_config_unfold. unfold bind, TokenAuth.getitem.
  rewrite Hcid. destruct cid; try done; simpl; rewrite Hsec; by destruct sec.
Qed.

Lemma load_config_noop_no_file a w :
  has_keys w → files w !! TokenAuth.config_path a = None →
  TokenAuth.load_config a w = (Ok tt, w).
Proof.
  intros Hk Hf.
  destruct (has_keys_lookup w "CLIENT_ID" Hk) as [cid Hcid];
    [repeat constructor|].
  destruct (has_keys_lookup w "CLIENT_SECRET" Hk) as [sec Hsec];
    [repeat constructor|].
  rewrite load_config_unfold.
  unfold bind, TokenAuth.getitem, TokenAuth.path_exists.
  rewrite Hcid.
  destruct cid; simpl; rewrite ?Hsec, ?Hf; simpl;
    try done; destruct sec; simpl; rewrite ?Hf; done.
Qed.

(** C6. Whatever [load_config] does and however it ends, a field that
    held something other than [None] before the call holds the same thing
    after it, and a field that changed was unset and is one of the keys
    read from the file.  The call changes nothing at all when [CLIENT_ID]
    and [CLIENT_SECRET] are both set, or when there is no file at the
    config path. *)
Theorem load_config_never_overwrites a w r w' :
  TokenAuth.load_config a w = (r, w') →
  (∀ key v, fields w !! key = Some v → v ≠ VNone → fields w' !! key = Some v)
  ∧ (∀ key, fields w' !! key ≠ fields w !! key → fields w !! key = Some VNone)
  ∧ only_fields_change w w'
  ∧ (is_set w "CLIENT_ID" → is_set w "CLIENT_SECRET" → r = Ok tt ∧ w' = w)
  ∧ (has_keys w → files w !! TokenAuth.config_path a = None → r = Ok tt ∧ w' = w).
Proof.
  intros H. pose proof (load_config_keeps _ _ _ _ H) as [F K].
  split; [|split; [|split; [done|split]]].
  - intros key v Hv Hn. rewrite K; [done|]. rewrite Hv. by intros [= ->].
  - intros key Hd. specialize (K key).
    destruct (fields w !! key) as [[]|]; try done;
      exfalso; apply Hd, K; discriminate.
  - intros H1 H2. rewrite (load_config_noop_set _ _ H1 H2) in H. by injection H.
  - intros H1 H2. rewrite (load_config_noop_no_file _ _ H1 H2) in H. by injection H.
Qed.

Lemma load_key_unset m key w :
  fields w !! key = Some VNone →
  load_key (VDict m) key w
  = (Ok tt, set_fields (insert key (default VNone (m !! key))) w).
Proof.
  intros H. unfold load_key, bind, TokenAuth.getitem. by rewrite H.
Qed.

(** The loop of [load_config] over a store whose listed keys are unset:
    every one of them receives what the file holds for it. *)
Lemma load_loop_unset m l w :
  NoDup l →
  (∀ k, k ∈ l → fields w !! k = Some VNone) →
  ∃ w', for_each l (load_key (VDict m)) w = (Ok tt, w')
        ∧ only_fields_change w w'
        ∧ (∀ k, k ∈ l → fields w' !! k = Some (default VNone (m !! k)))
        ∧ (∀ k, k ∉ l → fields w' !! k = fields w !! k).
Proof.
  revert w. induction l as [|key l IH]; intros w Hnd Hun; simpl.
  - exists w. split; [done|]. split; [apply only_fields_change_refl|].
    split; [|done]. intros k Hk. by apply elem_of_nil in Hk.
  - apply NoDup_cons in Hnd as [Hkey Hnd].
    rewrite (bind_Ok _ _ _ _ _ (load_key_unset m key w (Hun key (list_elem_of_here _ _)))).
    destruct (IH (set_fields (insert key (default VNone (m !! key))) w) Hnd)
      as (w' & Hrun & F & Hin & Hout).
    { intros k Hk. simpl. rewrite lookup_insert_ne; [|by intros ->].
      apply Hun. by apply list_elem_of_further. }
    exists w'. split; [done|]. split; [|split].
    + eapply only_fields_change_trans; [|exact F]. by repeat split.
    + intros k Hk. apply elem_of_cons in Hk as [->|Hk]; [|by apply Hin].
      rewrite (Hout key Hkey). simpl. by rewrite lookup_insert_eq.
    + intros k Hk. apply not_elem_of_cons in Hk as [Hne Hk].
      rewrite (Hout k Hk). simpl. by rewrite lookup_insert_ne.
Qed.

Lemma keys_NoDup : NoDup TokenAuth.keys.
Proof.
  unfold TokenAuth.keys.
  repeat (apply NoDup_cons; split;
          [rewrite ?elem_of_cons, ?elem_of_nil; intros H; intuition discriminate|]).
  apply NoDup_nil_2.
Qed.

(** C7. [store_token] replaces the file at the config path by the JSON
    object of exactly the given fields, whatever the file held before.  A
    [load_config] that follows, on a store whose six persisted fields are
    all unset, succeeds and leaves each of them with the value that was
    stored for it, and unset when none was. *)
Theorem store_then_load_round_trip a kwargs w :
  (∀ k, k ∈ TokenAuth.keys → fields w !! k = Some VNone) →
  ∃ w1 w2,
    TokenAuth.store_token a kwargs w = (Ok tt, w1)
    ∧ files w1 !! TokenAuth.config_path a = Some (FileJson (VDict kwargs))
    ∧ (∀ p, p ≠ TokenAuth.config_path a → files w1 !! p = files w !! p)
    ∧ fields w1 = fields w
    ∧ TokenAuth.load_config a w1 = (Ok tt, w2)
    ∧ (∀ k, k ∈ TokenAuth.keys →
            fields w2 !! k = Some (default VNone (kwargs !! k)))
    ∧ (∀ k v, k ∈ TokenAuth.keys → kwargs !! k = Some v → fields w2 !! k = Some v)
    ∧ files w2 = files w1.
Proof.
  intros Hun.
  set (w1 := set_files (insert (TokenAuth.config_path a) (FileJson (VDict kwargs))) w).
  destruct (load_loop_unset kwargs TokenAuth.keys w1 keys_NoDup)
    as (w2 & Hrun & F & Hin & _); [exact Hun|].
  exists w1, w2. split; [done|]. split; [apply lookup_insert_eq|].
  split; [by intros p Hp; simpl; rewrite lookup_insert_ne|].
  split; [done|]. split; [|split; [exact Hin|split; [|apply F]]].
  - rewrite load_config_unfold.
    unfold bind at 1. unfold TokenAuth.getitem at 1. simpl.
    rewrite (Hun "CLIENT_ID"); [|by repeat constructor]. simpl.
    unfold bind at 1. simpl.
    unfold bind at 1. unfold bind at 1. unfold TokenAuth.path_exists at 1. simpl.
    rewrite lookup_insert_eq. simpl.
    unfold bind at 1. unfold TokenAuth.json_load at 1. simpl.
    rewrite lookup_insert_eq. exact Hrun.
  - intros k v Hk Hv. rewrite (Hin k Hk), Hv. done.
Qed.

(** ** [TokenAuth]: refreshing and signing *)

Lemma bind_setitem {B} key v (k : unit → M B) w :
  bind (TokenAuth.setitem key v) k w = k tt (set_fields (insert key v) w).
Proof. reflexivity. Qed.

Lemma bind_getitem {B} key v (k : value → M B) w :
  fields w !! key = Some v → bind (TokenAuth.getitem key) k w = k v w.
Proof. intros H. apply bind_Ok. by apply getitem_Some. Qed.

Lemma lookup_fields_default (m : gmap string value) key v :
  m !! key = Some v → default VNone (m !! key) = v.
Proof. by intros ->. Qed.

Lemma py_add_ints a b x y w :
  as_int a = Some x → as_int b = Some y →
  py_add a b w = (Ok (VInt (x + y)), w).
Proof. intros Ha Hb. unfold py_add. by rewrite Ha, Hb. Qed.

Lemma fromtimestamp_in_range z w :
  in_datetime_range z = true →
  fromtimestamp (VInt z) w = (Ok (z * 1000000), w).
Proof. intros H. unfold fromtimestamp. simpl. by rewrite H. Qed.

Ltac lookup_fields :=
  wsimpl; repeat (rewrite lookup_insert_ne by done);
  first [apply lookup_insert_eq | eassumption].

Section TokenAuthProperties.
Context (errors : errors_module).

(** A client without an auth hook: one request out, one response in. *)
Lemma request_plain c method url data w :
  HttpClient.auth c = None →
  HttpClient.request errors c method url data w =
  let rq := Request method (HttpClient.base_url c +:+ url)
              (HttpClient.headers c) (payload_of method data) in
  match inbox w with
  | [] => (Raise ConnectionError, set_sent (sent w ++ [rq]) w)
  | resp :: rest =>
      let w1 := after_exchange rq rest w in
      if status_code resp =? 204 then (Ok VNone, w1)
      else match HttpClient.error_map errors !! status_code resp with
           | Some cls => (Raise (TraktError cls resp), w1)
           | None => match content resp with
                     | Some v => (Ok v, w1)
                     | None => (Raise JSONDecodeError, w1)
                     end
           end
  end.
Proof.
  intros Hauth. rewrite request_unfold.
  unfold session_request. rewrite Hauth.
  unfold bind, ret, transmit. simpl.
  destruct (inbox w) as [|resp rest]; [done|].
  destruct (status_code resp =? 204); [done|].
  unfold HttpClient.raise_if_needed, HttpClient.json_loads.
  destruct (HttpClient.error_map errors !! status_code resp); [done|].
  simpl. by destruct (content resp).
Qed.

(** What [request] makes of the response the session came back with,
    whoever signed the request. *)
Lemma request_answered c method url data w resp w1 :
  session_request method (HttpClient.base_url c +:+ url)
    (HttpClient.headers c) (HttpClient.auth c) (payload_of method data) w
    = (Ok resp, w1) →
  HttpClient.request errors c method url data w =
  if status_code resp =? 204 then (Ok VNone, w1)
  else match HttpClient.error_map errors !! status_code resp with
       | Some cls => (Raise (TraktError cls resp), w1)
       | None => match content resp with
                 | Some v => (Ok v, w1)
                 | None => (Raise JSONDecodeError, w1)
                 end
       end.
Proof.
  intros Hs. rewrite request_unfold, (bind_Ok _ _ _ _ _ Hs).
  destruct (status_code resp =? 204); [done|].
  unfold HttpClient.raise_if_needed, HttpClient.json_loads, bind.
  destruct (HttpClient.error_map errors !! status_code resp); [done|].
  simpl. by destruct (content resp).
Qed.

Lemma refresh_token_unfold a w cid sec ref uri :
  fields w !! "CLIENT_ID" = Some cid →
  fields w !! "CLIENT_SECRET" = Some sec →
  fields w !! "OAUTH_REFRESH" = Some ref →
  fields w !! "REDIRECT_URI" = Some uri →
  TokenAuth.refresh_token errors a w =
  bind (try_except
          (r <~ HttpClient.post errors (TokenAuth.client a) "/oauth/token" (refresh_data w) ;;
           ret (Some r))
          (TokenAuth.caught_as_OAuthException errors)
          (ret None))
    (λ got, match got with
            | None => ret tt
            | Some resp =>
                tok <~ py_get resp "access_token" ;;
                TokenAuth.setitem "OAUTH_TOKEN" tok ;;;
                ref' <~ py_get resp "refresh_token" ;;
                TokenAuth.setitem "OAUTH_REFRESH" ref' ;;;
                created <~ py_get resp "created_at" ;;
                expires <~ py_get resp "expires_in" ;;
                exp <~ py_add created expires ;;
                TokenAuth.setitem "OAUTH_EXPIRES_AT" exp ;;;
                TokenAuth.setitem "OAUTH_TOKEN_VALID" (VBool true) ;;;
                exp' <~ TokenAuth.getitem "OAUTH_EXPIRES_AT" ;;
                fromtimestamp exp' ;;;
                k1 <~ TokenAuth.getitem "CLIENT_ID" ;;
                k2 <~ TokenAuth.getitem "CLIENT_SECRET" ;;
                k3 <~ TokenAuth.getitem "OAUTH_TOKEN" ;;
                k4 <~ TokenAuth.getitem "OAUTH_REFRESH" ;;
                k5 <~ TokenAuth.getitem "OAUTH_EXPIRES_AT" ;;
                TokenAuth.store_token a (list_to_map [
                  ("CLIENT_ID", k1);
                  ("CLIENT_SECRET", k2);
                  ("OAUTH_TOKEN", k3);
                  ("OAUTH_REFRESH", k4);
                  ("OAUTH_EXPIRES_AT", k5)])
            end) w.
Proof.
  intros H1 H2 H3 H4. unfold TokenAuth.refresh_token, refresh_data.
  rewrite (bind_Ok _ _ _ _ _ (getitem_Some _ _ _ H1)).
  rewrite (bind_Ok _ _ _ _ _ (getitem_Some _ _ _ H2)).
  rewrite (bind_Ok _ _ _ _ _ (getitem_Some _ _ _ H3)).
  rewrite (bind_Ok _ _ _ _ _ (getitem_Some _ _ _ H4)).
  by rewrite H1, H2, H3, H4.
Qed.


(** What a well-formed token response does to the dict. *)
Lemma refresh_token_success a w resp rest m created expires :
  has_keys w →
  HttpClient.auth (TokenAuth.client a) = None →
  inbox w = resp :: rest →
  status_code resp ≠ 204 →
  HttpClient.error_map errors !! status_code resp = None →
  content resp = Some (VDict m) →
  as_int (default VNone (m !! "created_at")) = Some created →
  as_int (default VNone (m !! "expires_in")) = Some expires →
  in_datetime_range (created + expires) = true →
  ∃ w', TokenAuth.refresh_token errors a w = (Ok tt, w')
    ∧ fields w' =
        <["OAUTH_TOKEN_VALID" := VBool true]>
          (<["OAUTH_EXPIRES_AT" := VInt (created + expires)]>
             (<["OAUTH_REFRESH" := default VNone (m !! "refresh_token")]>
                (<["OAUTH_TOKEN" := default VNone (m !! "access_token")]> (fields w))))
    ∧ files w' = <[TokenAuth.config_path a := FileJson (VDict (persisted w'))]> (files w)
    ∧ sent w' = (sent w ++ [refresh_request (TokenAuth.client a) w])%list
    ∧ inbox w' = rest.
Proof.
  intros Hk Hauth Hin H204 Hmap Hc Hcr Hex Hrange.
  destruct (has_keys_lookup w "CLIENT_ID" Hk) as [cid Hcid]; [repeat constructor|].
  destruct (has_keys_lookup w "CLIENT_SECRET" Hk) as [sec Hsec]; [repeat constructor|].
  destruct (has_keys_lookup w "OAUTH_REFRESH" Hk) as [ref Href]; [repeat constructor|].
  destruct (has_keys_lookup w "REDIRECT_URI" Hk) as [uri Huri]; [repeat constructor|].
  rewrite (refresh_token_unfold a w _ _ _ _ Hcid Hsec Href Huri).
  unfold try_except, HttpClient.post. unfold bind at 1. unfold bind at 1.
  rewrite (request_plain _ _ _ _ _ Hauth), Hin. simpl.
  apply Z.eqb_neq in H204. rewrite H204, Hmap, Hc. simpl.
  rewrite bind_ret, bind_setitem, bind_ret, bind_setitem, !bind_ret.
  rewrite (bind_Ok _ _ _ _ _ (py_add_ints _ _ _ _ _ Hcr Hex)).
  rewrite !bind_setitem.
  erewrite bind_getitem by lookup_fields.
  rewrite (bind_Ok _ _ _ _ _ (fromtimestamp_in_range _ _ Hrange)).
  do 5 (erewrite bind_getitem by lookup_fields).
  eexists. split; [reflexivity|].
  unfold persisted. wsimpl.
  split; [done|]. split; [|done].
  repeat first [rewrite lookup_insert_eq | rewrite lookup_insert_ne by done].
  by rewrite Hcid, Hsec.
Qed.


Lemma quiet_ret {A} (a : A) : network_quiet (ret a).
Proof. by intros w r w' [= <- <-]. Qed.

Lemma quiet_raise {A} e : network_quiet (@raise A e).
Proof. by intros w r w' [= <- <-]. Qed.

Lemma quiet_bind {A B} (c : M A) (k : A → M B) :
  network_quiet c → (∀ a, network_quiet (k a)) → network_quiet (bind c k).
Proof.
  intros Hc Hk w r w'. unfold bind.
  destruct (c w) as [[x|e] w1] eqn:E; destruct (Hc _ _ _ E) as [S1 I1].
  - intros H. destruct (Hk _ _ _ _ H) as [S2 I2]. split; congruence.
  - by intros [= <- <-].
Qed.

Lemma quiet_getitem key : network_quiet (TokenAuth.getitem key).
Proof.
  intros w r w'. unfold TokenAuth.getitem.
  by destruct (fields w !! key); intros [= <- <-].
Qed.

Lemma quiet_setitem key v : network_quiet (TokenAuth.setitem key v).
Proof. by intros w r w' [= <- <-]. Qed.

Lemma quiet_py_get d key : network_quiet (py_get d key).
Proof. destruct d; simpl; auto using @quiet_ret, @quiet_raise. Qed.

Lemma quiet_py_add x y : network_quiet (py_add x y).
Proof.
  unfold py_add. destruct (as_int x), (as_int y), x, y;
    auto using @quiet_ret, @quiet_raise.
Qed.

Lemma quiet_fromtimestamp ts : network_quiet (fromtimestamp ts).
Proof.
  unfold fromtimestamp. destruct (as_int ts) as [z|]; [|apply quiet_raise].
  destruct (in_datetime_range z); [apply quiet_ret | apply quiet_raise].
Qed.

Lemma quiet_store_token a kwargs : network_quiet (TokenAuth.store_token a kwargs).
Proof. by intros w r w' [= <- <-]. Qed.

Lemma quiet_load_config a : network_quiet (TokenAuth.load_config a).
Proof.
  intros w r w' H. apply load_config_keeps in H as [(_ & I & S & _) _]. done.
Qed.

Create HintDb quiet.
#[local] Hint Resolve quiet_getitem quiet_setitem quiet_py_get quiet_py_add
  quiet_fromtimestamp quiet_store_token quiet_load_config : quiet.
#[local] Hint Extern 1 (network_quiet (ret _)) => apply quiet_ret : quiet.
#[local] Hint Extern 1 (network_quiet (raise _)) => apply quiet_raise : quiet.
#[local] Hint Extern 2 (network_quiet (bind _ _)) =>
  apply quiet_bind; [|intros ?] : quiet.

(** However the exchange ends, [refresh_token] on a hook-free client puts
    exactly one request on the wire. *)
Lemma refresh_token_sends_once a w :
  has_keys w →
  HttpClient.auth (TokenAuth.client a) = None →
  ∃ r w', TokenAuth.refresh_token errors a w = (r, w')
          ∧ sent w' = (sent w ++ [refresh_request (TokenAuth.client a) w])%list.
Proof.
  intros Hk Hauth.
  destruct (has_keys_lookup w "CLIENT_ID" Hk) as [cid Hcid]; [repeat constructor|].
  destruct (has_keys_lookup w "CLIENT_SECRET" Hk) as [sec Hsec]; [repeat constructor|].
  destruct (has_keys_lookup w "OAUTH_REFRESH" Hk) as [ref Href]; [repeat constructor|].
  destruct (has_keys_lookup w "REDIRECT_URI" Hk) as [uri Huri]; [repeat constructor|].
  rewrite (refresh_token_unfold a w _ _ _ _ Hcid Hsec Href Huri).
  unfold try_except, HttpClient.post. unfold bind at 1. unfold bind at 1.
  rewrite (request_plain _ _ _ _ _ Hauth).
  destruct (inbox w) as [|resp rest]; simpl; [eauto|].
  destruct (status_code resp =? 204); simpl.
  { eexists _, _. split; [reflexivity|done]. }
  destruct (HttpClient.error_map errors !! status_code resp) as [cls|]; simpl.
  { destruct (is_OAuthException errors cls); simpl; eauto. }
  destruct (content resp) as [v|]; simpl; [|eauto].
  match goal with |- ∃ r w', ?c ?w0 = _ ∧ _ =>
    destruct (c w0) as [r w'] eqn:E; exists r, w'; split; [done|];
    assert (network_quiet c) as Hq by auto 30 with quiet;
    destruct (Hq _ _ _ E) as [-> _]
  end.
  done.
Qed.


(** The names of [persisted] are the five of [persisted_names]. *)
Lemma persisted_other w k : k ∉ persisted_names → persisted w !! k = None.
Proof.
  unfold persisted_names, persisted. rewrite !not_elem_of_cons.
  intros (?&?&?&?&?&_). cbn [list_to_map foldr uncurry fst snd].
  repeat (rewrite lookup_insert_ne by done). apply lookup_empty.
Qed.

(** What a well-formed token response does, for any exchange that came
    back with it and left the dict alone. *)
Lemma refresh_token_answered a w resp w1 m created expires :
  has_keys w →
  session_request "post" (HttpClient.base_url (TokenAuth.client a) +:+ "/oauth/token")
    (HttpClient.headers (TokenAuth.client a)) (HttpClient.auth (TokenAuth.client a))
    (Body (refresh_data w)) w = (Ok resp, w1) →
  fields w1 = fields w →
  status_code resp ≠ 204 →
  HttpClient.error_map errors !! status_code resp = None →
  content resp = Some (VDict m) →
  as_int (default VNone (m !! "created_at")) = Some created →
  as_int (default VNone (m !! "expires_in")) = Some expires →
  in_datetime_range (created + expires) = true →
  ∃ w', TokenAuth.refresh_token errors a w = (Ok tt, w')
    ∧ fields w' =
        <["OAUTH_TOKEN_VALID" := VBool true]>
          (<["OAUTH_EXPIRES_AT" := VInt (created + expires)]>
             (<["OAUTH_REFRESH" := default VNone (m !! "refresh_token")]>
                (<["OAUTH_TOKEN" := default VNone (m !! "access_token")]> (fields w))))
    ∧ files w' = <[TokenAuth.config_path a := FileJson (VDict (persisted w'))]> (files w1).
Proof.
  intros Hk Hs Hf1 H204 Hmap Hc Hcr Hex Hrange.
  destruct (has_keys_lookup w "CLIENT_ID" Hk) as [cid Hcid]; [repeat constructor|].
  destruct (has_keys_lookup w "CLIENT_SECRET" Hk) as [sec Hsec]; [repeat constructor|].
  destruct (has_keys_lookup w "OAUTH_REFRESH" Hk) as [ref Href]; [repeat constructor|].
  destruct (has_keys_lookup w "REDIRECT_URI" Hk) as [uri Huri]; [repeat constructor|].
  rewrite (refresh_token_unfold a w _ _ _ _ Hcid Hsec Href Huri).
  unfold try_except, HttpClient.post. unfold bind at 1. unfold bind at 1.
  rewrite (request_answered _ "post" _ _ _ _ _ Hs).
  apply Z.eqb_neq in H204. rewrite H204, Hmap, Hc. simpl.
  assert (fields w1 !! "CLIENT_ID" = Some cid) as Hcid1 by (by rewrite Hf1).
  assert (fields w1 !! "CLIENT_SECRET" = Some sec) as Hsec1 by (by rewrite Hf1).
  rewrite bind_ret, bind_setitem, bind_ret, bind_setitem, !bind_ret.
  rewrite (bind_Ok _ _ _ _ _ (py_add_ints _ _ _ _ _ Hcr Hex)).
  rewrite !bind_setitem.
  erewrite bind_getitem by lookup_fields.
  rewrite (bind_Ok _ _ _ _ _ (fromtimestamp_in_range _ _ Hrange)).
  do 5 (erewrite bind_getitem by lookup_fields).
  eexists. split; [reflexivity|].
  unfold persisted. wsimpl. rewrite Hf1.
  split; [done|].
  repeat first [rewrite lookup_insert_eq | rewrite lookup_insert_ne by done].
  by rewrite Hcid, Hsec.
Qed.

(** C2 (amended). A refresh request that the session answers, the dict
    and the files being as they were when the answer is in.  On a token
    response (a JSON object with integer [created_at] and [expires_in]
    whose sum is a time [datetime] can represent) the token, the refresh
    token, the expiry [created_at + expires_in] and the valid flag are
    all set, and the config file is overwritten with five fields, the
    client id, the client secret, the token, the refresh token and the
    expiry: no other field is written, [APPLICATION_ID] in particular is
    not, though the dict keeps it.  On a status whose exception class is
    an [OAuthException] the call returns normally with the dict and the
    files as they were. *)
Theorem refresh_token_updates_or_keeps a w resp w1 :
  has_keys w →
  session_request "post" (HttpClient.base_url (TokenAuth.client a) +:+ "/oauth/token")
    (HttpClient.headers (TokenAuth.client a)) (HttpClient.auth (TokenAuth.client a))
    (Body (refresh_data w)) w = (Ok resp, w1) →
  fields w1 = fields w → files w1 = files w →
  status_code resp ≠ 204 →
  (∀ m created expires,
     HttpClient.error_map errors !! status_code resp = None →
     content resp = Some (VDict m) →
     as_int (default VNone (m !! "created_at")) = Some created →
     as_int (default VNone (m !! "expires_in")) = Some expires →
     in_datetime_range (created + expires) = true →
     ∃ w', TokenAuth.refresh_token errors a w = (Ok tt, w')
       ∧ fields w' !! "OAUTH_TOKEN" = Some (default VNone (m !! "access_token"))
       ∧ fields w' !! "OAUTH_REFRESH" = Some (default VNone (m !! "refresh_token"))
       ∧ fields w' !! "OAUTH_EXPIRES_AT" = Some (VInt (created + expires))
       ∧ fields w' !! "OAUTH_TOKEN_VALID" = Some (VBool true)
       ∧ fields w' !! "APPLICATION_ID" = fields w !! "APPLICATION_ID"
       ∧ files w' !! TokenAuth.config_path a = Some (FileJson (VDict (persisted w')))
       ∧ persisted w' !! "OAUTH_TOKEN" = Some (default VNone (m !! "access_token"))
       ∧ persisted w' !! "OAUTH_REFRESH" = Some (default VNone (m !! "refresh_token"))
       ∧ persisted w' !! "OAUTH_EXPIRES_AT" = Some (VInt (created + expires))
       ∧ persisted w' !! "CLIENT_ID" = fields w !! "CLIENT_ID"
       ∧ persisted w' !! "CLIENT_SECRET" = fields w !! "CLIENT_SECRET"
       ∧ persisted w' !! "APPLICATION_ID" = None
       ∧ (∀ k, k ∉ persisted_names → persisted w' !! k = None))
  ∧ (∀ cls,
       HttpClient.error_map errors !! status_code resp = Some cls →
       is_OAuthException errors cls = true →
       ∃ w', TokenAuth.refresh_token errors a w = (Ok tt, w')
         ∧ fields w' = fields w ∧ files w' = files w).
Proof.
  intros Hk Hs Hf1 Hfiles1 H204. split.
  - intros m created expires Hmap Hc Hcr Hex Hrange.
    destruct (refresh_token_answered a w resp w1 m created expires)
      as (w' & Hrun & Hf & Hfiles); try done.
    destruct (has_keys_lookup w "CLIENT_ID" Hk) as [cid Hcid]; [repeat constructor|].
    destruct (has_keys_lookup w "CLIENT_SECRET" Hk) as [sec Hsec]; [repeat constructor|].
    exists w'. split; [done|].
    split; [by rewrite Hf; simplify_map_eq|].
    split; [by rewrite Hf; simplify_map_eq|].
    split; [by rewrite Hf; simplify_map_eq|].
    split; [by rewrite Hf; simplify_map_eq|].
    split; [by rewrite Hf; simplify_map_eq|].
    split; [rewrite Hfiles; apply lookup_insert_eq|].
    split; [|split; [|split; [|split; [|split; [|split]]]]];
      try (unfold persisted; rewrite Hf;
           cbn [list_to_map foldr uncurry fst snd];
           repeat first [rewrite lookup_insert_eq | rewrite lookup_insert_ne by done];
           by rewrite ?Hcid, ?Hsec).
    intros k. apply persisted_other.
  - intros cls Hmap Hoauth.
    destruct (has_keys_lookup w "CLIENT_ID" Hk) as [cid Hcid]; [repeat constructor|].
    destruct (has_keys_lookup w "CLIENT_SECRET" Hk) as [sec Hsec]; [repeat constructor|].
    destruct (has_keys_lookup w "OAUTH_REFRESH" Hk) as [ref Href]; [repeat constructor|].
    destruct (has_keys_lookup w "REDIRECT_URI" Hk) as [uri Huri]; [repeat constructor|].
    rewrite (refresh_token_unfold a w _ _ _ _ Hcid Hsec Href Huri).
    unfold try_except, HttpClient.post. unfold bind at 1. unfold bind at 1.
    rewrite (request_answered _ "post" _ _ _ _ _ Hs).
    apply Z.eqb_neq in H204. rewrite H204, Hmap. simpl. rewrite Hoauth.
    eexists. split; [reflexivity|]. done.
Qed.


(** After a successful load, with the valid flag false and both the
    expiry and the refresh token known, [get_token] goes through
    [validate_token]. *)
Lemma get_token_routes a w wl valid exp ref :
  TokenAuth.load_config a w = (Ok tt, wl) →
  fields wl !! "OAUTH_TOKEN_VALID" = Some valid → truthy valid = false →
  fields wl !! "OAUTH_EXPIRES_AT" = Some exp → exp ≠ VNone →
  fields wl !! "OAUTH_REFRESH" = Some ref → ref ≠ VNone →
  TokenAuth.get_token errors a w =
  bind (TokenAuth.validate_token errors a)
    (λ _, client_id <~ TokenAuth.getitem "CLIENT_ID" ;;
          client_token <~ TokenAuth.getitem "OAUTH_TOKEN" ;;
          ret (client_id, client_token)) wl.
Proof.
  intros Hl Hv Ht He Hen Hr Hrn. unfold TokenAuth.get_token.
  rewrite (bind_Ok _ _ _ _ _ Hl).
  rewrite (bind_getitem _ _ _ _ Hv). rewrite Ht. cbn [negb].
  assert (negb (is_None exp) = true) as Hn1 by (by destruct exp).
  assert (negb (is_None ref) = true) as Hn2 by (by destruct ref).
  unfold bind at 1. unfold bind at 1.
  rewrite (getitem_Some _ _ _ He), Hn1.
  unfold bind at 1. rewrite (getitem_Some _ _ _ Hr).
  unfold ret at 1. by rewrite Hn2.
Qed.

(** The refresh decision when the refresh goes through a client without
    auth hook: an authentication attempt that reaches it (the load
    succeeded, the valid flag is false, expiry and refresh token are
    known), with an expiry [datetime] can represent.  If more than two
    days remain, the flag is set and the network is not touched;
    otherwise exactly one request, the refresh request, is sent. *)
Theorem validate_token_margin a w wl valid e ref :
  TokenAuth.load_config a w = (Ok tt, wl) →
  has_keys wl →
  HttpClient.auth (TokenAuth.client a) = None →
  fields wl !! "OAUTH_TOKEN_VALID" = Some valid → truthy valid = false →
  fields wl !! "OAUTH_EXPIRES_AT" = Some (VInt e) →
  in_datetime_range e = true →
  fields wl !! "OAUTH_REFRESH" = Some ref → ref ≠ VNone →
  (timedelta_days 2 < e * 1000000 - clock wl →
     ∃ cid tok w',
       TokenAuth.get_token errors a w = (Ok (cid, tok), w')
       ∧ fields w' !! "OAUTH_TOKEN_VALID" = Some (VBool true)
       ∧ sent w' = sent w ∧ inbox w' = inbox w ∧ files w' = files w)
  ∧ (e * 1000000 - clock wl ≤ timedelta_days 2 →
     ∃ r w',
       TokenAuth.get_token errors a w = (r, w')
       ∧ sent w' = (sent w ++ [refresh_request (TokenAuth.client a) wl])%list).
Proof.
  intros Hl Hk Hauth Hv Ht He Hrange Hr Hrn.
  rewrite (get_token_routes a w wl valid (VInt e) ref) by done.
  destruct (load_config_keeps _ _ _ _ Hl) as [(Fl & Il & Sl & _) _].
  destruct (has_keys_lookup wl "CLIENT_ID" Hk) as [cid Hcid]; [repeat constructor|].
  destruct (has_keys_lookup wl "OAUTH_TOKEN" Hk) as [tok Htok]; [repeat constructor|].
  unfold TokenAuth.validate_token.
  split; intros Hcmp.
  - exists cid, tok, (set_fields (insert "OAUTH_TOKEN_VALID" (VBool true)) wl).
    split; [|split; [apply lookup_insert_eq|done]].
    unfold bind at 1. unfold bind at 1. unfold now at 1.
    rewrite (bind_getitem _ _ _ _ He).
    rewrite (bind_Ok _ _ _ _ _ (fromtimestamp_in_range _ _ Hrange)).
    apply Z.ltb_lt in Hcmp. rewrite Hcmp.
    unfold TokenAuth.setitem, modify.
    erewrite bind_getitem by lookup_fields.
    erewrite bind_getitem by lookup_fields. done.
  - unfold bind at 1. unfold bind at 1. unfold now at 1.
    rewrite (bind_getitem _ _ _ _ He).
    rewrite (bind_Ok _ _ _ _ _ (fromtimestamp_in_range _ _ Hrange)).
    apply Z.ltb_ge in Hcmp. rewrite Hcmp.
    destruct (refresh_token_sends_once a wl Hk Hauth) as (r & wr & Hrun & Hs).
    rewrite Hrun. rewrite <- Sl, <- Hs.
    destruct r as [[]|ex]; [|eauto].
    match goal with |- ∃ r w0, ?c ?w1 = _ ∧ _ =>
      destruct (c w1) as [r0 w0] eqn:E; exists r0, w0; split; [done|];
      assert (network_quiet c) as Hq by auto 30 with quiet;
      by destruct (Hq _ _ _ E) as [-> _]
    end.
Qed.


Context (py_repr : value → string).

Lemma call_signs a r w cid tok w1 :
  TokenAuth.get_token errors a w = (Ok (cid, tok), w1) →
  TokenAuth.__call__ errors py_repr a r w = (Ok (signed py_repr cid tok r), w1).
Proof.
  intros H. unfold TokenAuth.__call__. by rewrite (bind_Ok _ _ _ _ _ H).
Qed.

(** What [get_token] returns is what the dict holds when it returns. *)
Lemma get_token_reads_dict a w cid tok w1 :
  TokenAuth.get_token errors a w = (Ok (cid, tok), w1) →
  fields w1 !! "CLIENT_ID" = Some cid ∧ fields w1 !! "OAUTH_TOKEN" = Some tok.
Proof.
  unfold TokenAuth.get_token. intros H.
  apply bind_inv_Ok in H as (? & w2 & _ & H).
  apply bind_inv_Ok in H as (? & w3 & _ & H).
  apply bind_inv_Ok in H as (? & w4 & _ & H).
  apply bind_inv_Ok in H as (? & w5 & _ & H).
  unfold bind, TokenAuth.getitem, ret in H.
  destruct (fields w5 !! "CLIENT_ID") as [k1|] eqn:E1; [|discriminate].
  destruct (fields w5 !! "OAUTH_TOKEN") as [k2|] eqn:E2; [|discriminate].
  by injection H as <- <- <-.
Qed.


(** C10. Signing with no token and no refresh path: when the load
    succeeds and leaves [OAUTH_TOKEN] unset and the condition for
    [validate_token] false, the hook returns normally, without touching
    the world any further, and the request it returns has the
    [Authorization] header ["Bearer None"]. *)
Theorem unset_token_signed_as_Bearer_None a r w wl :
  TokenAuth.load_config a w = (Ok tt, wl) →
  has_keys wl →
  fields wl !! "OAUTH_TOKEN" = Some VNone →
  no_refresh_path wl →
  ∃ cid r', fields wl !! "CLIENT_ID" = Some cid
    ∧ TokenAuth.__call__ errors py_repr a r w = (Ok r', wl)
    ∧ rq_headers r' !! "Authorization" = Some (VStr "Bearer None")
    ∧ rq_headers r' !! "trakt-api-key" = Some cid.
Proof.
  intros Hl Hk Htok Hno.
  destruct (has_keys_lookup wl "CLIENT_ID" Hk) as [cid Hcid]; [repeat constructor|].
  destruct (has_keys_lookup wl "OAUTH_TOKEN_VALID" Hk) as [valid Hv]; [repeat constructor|].
  destruct (has_keys_lookup wl "OAUTH_EXPIRES_AT" Hk) as [exp He]; [repeat constructor|].
  destruct (has_keys_lookup wl "OAUTH_REFRESH" Hk) as [ref Hr]; [repeat constructor|].
  assert (TokenAuth.get_token errors a w = (Ok (cid, VNone), wl)) as Hget.
  { unfold TokenAuth.get_token.
    rewrite (bind_Ok _ _ _ _ _ Hl), (bind_getitem _ _ _ _ Hv).
    assert ((if negb (truthy valid)
             then (exp0 <~ TokenAuth.getitem "OAUTH_EXPIRES_AT" ;;
                   if negb (is_None exp0)
                   then (ref0 <~ TokenAuth.getitem "OAUTH_REFRESH" ;;
                         ret (negb (is_None ref0)))
                   else ret false)
             else ret false) wl = (Ok false, wl)) as Hgo.
    { destruct (Hno _ _ _ Hv He Hr) as [Ht|[->| ->]].
      - by rewrite Ht.
      - destruct (negb (truthy valid)); [|done].
        by rewrite (bind_getitem _ _ _ _ He).
      - destruct (negb (truthy valid)); [|done].
        rewrite (bind_getitem _ _ _ _ He).
        destruct (negb (is_None exp)); [|done].
        by rewrite (bind_getitem _ _ _ _ Hr). }
    rewrite (bind_Ok _ _ _ _ _ Hgo). rewrite bind_ret.
    by rewrite (bind_getitem _ _ _ _ Hcid), (bind_getitem _ _ _ _ Htok). }
  exists cid, (signed py_repr cid VNone r).
  split; [done|]. split; [by apply call_signs|].
  unfold signed. cbn [rq_headers TokenAuth.py_str].
  split; [by rewrite lookup_header_assign_eq|].
  by rewrite lookup_header_assign_other, lookup_header_assign_eq.
Qed.

(** The refresh request goes through [self.client], so it is signed like
    any other request.  When the client's hook is the [TokenAuth] itself,
    asking for the token in a state that calls for a refresh asks for the
    refresh again: the calls nest until the stack is exhausted, and no
    request goes out. *)
Lemma refresh_reenters_when_self_signed base hdrs path depth r w valid e ref :
  has_keys w →
  is_set w "CLIENT_ID" → is_set w "CLIENT_SECRET" →
  fields w !! "OAUTH_TOKEN_VALID" = Some valid → truthy valid = false →
  fields w !! "OAUTH_EXPIRES_AT" = Some (VInt e) →
  in_datetime_range e = true →
  e * 1000000 - clock w ≤ timedelta_days 2 →
  fields w !! "OAUTH_REFRESH" = Some ref → ref ≠ VNone →
  self_signed errors py_repr base hdrs path depth r w = (Raise RecursionError, w).
Proof.
  intros Hk Hid Hsec Hv Ht He Hrange Hcmp Hr Hrn. revert r.
  destruct (has_keys_lookup w "REDIRECT_URI" Hk) as [uri Huri]; [repeat constructor|].
  induction depth as [|depth IH]; intros r; [reflexivity|].
  cbn [self_signed]. unfold TokenAuth.__call__. apply bind_Raise.
  rewrite (get_token_routes _ w w valid (VInt e) ref) by
    (try done; by apply load_config_noop_set).
  apply bind_Raise. unfold TokenAuth.validate_token.
  unfold bind at 1. unfold now at 1.
  rewrite (bind_getitem _ _ _ _ He).
  rewrite (bind_Ok _ _ _ _ _ (fromtimestamp_in_range _ _ Hrange)).
  apply Z.ltb_ge in Hcmp. rewrite Hcmp.
  destruct Hid as (cid & Hcid & _). destruct Hsec as (sec & Hsec & _).
  rewrite (refresh_token_unfold _ w _ _ _ _ Hcid Hsec Hr Huri).
  apply bind_Raise. unfold try_except.
  cbn [TokenAuth.client]. unfold HttpClient.post.
  rewrite (bind_Raise _ _ _ RecursionError w); [reflexivity|].
  rewrite request_unfold. apply bind_Raise.
  unfold session_request. cbn [HttpClient.auth].
  apply bind_Raise. apply IH.
Qed.

(** C3 (code bug). A [TokenAuth] attached to the client it holds, as
    [client.set_auth(auth)] leaves the two, with the client id and secret
    set, the valid flag false, a refresh token known and two days or less
    to the expiry.  Whatever room the stack has, [get_token] ends in
    [RecursionError] and so does every request made through the client:
    the world is as it was, so the refresh request was never sent, nor
    the caller's, and no waiting response was consumed. *)
Theorem refresh_through_own_client_recurses c path depth method url data w valid e ref :
  has_keys w →
  is_set w "CLIENT_ID" → is_set w "CLIENT_SECRET" →
  fields w !! "OAUTH_TOKEN_VALID" = Some valid → truthy valid = false →
  fields w !! "OAUTH_EXPIRES_AT" = Some (VInt e) →
  in_datetime_range e = true →
  e * 1000000 - clock w ≤ timedelta_days 2 →
  fields w !! "OAUTH_REFRESH" = Some ref → ref ≠ VNone →
  HttpClient.auth (self_signing errors py_repr c path (S depth))
  = Some (TokenAuth.__call__ errors py_repr
            (TokenAuth.Make (self_signing errors py_repr c path depth) path))
  ∧ TokenAuth.get_token errors
      (TokenAuth.Make (self_signing errors py_repr c path depth) path) w
    = (Raise RecursionError, w)
  ∧ HttpClient.request errors (self_signing errors py_repr c path depth)
      method url data w
    = (Raise RecursionError, w).
Proof.
  intros Hk Hid Hsec Hv Ht He Hrange Hcmp Hr Hrn.
  assert (∀ rq, self_signed errors py_repr (HttpClient.base_url c)
                  (HttpClient.headers c) path depth rq w
                = (Raise RecursionError, w)) as Hhook.
  { intros rq. by eapply refresh_reenters_when_self_signed. }
  assert (∀ method' url' data',
            HttpClient.request errors (self_signing errors py_repr c path depth)
              method' url' data' w = (Raise RecursionError, w)) as Hreq.
  { intros method' url' data'. rewrite request_unfold. apply bind_Raise.
    unfold session_request, self_signing.
    cbn [HttpClient.auth HttpClient.set_auth].
    apply bind_Raise. apply Hhook. }
  split; [reflexivity|]. split; [|apply Hreq].
  destruct (has_keys_lookup w "REDIRECT_URI" Hk) as [uri Huri]; [repeat constructor|].
  rewrite (get_token_routes _ w w valid (VInt e) ref) by
    (try done; by apply load_config_noop_set).
  apply bind_Raise. unfold TokenAuth.validate_token.
  unfold bind at 1. unfold now at 1.
  rewrite (bind_getitem _ _ _ _ He).
  rewrite (bind_Ok _ _ _ _ _ (fromtimestamp_in_range _ _ Hrange)).
  apply Z.ltb_ge in Hcmp. rewrite Hcmp.
  destruct Hid as (cid & Hcid & _). destruct Hsec as (sec & Hsec & _).
  rewrite (refresh_token_unfold _ w _ _ _ _ Hcid Hsec Hr Huri).
  apply bind_Raise. unfold try_except.
  cbn [TokenAuth.client]. unfold HttpClient.post.
  rewrite (bind_Raise _ _ _ RecursionError w); [reflexivity|].
  apply Hreq.
Qed.

End TokenAuthProperties.

(** ** [DeviceAuth] *)

Section DeviceAuthProperties.
Context (get_client_info : M (value * value)).
Context (py_repr : value → string).

(** Once the first computation is past, the rest raises. *)
Lemma raises_after {A B} (c : M A) (k : A → M B) w :
  (∀ a w1, ∃ e w', k a w1 = (Raise e, w')) →
  ∃ e w', bind c k w = (Raise e, w').
Proof.
  intros Hk. unfold bind. destruct (c w) as [[a|e] w1]; [apply Hk | eauto].
Qed.

(** [HttpClient.post] never hands out a response object. *)
Lemma of_HttpClient_yields_value errors c url data w o w' :
  of_HttpClient errors c url data w = (Ok o, w') → ∃ v, o = OValue v.
Proof.
  unfold of_HttpClient. intros H.
  apply bind_inv_Ok in H as (v & w1 & _ & H). injection H as <- _. eauto.
Qed.

(** The status test of [get_device_token] is never reached with a value
    that has a [status_code]. *)
Lemma get_device_token_over_HttpClient errors c path cid sec st device_code store w :
  ∃ e w',
    DeviceAuth.get_device_token
      (DeviceAuth.Make (of_HttpClient errors c) path cid sec st)
      device_code store w = (Raise e, w').
Proof.
  unfold DeviceAuth.get_device_token.
  apply raises_after. intros cid' w1.
  apply raises_after. intros sec' w2.
  cbn [DeviceAuth.client].
  unfold bind at 1.
  destruct (of_HttpClient errors c _ _ w2) as [[o|e] w3] eqn:E; [|eauto].
  apply of_HttpClient_yields_value in E as [v ->].
  cbn [attr_status_code]. rewrite bind_raise. eauto.
Qed.

(** The same on a hook-free client, to the exception: the world moves
    by the one exchange and nothing else. *)
Lemma get_device_token_over_plain_HttpClient
    errors c path cid sec st device_code store w resp rest cid' sec' :
  HttpClient.auth c = None →
  config w !! "CLIENT_ID" = Some cid' →
  config w !! "CLIENT_SECRET" = Some sec' →
  inbox w = resp :: rest →
  DeviceAuth.get_device_token
    (DeviceAuth.Make (of_HttpClient errors c) path cid sec st)
    device_code store w
  = (Raise (poll_exception errors resp),
     after_exchange (device_token_request c device_code cid' sec') rest w).
Proof.
  intros Hauth Hid Hsec Hin.
  unfold DeviceAuth.get_device_token, DeviceAuth.config_getattr.
  unfold bind at 1. rewrite Hid. unfold bind at 1. rewrite Hsec.
  cbn [DeviceAuth.client]. unfold of_HttpClient, HttpClient.post.
  unfold bind at 1. unfold bind at 1.
  rewrite (request_plain errors _ _ _ _ _ Hauth), Hin.
  unfold poll_exception, device_token_request. cbn zeta.
  destruct (status_code resp =? 204); [reflexivity|].
  destruct (HttpClient.error_map errors !! status_code resp); [reflexivity|].
  destruct (content resp); reflexivity.
Qed.

(** C1. With an [HttpClient] as its client, the polling loop of
    [authenticate] ends its first round in an exception, whatever the
    server answers: on a status of the failure table [HttpClient.request]
    raises that status's exception, on 204 and on any JSON body the
    result has no [status_code], and a body that is not JSON raises from
    the decoder.  No branch of the loop on the status is ever taken: on a
    hook-free client the world changes by the one exchange only, so the
    config gets no token, nothing is written, slept or printed. *)
Theorem poll_over_HttpClient_raises errors c path cid sec st fuel device_code interval w :
  (∃ e w',
     DeviceAuth.poll py_repr (S fuel)
       (DeviceAuth.Make (of_HttpClient errors c) path cid sec st)
       device_code interval w = (Raise e, w'))
  ∧ (∀ resp rest cid' sec',
       HttpClient.auth c = None →
       config w !! "CLIENT_ID" = Some cid' →
       config w !! "CLIENT_SECRET" = Some sec' →
       inbox w = resp :: rest →
       DeviceAuth.poll py_repr (S fuel)
         (DeviceAuth.Make (of_HttpClient errors c) path cid sec st)
         device_code interval w
       = (Raise (poll_exception errors resp),
          after_exchange (device_token_request c device_code cid' sec') rest w)).
Proof.
  split.
  - cbn [DeviceAuth.poll DeviceAuth.store]. unfold bind at 1.
    destruct (get_device_token_over_HttpClient errors c path cid sec st
                device_code st w) as (e & w' & ->).
    eauto.
  - intros resp rest cid' sec' Hauth Hid Hsec Hin.
    cbn [DeviceAuth.poll DeviceAuth.store]. apply bind_Raise.
    by apply get_device_token_over_plain_HttpClient.
Qed.

End DeviceAuthProperties.

(** ** The statements at concrete inputs *)

Lemma request_raises_mapped_error_witness :
  ∃ e, HttpClient.request Sample.errors Sample.client "get" "/users/me" VNone
         (Sample.world_of Sample.unset [Sample.unauthorized])
       = (Raise e, after_exchange
                     (Request "get" "https://api.trakt.tv/users/me" ∅ (Params VNone))
                     [] (Sample.world_of Sample.unset [Sample.unauthorized]))
       ∧ e = TraktError (Build_ErrClass "OAuthException" 401) Sample.unauthorized
       ∧ http_code (Build_ErrClass "OAuthException" 401) = status_code Sample.unauthorized
       ∧ carried_response e = Some Sample.unauthorized.
Proof.
  apply (request_raises_mapped_error Sample.errors Sample.client "get" "/users/me" VNone).
  - reflexivity.
  - discriminate.
  - reflexivity.
Defined.

(** C5 as stated fails: a 200 response whose body is [null] gives the very
    result a 204 response gives. *)
Lemma no_content_same_as_null_body :
  status_code Sample.no_content = 204
  ∧ status_code Sample.null_body = 200
  ∧ content Sample.null_body = Some VNone
  ∧ fst (HttpClient.request Sample.errors Sample.client "get" "/sync" VNone
           (Sample.world_of Sample.unset [Sample.no_content]))
    = fst (HttpClient.request Sample.errors Sample.client "get" "/sync" VNone
             (Sample.world_of Sample.unset [Sample.null_body])).
Proof. repeat split. Qed.

Lemma request_204_returns_None_witness :
  HttpClient.request Sample.errors Sample.client "post" "/sync/history"
    (VDict ∅) (Sample.world_of Sample.unset [Sample.no_content])
  = (Ok VNone,
     after_exchange
       (Request "post" "https://api.trakt.tv/sync/history" ∅ (Body (VDict ∅)))
       [] (Sample.world_of Sample.unset [Sample.no_content])).
Proof.
  apply (request_204_returns_None Sample.errors Sample.client "post"
           "/sync/history" (VDict ∅) _ Sample.no_content).
  - reflexivity.
  - reflexivity.
Defined.

Lemma delete_returns_None_witness :
  HttpClient.request Sample.errors Sample.client "delete" "/users/me/lists/1" VNone
    (Sample.world_of Sample.unset [Sample.empty_object])
  = (Ok (VDict ∅),
     after_exchange
       (Request "delete" "https://api.trakt.tv/users/me/lists/1" ∅ (Body VNone))
       [] (Sample.world_of Sample.unset [Sample.empty_object]))
  ∧ HttpClient.delete Sample.errors Sample.client "/users/me/lists/1"
      (Sample.world_of Sample.unset [Sample.empty_object])
    = (Ok VNone,
       after_exchange
         (Request "delete" "https://api.trakt.tv/users/me/lists/1" ∅ (Body VNone))
         [] (Sample.world_of Sample.unset [Sample.empty_object])).
Proof.
  destruct (delete_returns_None Sample.errors Sample.client "/users/me/lists/1"
              (Sample.world_of Sample.unset [Sample.empty_object])) as [_ H].
  destruct (H Sample.empty_object
              (after_exchange
                 (Request "delete" "https://api.trakt.tv/users/me/lists/1" ∅ (Body VNone))
                 [] (Sample.world_of Sample.unset [Sample.empty_object])))
    as [Hbody _].
  - reflexivity.
  - discriminate.
  - apply (Hbody (VDict ∅)); reflexivity.
Defined.

Lemma load_config_never_overwrites_witness :
  fields (snd (TokenAuth.load_config Sample.auth
                 (Sample.with_file Sample.config_file
                    (Sample.world_of Sample.id_only [])))) !! "CLIENT_ID"
  = Some (VStr "my-id").
Proof.
  destruct (load_config_never_overwrites Sample.auth
              (Sample.with_file Sample.config_file (Sample.world_of Sample.id_only []))
              _ _ (surjective_pairing _)) as (H & _).
  apply (H "CLIENT_ID" (VStr "my-id")).
  - reflexivity.
  - discriminate.
Defined.

Lemma store_then_load_round_trip_witness :
  ∃ w2,
    TokenAuth.load_config Sample.auth
      (snd (TokenAuth.store_token Sample.auth Sample.kwargs
              (Sample.with_file Sample.config_file (Sample.world_of Sample.unset []))))
    = (Ok tt, w2)
    ∧ fields w2 !! "OAUTH_TOKEN" = Some (VStr "new-token")
    ∧ fields w2 !! "APPLICATION_ID" = Some VNone.
Proof.
  destruct (store_then_load_round_trip Sample.auth Sample.kwargs
              (Sample.with_file Sample.config_file (Sample.world_of Sample.unset [])))
    as (w1 & w2 & Hs & _ & _ & _ & Hl & Hk & _).
  - intros k Hk. unfold TokenAuth.keys in Hk.
    repeat (apply elem_of_cons in Hk as [->|Hk]; [reflexivity|]).
    by apply elem_of_nil in Hk.
  - exists w2. rewrite Hs. split; [exact Hl|]. split.
    + apply (Hk "OAUTH_TOKEN"). unfold TokenAuth.keys. repeat constructor.
    + apply (Hk "APPLICATION_ID"). unfold TokenAuth.keys. repeat constructor.
Defined.

Lemma sample_has_keys p answers : has_keys (Sample.world_of p answers).
Proof. apply init_has_keys. Qed.

(** C2 as stated fails: the refresh succeeds and the file it writes is
    not the full credential set.  The dict holds an application id, which
    the file held too before the refresh, and the file written has
    none. *)
Lemma refresh_does_not_persist_application_id :
  let w := Sample.with_file Sample.application_file
             (Sample.world_of Sample.with_application [Sample.token_response]) in
  let out := TokenAuth.refresh_token Sample.errors Sample.auth w in
  files w !! "pytrakt.json" = Some Sample.application_file
  ∧ fst out = Ok tt
  ∧ fields (snd out) !! "APPLICATION_ID" = Some (VStr "my-app")
  ∧ fields (snd out) !! "OAUTH_TOKEN" = Some (VStr "new-token")
  ∧ files (snd out) !! "pytrakt.json" =
      Some (FileJson (VDict (list_to_map [
        ("CLIENT_ID", VStr "my-id");
        ("CLIENT_SECRET", VStr "my-secret");
        ("OAUTH_TOKEN", VStr "new-token");
        ("OAUTH_REFRESH", VStr "new-refresh");
        ("OAUTH_EXPIRES_AT", VInt 1707776000)]))).
Proof. vm_compute. repeat split. Qed.

Lemma refresh_token_updates_or_keeps_witness :
  (∃ w', TokenAuth.refresh_token Sample.errors Sample.auth
           (Sample.world_of
              (Sample.params (VInt (Sample.now_s + 3600)) (VStr "old-token") (VBool false))
              [Sample.token_response]) = (Ok tt, w')
     ∧ fields w' !! "OAUTH_TOKEN" = Some (VStr "new-token")
     ∧ fields w' !! "OAUTH_REFRESH" = Some (VStr "new-refresh")
     ∧ fields w' !! "OAUTH_EXPIRES_AT" = Some (VInt 1707776000)
     ∧ fields w' !! "OAUTH_TOKEN_VALID" = Some (VBool true)
     ∧ files w' !! "pytrakt.json" = Some (FileJson (VDict (persisted w')))
     ∧ persisted w' !! "APPLICATION_ID" = None)
  ∧ (∃ w', TokenAuth.refresh_token Sample.errors Sample.auth
             (Sample.world_of
                (Sample.params (VInt (Sample.now_s + 3600)) (VStr "old-token") (VBool false))
                [Sample.unauthorized]) = (Ok tt, w')
       ∧ fields w' !! "OAUTH_TOKEN" = Some (VStr "old-token")
       ∧ files w' = ∅).
Proof.
  split.
  - destruct (refresh_token_updates_or_keeps Sample.errors Sample.auth
                (Sample.world_of
                   (Sample.params (VInt (Sample.now_s + 3600)) (VStr "old-token") (VBool false))
                   [Sample.token_response])
                Sample.token_response
                (after_exchange
                   (refresh_request Sample.client
                      (Sample.world_of
                         (Sample.params (VInt (Sample.now_s + 3600)) (VStr "old-token")
                            (VBool false))
                         [Sample.token_response]))
                   []
                   (Sample.world_of
                      (Sample.params (VInt (Sample.now_s + 3600)) (VStr "old-token")
                         (VBool false))
                      [Sample.token_response]))) as [H _].
    + apply sample_has_keys.
    + reflexivity.
    + reflexivity.
    + reflexivity.
    + discriminate.
    + destruct (H (list_to_map [
                ("access_token", VStr "new-token");
                ("token_type", VStr "bearer");
                ("expires_in", VInt 7776000);
                ("refresh_token", VStr "new-refresh");
                ("scope", VStr "public");
                ("created_at", VInt 1700000000)]) 1700000000 7776000)
        as (w' & Hrun & H1 & H2 & H3 & H4 & _ & H5 & _ & _ & _ & _ & _ & H6 & _);
        try (vm_compute; reflexivity).
      exists w'. repeat split; assumption.
  - destruct (refresh_token_updates_or_keeps Sample.errors Sample.auth
                (Sample.world_of
                   (Sample.params (VInt (Sample.now_s + 3600)) (VStr "old-token") (VBool false))
                   [Sample.unauthorized])
                Sample.unauthorized
                (after_exchange
                   (refresh_request Sample.client
                      (Sample.world_of
                         (Sample.params (VInt (Sample.now_s + 3600)) (VStr "old-token")
                            (VBool false))
                         [Sample.unauthorized]))
                   []
                   (Sample.world_of
                      (Sample.params (VInt (Sample.now_s + 3600)) (VStr "old-token")
                         (VBool false))
                      [Sample.unauthorized]))) as [_ H].
    + apply sample_has_keys.
    + reflexivity.
    + reflexivity.
    + reflexivity.
    + discriminate.
    + destruct (H (Build_ErrClass "OAuthException" 401))
        as (w' & Hrun & Hf & Hfiles); try (vm_compute; reflexivity).
      exists w'. split; [exact Hrun|]. rewrite Hf, Hfiles. split; reflexivity.
Defined.

Lemma validate_token_margin_witness :
  (∃ cid tok w',
     TokenAuth.get_token Sample.errors Sample.auth
       (Sample.world_of
          (Sample.params (VInt (Sample.now_s + 3 * 86400)) (VStr "old-token") VNone)
          [Sample.token_response]) = (Ok (cid, tok), w')
     ∧ fields w' !! "OAUTH_TOKEN_VALID" = Some (VBool true)
     ∧ sent w' = [] ∧ inbox w' = [Sample.token_response])
  ∧ (∃ r w',
       TokenAuth.get_token Sample.errors Sample.auth
         (Sample.world_of
            (Sample.params (VInt (Sample.now_s + 3600)) (VStr "old-token") VNone)
            [Sample.token_response]) = (r, w')
       ∧ length (sent w') = 1%nat).
Proof.
  split.
  - destruct (validate_token_margin Sample.errors Sample.auth
                (Sample.world_of
                   (Sample.params (VInt (Sample.now_s + 3 * 86400)) (VStr "old-token") VNone)
                   [Sample.token_response])
                (Sample.world_of
                   (Sample.params (VInt (Sample.now_s + 3 * 86400)) (VStr "old-token") VNone)
                   [Sample.token_response])
                VNone (Sample.now_s + 3 * 86400) (VStr "old-refresh")) as [H _];
      try reflexivity; try discriminate.
    + apply sample_has_keys.
    + destruct H as (cid & tok & w' & Hrun & Hv & Hs & Hi & _); [reflexivity|].
      exists cid, tok, w'. repeat split; assumption.
  - destruct (validate_token_margin Sample.errors Sample.auth
                (Sample.world_of
                   (Sample.params (VInt (Sample.now_s + 3600)) (VStr "old-token") VNone)
                   [Sample.token_response])
                (Sample.world_of
                   (Sample.params (VInt (Sample.now_s + 3600)) (VStr "old-token") VNone)
                   [Sample.token_response])
                VNone (Sample.now_s + 3600) (VStr "old-refresh")) as [_ H];
      try reflexivity; try discriminate.
    + apply sample_has_keys.
    + destruct H as (r & w' & Hrun & Hs); [discriminate|].
      exists r, w'. split; [exact Hrun|]. rewrite Hs. reflexivity.
Defined.

Lemma refresh_through_own_client_recurses_witness :
  let w := Sample.world_of
             (Sample.params (VInt (Sample.now_s + 3600)) (VStr "old-token") VNone)
             [Sample.token_response] in
  HttpClient.request Sample.errors
    (self_signing Sample.errors Sample.repr Sample.client "pytrakt.json" 60)
    "get" "/users/me" VNone w
  = (Raise RecursionError, w)
  ∧ sent w = [] ∧ inbox w = [Sample.token_response].
Proof.
  cbn zeta. split; [|split; reflexivity].
  apply (refresh_through_own_client_recurses Sample.errors Sample.repr Sample.client
           "pytrakt.json" 60 "get" "/users/me" VNone _ VNone (Sample.now_s + 3600)
           (VStr "old-refresh")).
  - apply sample_has_keys.
  - exists (VStr "my-id"). split; [vm_compute; reflexivity | discriminate].
  - exists (VStr "my-secret"). split; [vm_compute; reflexivity | discriminate].
  - vm_compute. reflexivity.
  - reflexivity.
  - vm_compute. reflexivity.
  - reflexivity.
  - vm_compute. discriminate.
  - vm_compute. reflexivity.
  - discriminate.
Defined.


Lemma unset_token_signed_as_Bearer_None_witness :
  ∃ r',
    TokenAuth.__call__ Sample.errors Sample.repr Sample.auth
      (Request "get" "https://api.trakt.tv/users/me" ∅ (Params VNone))
      (Sample.world_of (Sample.params VNone VNone VNone) [])
    = (Ok r', Sample.world_of (Sample.params VNone VNone VNone) [])
    ∧ rq_headers r' !! "Authorization" = Some (VStr "Bearer None").
Proof.
  destruct (unset_token_signed_as_Bearer_None Sample.errors Sample.repr Sample.auth
              (Request "get" "https://api.trakt.tv/users/me" ∅ (Params VNone))
              (Sample.world_of (Sample.params VNone VNone VNone) [])
              (Sample.world_of (Sample.params VNone VNone VNone) []))
    as (cid & r' & _ & Hrun & Hau & _).
  - reflexivity.
  - apply sample_has_keys.
  - reflexivity.
  - intros valid exp ref _ He _. right. left.
    vm_compute in He. by injection He as <-.
  - exists r'. split; assumption.
Defined.

(** ** The edges of the statements, at concrete inputs *)

(** Exactly two days left is not more than two days: the refresh request
    goes out. *)
Example margin_of_exactly_two_days :
  let out := TokenAuth.get_token Sample.errors Sample.auth
               (Sample.world_of
                  (Sample.params (VInt (Sample.now_s + 2 * 86400)) (VStr "old-token") VNone)
                  [Sample.token_response]) in
  fst out = Ok (VStr "my-id", VStr "new-token")
  ∧ sent (snd out)
    = [refresh_request Sample.client
         (Sample.world_of
            (Sample.params (VInt (Sample.now_s + 2 * 86400)) (VStr "old-token") VNone)
            [Sample.token_response])].
Proof. vm_compute. split; reflexivity. Qed.

(** A 200 answer to the refresh request without [created_at] is no token
    response: the sum raises after the two tokens were assigned, and
    nothing is written. *)
Example refresh_on_truncated_answer :
  let out := TokenAuth.refresh_token Sample.errors Sample.auth
               (Sample.world_of
                  (Sample.params (VInt (Sample.now_s + 3600)) (VStr "old-token") VNone)
                  [Sample.truncated_token_response]) in
  fst out = Raise TypeError
  ∧ fields (snd out) !! "OAUTH_TOKEN" = Some (VStr "new-token")
  ∧ fields (snd out) !! "OAUTH_EXPIRES_AT" = Some (VInt (Sample.now_s + 3600))
  ∧ fields (snd out) !! "OAUTH_TOKEN_VALID" = Some VNone
  ∧ files (snd out) = ∅.
Proof. vm_compute. repeat split. Qed.

(** A failure other than [OAuthException] is not swallowed. *)
Example refresh_on_server_error :
  let out := TokenAuth.refresh_token Sample.errors Sample.auth
               (Sample.world_of
                  (Sample.params (VInt (Sample.now_s + 3600)) (VStr "old-token") VNone)
                  [Response 500 "Internal Server Error" None]) in
  fst out = Raise (TraktError (Build_ErrClass "TraktInternalException" 500)
                     (Response 500 "Internal Server Error" None))
  ∧ fields (snd out) !! "OAUTH_TOKEN" = Some (VStr "old-token").
Proof. vm_compute. split; reflexivity. Qed.

(** An unset token is read from the config file by the load step, when
    the client secret is unset too: the header then carries the token of
    the file. *)
Example unset_token_filled_from_file :
  let out := TokenAuth.__call__ Sample.errors Sample.repr Sample.auth
               (Request "get" "https://api.trakt.tv/users/me" ∅ (Params VNone))
               (Sample.with_file Sample.config_file (Sample.world_of Sample.id_only [])) in
  ∃ r', fst out = Ok r'
        ∧ rq_headers r' !! "Authorization" = Some (VStr "Bearer file-token")
        ∧ rq_headers r' !! "trakt-api-key" = Some (VStr "my-id")
        ∧ sent (snd out) = [].
Proof. eexists. vm_compute. repeat split. Qed.

(** ** The device flow at concrete inputs *)

(** The scenario of the spec: the code request is answered, the first
    poll is answered 400.  With a failure table that lists 400,
    [HttpClient.request] raises its exception out of [authenticate]. *)
Example authenticate_pending_raises_mapped :
  fst (DeviceAuth.authenticate (ret (VNone, VNone)) Sample.repr 10
         (Sample.device Sample.errors)
         (Sample.device_world [Sample.code_response; Sample.pending; Sample.pending;
                               Sample.slow_down; Sample.token_response]))
  = Raise (TraktError (Build_ErrClass "BadRequestException" 400) Sample.pending).
Proof. vm_compute. reflexivity. Qed.

(** With a failure table that lists nothing, the body of the 400 response
    is decoded and returned, and has no [status_code]. *)
Example authenticate_pending_raises_attribute :
  fst (DeviceAuth.authenticate (ret (VNone, VNone)) Sample.repr 10
         (Sample.device Sample.no_errors)
         (Sample.device_world [Sample.code_response; Sample.pending; Sample.pending;
                               Sample.slow_down; Sample.token_response]))
  = Raise (AttributeError "status_code").
Proof. vm_compute. reflexivity. Qed.

(** A poll answered 200 with the token fares no better, and the config
    never receives the token. *)
Example authenticate_granted_raises :
  let out := DeviceAuth.authenticate (ret (VNone, VNone)) Sample.repr 10
               (Sample.device Sample.errors)
               (Sample.device_world [Sample.code_response; Sample.token_response]) in
  fst out = Raise (AttributeError "status_code")
  ∧ config (snd out) !! "OAUTH_TOKEN" = None
  ∧ files (snd out) = ∅
  ∧ slept (snd out) = [].
Proof. vm_compute. repeat split. Qed.

(** ** The loop of [authenticate] on response objects

    What the branches of the loop do when [get_device_token] does return
    a response object, as a client other than [HttpClient] could make it. *)

Section PollOnResponses.
Context (py_repr : value → string).
Context (d : DeviceAuth.t) (device_code : value).

Lemma sleep_whole i w :
  0 ≤ i → i ≤ MAX_SLEEP → sleep (VInt i) w = (Ok tt, after_sleep i w).
Proof.
  intros Hi Hmax. unfold sleep. cbn [as_int].
  apply Z.ltb_ge in Hi, Hmax. by rewrite Hi, Hmax.
Qed.

Lemma sleep_too_long i w :
  MAX_SLEEP < i → sleep (VInt i) w = (Raise OverflowError, w).
Proof.
  intros Hmax. unfold sleep. cbn [as_int].
  assert ((i <? 0) = false) as -> by (apply Z.ltb_ge; unfold MAX_SLEEP in Hmax; lia).
  apply Z.ltb_lt in Hmax. by rewrite Hmax.
Qed.

Lemma poll_pending fuel i w r w1 :
  DeviceAuth.get_device_token d device_code (DeviceAuth.store d) w
    = (Ok (OResponse r), w1) →
  status_code r = 400 → 0 ≤ i → i ≤ MAX_SLEEP →
  DeviceAuth.poll py_repr (S fuel) d device_code (VInt i) w
  = DeviceAuth.poll py_repr fuel d device_code (VInt i) (after_sleep i w1).
Proof.
  intros Hg Hs Hi Hmax. cbn [DeviceAuth.poll].
  rewrite (bind_Ok _ _ _ _ _ Hg). cbn [attr_status_code].
  rewrite bind_ret, Hs. cbn [Z.eqb Pos.eqb negb].
  by rewrite (bind_Ok _ _ _ _ _ (sleep_whole i w1 Hi Hmax)).
Qed.

Lemma poll_slow_down fuel i w r w1 :
  DeviceAuth.get_device_token d device_code (DeviceAuth.store d) w
    = (Ok (OResponse r), w1) →
  status_code r = 429 → 0 ≤ i → i * 2 ≤ MAX_SLEEP →
  DeviceAuth.poll py_repr (S fuel) d device_code (VInt i) w
  = DeviceAuth.poll py_repr fuel d device_code (VInt (i * 2)) (after_sleep (i * 2) w1).
Proof.
  intros Hg Hs Hi Hmax. cbn [DeviceAuth.poll].
  rewrite (bind_Ok _ _ _ _ _ Hg). cbn [attr_status_code].
  rewrite bind_ret, Hs. cbn [Z.eqb Pos.eqb py_double].
  rewrite bind_ret.
  by rewrite (bind_Ok _ _ _ _ _ (sleep_whole (i * 2) w1 ltac:(lia) Hmax)).
Qed.

(** A 429 that doubles the interval past what [sleep] takes ends the loop
    in [OverflowError]. *)
Lemma poll_slow_down_too_long fuel i w r w1 :
  DeviceAuth.get_device_token d device_code (DeviceAuth.store d) w
    = (Ok (OResponse r), w1) →
  status_code r = 429 → MAX_SLEEP < i * 2 →
  DeviceAuth.poll py_repr (S fuel) d device_code (VInt i) w
  = (Raise OverflowError, w1).
Proof.
  intros Hg Hs Hmax. cbn [DeviceAuth.poll].
  rewrite (bind_Ok _ _ _ _ _ Hg). cbn [attr_status_code].
  rewrite bind_ret, Hs. cbn [Z.eqb Pos.eqb py_double].
  rewrite bind_ret.
  by rewrite (bind_Raise _ _ _ _ _ (sleep_too_long (i * 2) w1 Hmax)).
Qed.

Lemma poll_terminal fuel interval w r w1 :
  DeviceAuth.get_device_token d device_code (DeviceAuth.store d) w
    = (Ok (OResponse r), w1) →
  status_code r ≠ 200 → status_code r ≠ 429 → status_code r ≠ 400 →
  DeviceAuth.poll py_repr (S fuel) d device_code interval w
  = (Ok (Some (OResponse r)),
     after_print (default (reason r) (DeviceAuth.error_messages !! status_code r)) w1).
Proof.
  intros Hg H200 H429 H400. cbn [DeviceAuth.poll].
  rewrite (bind_Ok _ _ _ _ _ Hg). cbn [attr_status_code].
  rewrite bind_ret.
  apply Z.eqb_neq in H200, H429, H400. rewrite H200, H429, H400.
  reflexivity.
Qed.

Lemma poll_granted fuel interval w r w1 m a b :
  DeviceAuth.get_device_token d device_code (DeviceAuth.store d) w
    = (Ok (OResponse r), w1) →
  status_code r = 200 →
  content r = Some (VDict m) →
  m !! "access_token" = Some a → m !! "refresh_token" = Some b →
  DeviceAuth.poll py_repr (S fuel) d device_code interval w
  = (Ok (Some (OResponse r)),
     after_print ("You've been successfully authenticated. With access_token "
                  +:+ TokenAuth.py_str py_repr a
                  +:+ " and refresh_token " +:+ TokenAuth.py_str py_repr b) w1).
Proof.
  intros Hg Hs Hc Ha Hb. cbn [DeviceAuth.poll].
  rewrite (bind_Ok _ _ _ _ _ Hg). cbn [attr_status_code].
  rewrite bind_ret, Hs. cbn [Z.eqb Pos.eqb meth_json]. rewrite Hc.
  rewrite bind_ret. unfold DeviceAuth.success_message, py_getitem.
  rewrite Ha, Hb. reflexivity.
Qed.

End PollOnResponses.

(** The polls of the spec's scenario (400, 400, 429, 200) on response
    objects: three sleeps of 5, 5 and 10 seconds, then the token is in the
    config and, the store flag being set, in the file. *)
Example poll_scenario_on_response_objects :
  let w := set_config (λ _, list_to_map [("CLIENT_ID", VStr "my-id");
                                          ("CLIENT_SECRET", VStr "my-secret")])
             (Sample.device_world [Sample.pending; Sample.pending;
                                   Sample.slow_down; Sample.token_response]) in
  let out := DeviceAuth.poll Sample.repr 10 Sample.raw_device (VStr "abc") (VInt 5) w in
  fst out = Ok (Some (OResponse Sample.token_response))
  ∧ slept (snd out) = [VInt 5; VInt 5; VInt 10]
  ∧ config (snd out) !! "OAUTH_TOKEN" = Some (VStr "new-token")
  ∧ config (snd out) !! "OAUTH_REFRESH" = Some (VStr "new-refresh")
  ∧ config (snd out) !! "OAUTH_EXPIRES_AT" = Some (VInt 1707776000)
  ∧ files (snd out) !! "pytrakt.json" = Some (FileJson (VDict (config (snd out))))
  ∧ length (sent (snd out)) = 4%nat.
Proof. vm_compute. repeat split. Qed.

(** A poll answered 418 on a response object: the loop stops at once,
    reports the denial and stores nothing. *)
Example poll_denied_on_response_objects :
  let w := set_config (λ _, list_to_map [("CLIENT_ID", VStr "my-id");
                                          ("CLIENT_SECRET", VStr "my-secret")])
             (Sample.device_world [Sample.denied]) in
  let out := DeviceAuth.poll Sample.repr 10 Sample.raw_device (VStr "abc") (VInt 5) w in
  fst out = Ok (Some (OResponse Sample.denied))
  ∧ printed (snd out) = ["You explicitly denied this code"]
  ∧ slept (snd out) = []
  ∧ config (snd out) !! "OAUTH_TOKEN" = None
  ∧ files (snd out) = ∅.
Proof. vm_compute. repeat split. Qed.

(** A client that answers every request with the response object does
    not get as far as the loop: [get_device_code] fails where it calls
    [get] on the answer.  The loop is reached by a client that hands out
    the decoded body for the code request and the response object for a
    poll, such as [Sample.hybrid_client]. *)
Example authenticate_on_response_objects_raises :
  fst (DeviceAuth.authenticate (ret (VNone, VNone)) Sample.repr 10 Sample.raw_device
         (Sample.device_world [Sample.code_response; Sample.token_response]))
  = Raise (AttributeError "get").
Proof. vm_compute. reflexivity. Qed.

Lemma poll_over_HttpClient_raises_witness :
  DeviceAuth.poll Sample.repr 10 (Sample.device Sample.errors) (VStr "abc") (VInt 5)
    (set_config (λ _, list_to_map [("CLIENT_ID", VStr "my-id");
                                    ("CLIENT_SECRET", VStr "my-secret")])
       (Sample.device_world [Sample.slow_down; Sample.token_response]))
  = (Raise (TraktError (Build_ErrClass "RateLimitException" 429) Sample.slow_down),
     after_exchange
       (device_token_request Sample.client (VStr "abc") (VStr "my-id") (VStr "my-secret"))
       [Sample.token_response]
       (set_config (λ _, list_to_map [("CLIENT_ID", VStr "my-id");
                                       ("CLIENT_SECRET", VStr "my-secret")])
          (Sample.device_world [Sample.slow_down; Sample.token_response]))).
Proof.
  destruct (poll_over_HttpClient_raises Sample.repr Sample.errors Sample.client
              "pytrakt.json" (VStr "my-id") (VStr "my-secret") true 9
              (VStr "abc") (VInt 5)
              (set_config (λ _, list_to_map [("CLIENT_ID", VStr "my-id");
                                              ("CLIENT_SECRET", VStr "my-secret")])
                 (Sample.device_world [Sample.slow_down; Sample.token_response])))
    as [_ H].
  apply (H Sample.slow_down [Sample.token_response] (VStr "my-id") (VStr "my-secret"));
    reflexivity.
Defined.


(** * Further properties of the code *)

(** ** [HttpClient.error_map] *)

Section ErrorMap.
Context (errors : errors_module).

Lemma foldl_error_map_skip (l : list ErrClass) (m : gmap Z ErrClass) code :
  (∀ c, c ∈ l → http_code c ≠ code) →
  foldl (λ m err, <[http_code err := err]> m) m l !! code = m !! code.
Proof.
  revert m. induction l as [|err l IH]; intros m Hl; [done|].
  simpl. rewrite IH.
  - apply lookup_insert_ne. apply Hl. by left.
  - intros c Hc. apply Hl. by right.
Qed.

Lemma foldl_error_map_app (l1 l2 : list ErrClass) (m : gmap Z ErrClass) :
  foldl (λ m err, <[http_code err := err]> m) m (l1 ++ l2)%list
  = foldl (λ m err, <[http_code err := err]> m)
      (foldl (λ m err, <[http_code err := err]> m) m l1) l2.
Proof. apply foldl_app. Qed.

(** X1. The table holds only classes of [errs] (so never the base
    exception), each under its own [http_code]; every class of [errs] has
    its code in the table; and of several classes with one code the last
    one listed is the one the table keeps. *)
Theorem error_map_last_wins :
  (∀ code cls, HttpClient.error_map errors !! code = Some cls →
     cls ∈ HttpClient.errs errors ∧ http_code cls = code
     ∧ cls_name cls ≠ "TraktException")
  ∧ (∀ cls, cls ∈ HttpClient.errs errors →
       is_Some (HttpClient.error_map errors !! http_code cls))
  ∧ (∀ (l1 : list ErrClass) cls l2,
       HttpClient.errs errors = (l1 ++ cls :: l2)%list →
       (∀ c, c ∈ l2 → http_code c ≠ http_code cls) →
       HttpClient.error_map errors !! http_code cls = Some cls).
Proof.
  split; [|split].
  - intros code cls H. destruct (error_map_lookup_elem errors code cls H).
    repeat split; try done. by eapply error_map_not_base.
  - unfold HttpClient.error_map.
    generalize (HttpClient.errs errors) as l. intros l cls.
    induction l as [|err l IH] using rev_ind; [by intros ?%elem_of_nil|].
    rewrite foldl_app. simpl. intros [Hin| ->%list_elem_of_singleton]%elem_of_app.
    + destruct (decide (http_code err = http_code cls)) as [->|Hne].
      * rewrite lookup_insert_eq. eauto.
      * rewrite lookup_insert_ne by done. by apply IH.
    + rewrite lookup_insert_eq. eauto.
  - intros l1 cls l2 Hl Hl2. unfold HttpClient.error_map. rewrite Hl.
    change (l1 ++ cls :: l2)%list with (l1 ++ [cls] ++ l2)%list.
    rewrite !foldl_error_map_app. rewrite foldl_error_map_skip by done.
    simpl. apply lookup_insert_eq.
Qed.

End ErrorMap.


(** ** [HttpClient.request] and the verbs on a hook-free client *)

Section Transport.
Context (errors : errors_module).




(** When the auth hook raises, [request] ends in that exception with the
    world as the hook left it: the request is not transmitted and no
    response is consumed by it. *)
Lemma request_aborts_when_hook_raises c h method url data w e w1 :
  HttpClient.auth c = Some h →
  h (Request method (HttpClient.base_url c +:+ url)
       (HttpClient.headers c) (payload_of method data)) w = (Raise e, w1) →
  HttpClient.request errors c method url data w = (Raise e, w1).
Proof.
  intros Hauth Hh. rewrite request_unfold. apply bind_Raise.
  unfold session_request. rewrite Hauth. by apply bind_Raise.
Qed.

End Transport.





(** ** [TokenAuth.load_config]: what it reads and when it fails *)

Lemma world_ext w1 w2 :
  fields w1 = fields w2 → only_fields_change w1 w2 → w2 = w1.
Proof.
  destruct w1, w2. unfold only_fields_change. simpl.
  intros -> (-> & -> & -> & -> & -> & -> & ->). reflexivity.
Qed.

Lemma keys_in_credential_names k :
  k ∈ TokenAuth.keys → k ∈ credential_names.
Proof.
  unfold TokenAuth.keys, credential_names. rewrite !elem_of_cons, !elem_of_nil.
  intuition.
Qed.

Lemma load_key_fills m key w :
  is_Some (fields w !! key) →
  ∃ w', load_key (VDict m) key w = (Ok tt, w')
        ∧ only_fields_change w w'
        ∧ fields w' !! key = filled m key (fields w !! key)
        ∧ ∀ k, k ≠ key → fields w' !! k = fields w !! k.
Proof.
  intros [cur Hcur]. unfold load_key.
  rewrite (bind_getitem _ _ _ _ Hcur), Hcur.
  destruct cur; cbn [is_None negb filled];
    try (exists w; split; [done|]; split; [apply only_fields_change_refl|]; by split).
  cbn [py_get]. rewrite bind_ret. eexists. split; [reflexivity|].
  split; [by repeat split|]. simpl. split.
  - by rewrite lookup_insert_eq.
  - intros k Hk. by rewrite lookup_insert_ne.
Qed.

Lemma load_loop_fills m l w :
  NoDup l →
  (∀ k, k ∈ l → is_Some (fields w !! k)) →
  ∃ w', for_each l (load_key (VDict m)) w = (Ok tt, w')
        ∧ only_fields_change w w'
        ∧ (∀ k, k ∈ l → fields w' !! k = filled m k (fields w !! k))
        ∧ (∀ k, k ∉ l → fields w' !! k = fields w !! k).
Proof.
  revert w. induction l as [|key l IH]; intros w Hnd Hl; simpl.
  - exists w. split; [done|]. split; [apply only_fields_change_refl|].
    split; [|done]. by intros k ?%elem_of_nil.
  - apply NoDup_cons in Hnd as [Hkey Hnd].
    destruct (load_key_fills m key w) as (w1 & Hrun1 & F1 & Hk1 & Ho1).
    { apply Hl. by left. }
    destruct (IH w1 Hnd) as (w' & Hrun & F & Hin & Hout).
    { intros k Hk. rewrite Ho1; [apply Hl; by right|]. by intros ->. }
    exists w'. rewrite (bind_Ok _ _ _ _ _ Hrun1). split; [done|].
    split; [by eapply only_fields_change_trans|]. split.
    + intros k [->|Hk]%elem_of_cons.
      * by rewrite (Hout key Hkey).
      * rewrite (Hin k Hk), Ho1; [done|]. by intros ->.
    + intros k [Hne Hk]%not_elem_of_cons. by rewrite (Hout k Hk), Ho1.
Qed.

(** The guard of [load_config] on a world that wants the load. *)
Lemma load_config_past_guard a w :
  has_keys w → wants_load w →
  TokenAuth.load_config a w =
  (ex <~ TokenAuth.path_exists (TokenAuth.config_path a) ;;
   if negb ex then ret tt
   else (config_data <~ TokenAuth.json_load (TokenAuth.config_path a) ;;
         for_each TokenAuth.keys (load_key config_data))) w.
Proof.
  intros Hk Hw. rewrite load_config_unfold.
  destruct (has_keys_lookup w "CLIENT_ID" Hk) as [cid Hcid]; [repeat constructor|].
  destruct (has_keys_lookup w "CLIENT_SECRET" Hk) as [sec Hsec]; [repeat constructor|].
  rewrite (bind_getitem _ _ _ _ Hcid).
  assert ((if negb (is_None cid)
           then (sec0 <~ TokenAuth.getitem "CLIENT_SECRET" ;; ret (negb (is_None sec0)))
           else ret false) w = (Ok false, w)) as Hboth.
  { destruct Hw as [Hw|Hw].
    - assert (cid = VNone) as -> by congruence. done.
    - assert (sec = VNone) as -> by congruence.
      destruct (negb (is_None cid)); [|done].
      by rewrite (bind_getitem _ _ _ _ Hsec). }
  rewrite (bind_Ok _ _ _ _ _ Hboth).
  unfold bind, TokenAuth.path_exists, ret.
  by destruct (negb (bool_decide (is_Some (files w !! TokenAuth.config_path a)))).
Qed.

Lemma load_config_fills a w m :
  has_keys w → wants_load w →
  files w !! TokenAuth.config_path a = Some (FileJson (VDict m)) →
  ∃ w', TokenAuth.load_config a w = (Ok tt, w')
        ∧ only_fields_change w w'
        ∧ (∀ k, k ∈ TokenAuth.keys → fields w' !! k = filled m k (fields w !! k))
        ∧ (∀ k, k ∉ TokenAuth.keys → fields w' !! k = fields w !! k).
Proof.
  intros Hk Hw Hf. rewrite (load_config_past_guard a w Hk Hw).
  unfold bind at 1. unfold TokenAuth.path_exists at 1. rewrite Hf.
  rewrite bool_decide_eq_true_2 by eauto. cbn [negb].
  unfold bind at 1. unfold TokenAuth.json_load at 1. rewrite Hf.
  apply load_loop_fills; [apply keys_NoDup|].
  intros k Hin. apply has_keys_lookup; [done|]. by apply keys_in_credential_names.
Qed.

(** X5. With the client id or the client secret unset and a JSON object
    in the config file, [load_config] succeeds and fills in: each of the
    six keys that is unset takes what the object holds for it, [None]
    when the object lacks the key; a key that is set keeps its value, and
    so do [OAUTH_TOKEN_VALID], [REDIRECT_URI] and everything outside the
    dict. *)
Theorem load_config_fills_unset a w m :
  has_keys w → wants_load w →
  files w !! TokenAuth.config_path a = Some (FileJson (VDict m)) →
  ∃ w', TokenAuth.load_config a w = (Ok tt, w')
        ∧ only_fields_change w w'
        ∧ (∀ k, k ∈ TokenAuth.keys → fields w' !! k = filled m k (fields w !! k))
        ∧ (∀ k, k ∉ TokenAuth.keys → fields w' !! k = fields w !! k).
Proof. apply load_config_fills. Qed.

Lemma load_loop_not_a_dict doc l w key :
  not_a_dict doc →
  (∀ k, k ∈ l → is_Some (fields w !! k)) →
  key ∈ l → fields w !! key = Some VNone →
  for_each l (load_key doc) w = (Raise (AttributeError "get"), w).
Proof.
  intros Hdoc. induction l as [|k l IH]; intros Hl Hin Hkey; [by apply elem_of_nil in Hin|].
  simpl. destruct (Hl k) as [cur Hcur]; [by left|].
  unfold bind at 1. unfold load_key at 1.
  rewrite (bind_getitem _ _ _ _ Hcur).
  destruct cur; cbn [is_None negb];
    try (apply elem_of_cons in Hin as [->|Hin]; [congruence|];
         apply IH; [intros k' Hk'; apply Hl; by right|done|done]).
  by destruct doc.
Qed.

Lemma load_config_bad_file a w :
  has_keys w → wants_load w →
  (∀ text, files w !! TokenAuth.config_path a = Some (FileText text) →
     TokenAuth.load_config a w = (Raise JSONDecodeError, w))
  ∧ (∀ doc, files w !! TokenAuth.config_path a = Some (FileJson doc) →
       not_a_dict doc →
       TokenAuth.load_config a w = (Raise (AttributeError "get"), w)).
Proof.
  intros Hk Hw. split.
  - intros text Hf. rewrite (load_config_past_guard a w Hk Hw).
    unfold bind at 1. unfold TokenAuth.path_exists at 1. rewrite Hf.
    rewrite bool_decide_eq_true_2 by eauto. cbn [negb].
    unfold bind at 1. unfold TokenAuth.json_load at 1. by rewrite Hf.
  - intros doc Hf Hdoc. rewrite (load_config_past_guard a w Hk Hw).
    unfold bind at 1. unfold TokenAuth.path_exists at 1. rewrite Hf.
    rewrite bool_decide_eq_true_2 by eauto. cbn [negb].
    unfold bind at 1. unfold TokenAuth.json_load at 1. rewrite Hf.
    assert (∀ k, k ∈ TokenAuth.keys → is_Some (fields w !! k)) as Hl.
    { intros k Hin. apply has_keys_lookup; [done|]. by apply keys_in_credential_names. }
    destruct Hw as [Hw|Hw].
    + apply (load_loop_not_a_dict doc _ w "CLIENT_ID"); try done.
      unfold TokenAuth.keys. by repeat constructor.
    + apply (load_loop_not_a_dict doc _ w "CLIENT_SECRET"); try done.
      unfold TokenAuth.keys. by repeat constructor.
Qed.

(** X6. With the client id or the client secret unset, a config file
    that cannot be read as a JSON object makes [load_config] raise, and
    the dict is as before: text that is not JSON raises the decoder's
    error, and a JSON document of another kind (an array, a string, a
    number, [null]) raises [AttributeError] at the first unset key. *)
Theorem load_config_rejects_bad_file a w :
  has_keys w → wants_load w →
  (∀ text, files w !! TokenAuth.config_path a = Some (FileText text) →
     TokenAuth.load_config a w = (Raise JSONDecodeError, w))
  ∧ (∀ doc, files w !! TokenAuth.config_path a = Some (FileJson doc) →
       not_a_dict doc →
       TokenAuth.load_config a w = (Raise (AttributeError "get"), w)).
Proof. apply load_config_bad_file. Qed.


Lemma filled_filled m k o : filled m k (filled m k o) = filled m k o.
Proof.
  destruct o as [[]|]; try done. simpl.
  by destruct (default VNone (m !! k)) eqn:E; simpl; rewrite ?E.
Qed.

Lemma guard_cases w :
  has_keys w →
  (is_set w "CLIENT_ID" ∧ is_set w "CLIENT_SECRET") ∨ wants_load w.
Proof.
  intros Hk.
  destruct (has_keys_lookup w "CLIENT_ID" Hk) as [cid Hcid]; [repeat constructor|].
  destruct (has_keys_lookup w "CLIENT_SECRET" Hk) as [sec Hsec]; [repeat constructor|].
  unfold wants_load, is_set. rewrite Hcid, Hsec.
  destruct cid; try (by right; left);
    destruct sec; try (by right; right);
    left; split; eexists; split; try reflexivity; discriminate.
Qed.

Lemma has_keys_filled m w w' :
  has_keys w →
  (∀ k, k ∈ TokenAuth.keys → fields w' !! k = filled m k (fields w !! k)) →
  (∀ k, k ∉ TokenAuth.keys → fields w' !! k = fields w !! k) →
  has_keys w'.
Proof.
  intros Hk Hin Hout. unfold has_keys. apply Forall_forall. intros k Hkn.
  pose proof (has_keys_lookup w k Hk Hkn) as [v Hv].
  destruct (decide (k ∈ TokenAuth.keys)) as [Hi|Hn].
  - rewrite (Hin k Hi), Hv. destruct v; simpl; eauto.
  - rewrite (Hout k Hn), Hv. eauto.
Qed.

(** X7. [load_config] is idempotent: when a call on a dict that has the
    keys of [__init__] returns normally, a second call straight after it
    returns normally too and changes nothing.  (Every signed request
    starts with a load, so the file is read again for as long as the
    client id or the client secret stays unset.) *)
Theorem load_config_idempotent a w w' :
  has_keys w →
  TokenAuth.load_config a w = (Ok tt, w') →
  TokenAuth.load_config a w' = (Ok tt, w').
Proof.
  intros Hk Hl. destruct (guard_cases w Hk) as [[H1 H2]|Hw].
  { rewrite (load_config_noop_set a w H1 H2) in Hl. injection Hl as <-.
    by apply load_config_noop_set. }
  destruct (files w !! TokenAuth.config_path a) as [[doc|text]|] eqn:Hf.
  - assert (not_a_dict doc ∨ ∃ m, doc = VDict m) as [Hdoc|[m ->]].
    { destruct doc; simpl; eauto. }
    { destruct (load_config_bad_file a w Hk Hw) as [_ Hbad].
      rewrite (Hbad doc Hf Hdoc) in Hl. discriminate. }
    destruct (load_config_fills a w m Hk Hw Hf) as (w1 & Hrun & F & Hin & Hout).
    rewrite Hrun in Hl. injection Hl as <-.
    assert (has_keys w1) as Hk1 by by eapply has_keys_filled.
    destruct (guard_cases w1 Hk1) as [[H1 H2]|Hw1].
    { by apply load_config_noop_set. }
    assert (files w1 !! TokenAuth.config_path a = Some (FileJson (VDict m))) as Hf1.
    { destruct F as [-> _]. done. }
    destruct (load_config_fills a w1 m Hk1 Hw1 Hf1)
      as (w2 & Hrun2 & F2 & Hin2 & Hout2).
    rewrite Hrun2. f_equal. apply world_ext; [|done].
    apply map_eq. intros k.
    destruct (decide (k ∈ TokenAuth.keys)) as [Hi|Hn].
    + rewrite (Hin2 k Hi), (Hin k Hi). by rewrite filled_filled.
    + by rewrite (Hout2 k Hn).
  - destruct (load_config_bad_file a w Hk Hw) as [Hbad _].
    rewrite (Hbad text Hf) in Hl. discriminate.
  - rewrite (load_config_noop_no_file a w Hk Hf) in Hl. injection Hl as <-.
    by apply load_config_noop_no_file.
Qed.

Lemma sample_with_file_has_keys p answers f :
  has_keys (Sample.with_file f (Sample.world_of p answers)).
Proof. apply (init_has_keys p). Qed.

Lemma load_config_fills_unset_witness :
  ∃ w', TokenAuth.load_config Sample.auth
          (Sample.with_file Sample.config_file (Sample.world_of Sample.id_only []))
        = (Ok tt, w')
        ∧ fields w' !! "CLIENT_ID" = Some (VStr "my-id")
        ∧ fields w' !! "CLIENT_SECRET" = Some (VStr "file-secret")
        ∧ fields w' !! "APPLICATION_ID" = Some VNone
        ∧ fields w' !! "OAUTH_TOKEN_VALID" = Some VNone.
Proof.
  destruct (load_config_fills_unset Sample.auth
              (Sample.with_file Sample.config_file (Sample.world_of Sample.id_only []))
              (list_to_map [
                 ("CLIENT_ID", VStr "file-id");
                 ("CLIENT_SECRET", VStr "file-secret");
                 ("OAUTH_TOKEN", VStr "file-token");
                 ("OAUTH_REFRESH", VStr "file-refresh");
                 ("OAUTH_EXPIRES_AT", VInt 1707776000)]))
    as (w' & Hrun & _ & Hin & Hout).
  - apply sample_with_file_has_keys.
  - right. vm_compute. reflexivity.
  - vm_compute. reflexivity.
  - exists w'. split; [exact Hrun|].
    split; [apply (Hin "CLIENT_ID"); unfold TokenAuth.keys; repeat constructor|].
    split; [apply (Hin "CLIENT_SECRET"); unfold TokenAuth.keys; repeat constructor|].
    split; [apply (Hin "APPLICATION_ID"); unfold TokenAuth.keys; repeat constructor|].
    rewrite (Hout "OAUTH_TOKEN_VALID"); [reflexivity|].
    unfold TokenAuth.keys. rewrite !elem_of_cons, elem_of_nil.
    intros H. intuition discriminate.
Defined.

Lemma load_config_rejects_bad_file_witness :
  TokenAuth.load_config Sample.auth
    (Sample.with_file Sample.broken_file (Sample.world_of Sample.id_only []))
  = (Raise JSONDecodeError,
     Sample.with_file Sample.broken_file (Sample.world_of Sample.id_only []))
  ∧ TokenAuth.load_config Sample.auth
      (Sample.with_file Sample.array_file (Sample.world_of Sample.id_only []))
    = (Raise (AttributeError "get"),
       Sample.with_file Sample.array_file (Sample.world_of Sample.id_only [])).
Proof.
  split.
  - destruct (load_config_rejects_bad_file Sample.auth
                (Sample.with_file Sample.broken_file (Sample.world_of Sample.id_only [])))
      as [H _].
    + apply sample_with_file_has_keys.
    + right. vm_compute. reflexivity.
    + apply (H "CLIENT_ID = my-id"). vm_compute. reflexivity.
  - destruct (load_config_rejects_bad_file Sample.auth
                (Sample.with_file Sample.array_file (Sample.world_of Sample.id_only [])))
      as [_ H].
    + apply sample_with_file_has_keys.
    + right. vm_compute. reflexivity.
    + apply (H (VList [VStr "my-id"; VStr "my-secret"])); [vm_compute; reflexivity|exact I].
Defined.

Lemma load_config_idempotent_witness :
  TokenAuth.load_config Sample.auth
    (snd (TokenAuth.load_config Sample.auth
            (Sample.with_file Sample.config_file (Sample.world_of Sample.unset []))))
  = (Ok tt,
     snd (TokenAuth.load_config Sample.auth
            (Sample.with_file Sample.config_file (Sample.world_of Sample.unset [])))).
Proof.
  apply (load_config_idempotent Sample.auth
           (Sample.with_file Sample.config_file (Sample.world_of Sample.unset []))).
  - apply sample_with_file_has_keys.
  - vm_compute. reflexivity.
Defined.


(** ** The keys of the dict *)

Section KeysKept.
Context (errors : errors_module).

Lemma kk_ret {A} (a : A) : key_keeping (ret a).
Proof. by intros w r w' k [= <- <-]. Qed.

Lemma kk_raise {A} e : key_keeping (@raise A e).
Proof. by intros w r w' k [= <- <-]. Qed.

Lemma kk_bind {A B} (c : M A) (f : A → M B) :
  key_keeping c → (∀ a, key_keeping (f a)) → key_keeping (bind c f).
Proof.
  intros Hc Hf w r w' k. unfold bind.
  destruct (c w) as [[x|e] w1] eqn:E.
  - intros H Hk. eapply Hf; [exact H|]. by eapply Hc.
  - intros [= <- <-] Hk. by eapply Hc.
Qed.

Lemma kk_getitem key : key_keeping (TokenAuth.getitem key).
Proof.
  intros w r w' k. unfold TokenAuth.getitem.
  by destruct (fields w !! key); intros [= <- <-].
Qed.

Lemma kk_setitem key v : key_keeping (TokenAuth.setitem key v).
Proof.
  intros w r w' k [= <- <-] Hk. simpl.
  destruct (decide (key = k)) as [->|Hne].
  - rewrite lookup_insert_eq. eauto.
  - by rewrite lookup_insert_ne.
Qed.

Lemma kk_same_fields {A} (c : M A) :
  (∀ w r w', c w = (r, w') → fields w' = fields w) → key_keeping c.
Proof. intros H w r w' k Hc Hk. by rewrite (H _ _ _ Hc). Qed.

Lemma kk_py_get d key : key_keeping (py_get d key).
Proof. destruct d; simpl; auto using @kk_ret, @kk_raise. Qed.

Lemma kk_py_add x y : key_keeping (py_add x y).
Proof.
  unfold py_add. destruct (as_int x), (as_int y), x, y;
    auto using @kk_ret, @kk_raise.
Qed.

Lemma kk_fromtimestamp ts : key_keeping (fromtimestamp ts).
Proof.
  unfold fromtimestamp. destruct (as_int ts) as [z|]; [|apply kk_raise].
  destruct (in_datetime_range z); [apply kk_ret | apply kk_raise].
Qed.

Lemma kk_store_token a kwargs : key_keeping (TokenAuth.store_token a kwargs).
Proof. apply kk_same_fields. by intros w r w' [= <- <-]. Qed.

Lemma kk_now : key_keeping now.
Proof. apply kk_same_fields. by intros w r w' [= <- <-]. Qed.

Lemma kk_path_exists path : key_keeping (TokenAuth.path_exists path).
Proof. apply kk_same_fields. by intros w r w' [= <- <-]. Qed.

Lemma kk_json_load path : key_keeping (TokenAuth.json_load path).
Proof.
  apply kk_same_fields. intros w r w'. unfold TokenAuth.json_load.
  by destruct (files w !! path) as [[]|]; intros [= <- <-].
Qed.

Lemma kk_for_each {A} (l : list A) (body : A → M unit) :
  (∀ x, key_keeping (body x)) → key_keeping (for_each l body).
Proof.
  intros Hb. induction l as [|x l IH]; simpl; [apply kk_ret|].
  apply kk_bind; [apply Hb | by intros _].
Qed.

Lemma kk_try_except {A} (c : M A) handles (h : M A) :
  key_keeping c → key_keeping h → key_keeping (try_except c handles h).
Proof.
  intros Hc Hh w r w' k. unfold try_except.
  destruct (c w) as [[x|e] w1] eqn:E.
  - intros [= <- <-] Hk. by eapply Hc.
  - destruct (handles e).
    + intros H Hk. eapply Hh; [exact H|]. by eapply Hc.
    + intros [= <- <-] Hk. by eapply Hc.
Qed.

Lemma kk_post c url data :
  HttpClient.auth c = None → key_keeping (HttpClient.post errors c url data).
Proof.
  intros Hauth. apply kk_same_fields. intros w r w'.
  unfold HttpClient.post. rewrite (request_plain errors _ _ _ _ _ Hauth). cbn zeta.
  destruct (inbox w) as [|resp rest]; [by intros [= <- <-]|].
  destruct (status_code resp =? 204); [by intros [= <- <-]|].
  destruct (HttpClient.error_map errors !! status_code resp); [by intros [= <- <-]|].
  by destruct (content resp); intros [= <- <-].
Qed.

Create HintDb kk.
#[local] Hint Resolve kk_getitem kk_setitem kk_py_get kk_py_add kk_fromtimestamp
  kk_store_token kk_now kk_path_exists kk_json_load kk_post : kk.
#[local] Hint Extern 1 (key_keeping (ret _)) => apply kk_ret : kk.
#[local] Hint Extern 1 (key_keeping (raise _)) => apply kk_raise : kk.
#[local] Hint Extern 2 (key_keeping (bind _ _)) => apply kk_bind; [|intros ?] : kk.
#[local] Hint Extern 3 (key_keeping (if ?b then _ else _)) => destruct b : kk.
#[local] Hint Extern 3 (key_keeping (for_each _ _)) =>
  apply kk_for_each; intros ? : kk.
#[local] Hint Extern 3 (key_keeping (try_except _ _ _)) => apply kk_try_except : kk.

Lemma kk_load_config a : key_keeping (TokenAuth.load_config a).
Proof. unfold TokenAuth.load_config. auto 30 with kk. Qed.

Lemma kk_refresh_token a :
  HttpClient.auth (TokenAuth.client a) = None →
  key_keeping (TokenAuth.refresh_token errors a).
Proof.
  intros Hauth. unfold TokenAuth.refresh_token.
  do 4 (apply kk_bind; [apply kk_getitem|intros ?]).
  apply kk_bind; [auto 10 with kk|].
  intros [resp|]; auto 40 with kk.
Qed.

Lemma kk_validate_token a :
  HttpClient.auth (TokenAuth.client a) = None →
  key_keeping (TokenAuth.validate_token errors a).
Proof.
  intros Hauth. unfold TokenAuth.validate_token.
  pose proof (kk_refresh_token a Hauth). auto 20 with kk.
Qed.

Lemma kk_get_token a :
  HttpClient.auth (TokenAuth.client a) = None →
  key_keeping (TokenAuth.get_token errors a).
Proof.
  intros Hauth. unfold TokenAuth.get_token.
  pose proof (kk_validate_token a Hauth). pose proof (kk_load_config a).
  auto 30 with kk.
Qed.

(** X9. No method of a [TokenAuth] with a hook-free client ever removes
    a key from the dict: however the signing hook ends (normally, or in
    an exception out of the load, the validation or the refresh), every
    key present before is present after.  A dict set up by [__init__]
    therefore never raises [KeyError] in a later call. *)
Theorem call_keeps_keys py_repr a rq w r w' :
  HttpClient.auth (TokenAuth.client a) = None →
  TokenAuth.__call__ errors py_repr a rq w = (r, w') →
  (∀ k, is_Some (fields w !! k) → is_Some (fields w' !! k))
  ∧ (has_keys w → has_keys w').
Proof.
  intros Hauth Hrun.
  assert (key_keeping (TokenAuth.__call__ errors py_repr a rq)) as Hkk.
  { unfold TokenAuth.__call__. apply kk_bind; [by apply kk_get_token|].
    intros [cid tok]. apply kk_ret. }
  split.
  - intros k. by eapply Hkk.
  - unfold has_keys. rewrite !Forall_forall. intros H k Hk.
    eapply Hkk; [exact Hrun|]. by apply H.
Qed.

End KeysKept.

Lemma call_keeps_keys_witness :
  has_keys
    (snd (TokenAuth.__call__ Sample.errors Sample.repr Sample.auth
            (Request "get" "https://api.trakt.tv/users/me" ∅ (Params VNone))
            (Sample.world_of
               (Sample.params (VInt (Sample.now_s + 3600)) (VStr "old-token") VNone)
               [Sample.truncated_token_response]))).
Proof.
  destruct (call_keeps_keys Sample.errors Sample.repr Sample.auth
              (Request "get" "https://api.trakt.tv/users/me" ∅ (Params VNone))
              (Sample.world_of
                 (Sample.params (VInt (Sample.now_s + 3600)) (VStr "old-token") VNone)
                 [Sample.truncated_token_response])
              _ _ eq_refl (surjective_pairing _)) as [_ H].
  apply H. apply sample_has_keys.
Defined.


(** ** [TokenAuth.get_token], [validate_token], [refresh_token]: edges *)

Section TokenEdges.
Context (errors : errors_module).

(** X10. The valid flag is trusted for good: once [OAUTH_TOKEN_VALID] is
    truthy (and the client id and secret are set), [get_token] returns
    the client id and the token it holds at any later time, without
    looking at the expiry or the clock, without a request and without
    changing anything, whatever the client. *)
Theorem get_token_trusts_valid_flag a w valid cid tok t :
  is_set w "CLIENT_ID" → is_set w "CLIENT_SECRET" →
  fields w !! "OAUTH_TOKEN_VALID" = Some valid → truthy valid = true →
  fields w !! "CLIENT_ID" = Some cid →
  fields w !! "OAUTH_TOKEN" = Some tok →
  TokenAuth.get_token errors a (set_clock t w) = (Ok (cid, tok), set_clock t w).
Proof.
  intros H1 H2 Hv Ht Hcid Htok. unfold TokenAuth.get_token.
  rewrite (bind_Ok _ _ _ _ _ (load_config_noop_set a (set_clock t w) H1 H2)).
  rewrite (bind_getitem "OAUTH_TOKEN_VALID" valid) by done.
  rewrite Ht. cbn [negb]. rewrite !bind_ret.
  rewrite (bind_getitem "CLIENT_ID" cid) by done.
  by rewrite (bind_getitem "OAUTH_TOKEN" tok) by done.
Qed.

(** X11. An expiry that is not a number stops every signing that reaches
    the validation: with the valid flag false and a refresh token known,
    an [OAUTH_EXPIRES_AT] holding a string (or a list, or an object), as
    a config file can supply it, makes [get_token] raise [TypeError]
    before any request is sent, and the dict stays as the load left
    it. *)
Theorem get_token_rejects_text_expiry a w wl valid exp ref :
  TokenAuth.load_config a w = (Ok tt, wl) →
  fields wl !! "OAUTH_TOKEN_VALID" = Some valid → truthy valid = false →
  fields wl !! "OAUTH_EXPIRES_AT" = Some exp → exp ≠ VNone → as_int exp = None →
  fields wl !! "OAUTH_REFRESH" = Some ref → ref ≠ VNone →
  TokenAuth.get_token errors a w = (Raise TypeError, wl).
Proof.
  intros Hl Hv Ht He Hn Hi Hr Hrn.
  rewrite (get_token_routes errors a w wl valid exp ref) by done.
  apply bind_Raise. unfold TokenAuth.validate_token.
  unfold bind at 1. unfold now at 1.
  rewrite (bind_getitem _ _ _ _ He).
  apply bind_Raise. unfold fromtimestamp. by rewrite Hi.
Qed.

(** X12. An answer to the refresh request that [post] returns but that
    is no JSON object (a 204, whose result is [None], or a body that
    decodes to a list, a string, a number or [null]) makes
    [refresh_token] raise [AttributeError]; the dict and the files are as
    before, only the exchange has happened. *)
Theorem refresh_token_rejects_non_object a w resp rest :
  has_keys w →
  HttpClient.auth (TokenAuth.client a) = None →
  inbox w = resp :: rest →
  status_code resp = 204
  ∨ (HttpClient.error_map errors !! status_code resp = None
     ∧ ∃ v, content resp = Some v ∧ not_a_dict v) →
  TokenAuth.refresh_token errors a w
  = (Raise (AttributeError "get"),
     after_exchange (refresh_request (TokenAuth.client a) w) rest w).
Proof.
  intros Hk Hauth Hin Hcase.
  destruct (has_keys_lookup w "CLIENT_ID" Hk) as [cid Hcid]; [repeat constructor|].
  destruct (has_keys_lookup w "CLIENT_SECRET" Hk) as [sec Hsec]; [repeat constructor|].
  destruct (has_keys_lookup w "OAUTH_REFRESH" Hk) as [ref Href]; [repeat constructor|].
  destruct (has_keys_lookup w "REDIRECT_URI" Hk) as [uri Huri]; [repeat constructor|].
  rewrite (refresh_token_unfold errors a w _ _ _ _ Hcid Hsec Href Huri).
  unfold try_except, HttpClient.post. unfold bind at 1. unfold bind at 1.
  rewrite (request_plain errors _ _ _ _ _ Hauth), Hin. cbn zeta.
  destruct (status_code resp =? 204) eqn:H204; [reflexivity|].
  destruct Hcase as [H|(Hmap & v & Hc & Hv)].
  { apply Z.eqb_neq in H204. done. }
  rewrite Hmap, Hc. by destruct v.
Qed.

(** X13. A successful refresh writes a file of exactly five keys:
    whatever the config file held before under any other name, and
    whatever [APPLICATION_ID] the dict holds, the file afterwards has no
    [APPLICATION_ID] (nor any other key beyond the five). *)
Theorem refresh_token_drops_other_keys a w resp rest m created expires :
  has_keys w →
  HttpClient.auth (TokenAuth.client a) = None →
  inbox w = resp :: rest →
  status_code resp ≠ 204 →
  HttpClient.error_map errors !! status_code resp = None →
  content resp = Some (VDict m) →
  as_int (default VNone (m !! "created_at")) = Some created →
  as_int (default VNone (m !! "expires_in")) = Some expires →
  in_datetime_range (created + expires) = true →
  ∃ w' doc,
    TokenAuth.refresh_token errors a w = (Ok tt, w')
    ∧ files w' !! TokenAuth.config_path a = Some (FileJson (VDict doc))
    ∧ (∀ k, k ∈ persisted_names → is_Some (doc !! k))
    ∧ (∀ k, k ∉ persisted_names → doc !! k = None)
    ∧ doc !! "APPLICATION_ID" = None
    ∧ fields w' !! "APPLICATION_ID" = fields w !! "APPLICATION_ID".
Proof.
  intros Hk Hauth Hin H204 Hmap Hc Hcr Hex Hrange.
  destruct (refresh_token_success errors a w resp rest m created expires)
    as (w' & Hrun & Hf & Hfiles & _); try done.
  exists w', (persisted w'). split; [done|].
  split; [by rewrite Hfiles, lookup_insert_eq|].
  assert (∀ k, k ∉ persisted_names → persisted w' !! k = None) as Hout.
  { intros k Hn. unfold persisted_names in Hn. rewrite !not_elem_of_cons in Hn.
    destruct Hn as (?&?&?&?&?&_). unfold persisted.
    cbn [list_to_map foldr uncurry fst snd].
    repeat (rewrite lookup_insert_ne by done). apply lookup_empty. }
  split; [|split; [exact Hout|split]].
  - intros k Hin'. unfold persisted_names in Hin'.
    unfold persisted. cbn [list_to_map foldr uncurry fst snd].
    repeat (apply elem_of_cons in Hin' as [->|Hin'];
            [repeat (rewrite lookup_insert_ne by done); rewrite lookup_insert_eq; eauto|]).
    by apply elem_of_nil in Hin'.
  - apply Hout. unfold persisted_names. rewrite !elem_of_cons, elem_of_nil.
    intros H. intuition discriminate.
  - rewrite Hf. by repeat (rewrite lookup_insert_ne by done).
Qed.

End TokenEdges.

Lemma get_token_trusts_valid_flag_witness :
  TokenAuth.get_token Sample.errors Sample.auth
    (set_clock ((Sample.now_s + 400 * 86400) * 1000000)
       (Sample.world_of
          (Sample.params (VInt (Sample.now_s + 3600)) (VStr "old-token") (VBool true))
          [Sample.token_response]))
  = (Ok (VStr "my-id", VStr "old-token"),
     set_clock ((Sample.now_s + 400 * 86400) * 1000000)
       (Sample.world_of
          (Sample.params (VInt (Sample.now_s + 3600)) (VStr "old-token") (VBool true))
          [Sample.token_response])).
Proof.
  apply (get_token_trusts_valid_flag Sample.errors Sample.auth
           (Sample.world_of
              (Sample.params (VInt (Sample.now_s + 3600)) (VStr "old-token") (VBool true))
              [Sample.token_response])
           (VBool true)).
  - exists (VStr "my-id"). split; [vm_compute; reflexivity|discriminate].
  - exists (VStr "my-secret"). split; [vm_compute; reflexivity|discriminate].
  - vm_compute. reflexivity.
  - reflexivity.
  - vm_compute. reflexivity.
  - vm_compute. reflexivity.
Defined.

Lemma get_token_rejects_text_expiry_witness :
  fst (TokenAuth.get_token Sample.errors Sample.auth
         (Sample.with_file Sample.text_expiry_file
            (Sample.world_of Sample.id_only [Sample.token_response])))
  = Raise TypeError
  ∧ sent (snd (TokenAuth.get_token Sample.errors Sample.auth
                 (Sample.with_file Sample.text_expiry_file
                    (Sample.world_of Sample.id_only [Sample.token_response]))))
    = [].
Proof.
  rewrite (get_token_rejects_text_expiry Sample.errors Sample.auth
             (Sample.with_file Sample.text_expiry_file
                (Sample.world_of Sample.id_only [Sample.token_response]))
             (snd (TokenAuth.load_config Sample.auth
                     (Sample.with_file Sample.text_expiry_file
                        (Sample.world_of Sample.id_only [Sample.token_response]))))
             VNone (VStr "2024-02-12") (VStr "file-refresh")).
  - split; vm_compute; reflexivity.
  - vm_compute. reflexivity.
  - vm_compute. reflexivity.
  - reflexivity.
  - vm_compute. reflexivity.
  - discriminate.
  - reflexivity.
  - vm_compute. reflexivity.
  - discriminate.
Defined.

Lemma refresh_token_rejects_non_object_witness :
  TokenAuth.refresh_token Sample.errors Sample.auth
    (Sample.world_of Sample.with_application [Sample.no_content])
  = (Raise (AttributeError "get"),
     after_exchange
       (refresh_request Sample.client (Sample.world_of Sample.with_application [Sample.no_content]))
       [] (Sample.world_of Sample.with_application [Sample.no_content])).
Proof.
  apply (refresh_token_rejects_non_object Sample.errors Sample.auth
           (Sample.world_of Sample.with_application [Sample.no_content])
           Sample.no_content []).
  - apply sample_has_keys.
  - reflexivity.
  - reflexivity.
  - left. reflexivity.
Defined.

Lemma refresh_token_drops_other_keys_witness :
  ∃ w' doc,
    TokenAuth.refresh_token Sample.errors Sample.auth
      (Sample.with_file Sample.application_file
         (Sample.world_of Sample.with_application [Sample.token_response]))
    = (Ok tt, w')
    ∧ files w' !! "pytrakt.json" = Some (FileJson (VDict doc))
    ∧ doc !! "APPLICATION_ID" = None
    ∧ fields w' !! "APPLICATION_ID" = Some (VStr "my-app").
Proof.
  destruct (refresh_token_drops_other_keys Sample.errors Sample.auth
              (Sample.with_file Sample.application_file
                 (Sample.world_of Sample.with_application [Sample.token_response]))
              Sample.token_response []
              (list_to_map [
                ("access_token", VStr "new-token");
                ("token_type", VStr "bearer");
                ("expires_in", VInt 7776000);
                ("refresh_token", VStr "new-refresh");
                ("scope", VStr "public");
                ("created_at", VInt 1700000000)]) 1700000000 7776000)
    as (w' & doc & Hrun & Hfile & _ & _ & Hdoc & Hf).
  - apply sample_with_file_has_keys.
  - reflexivity.
  - vm_compute. reflexivity.
  - discriminate.
  - vm_compute. reflexivity.
  - vm_compute. reflexivity.
  - vm_compute. reflexivity.
  - vm_compute. reflexivity.
  - vm_compute. reflexivity.
  - exists w', doc. split; [exact Hrun|]. split; [exact Hfile|]. split; [exact Hdoc|].
    rewrite Hf. vm_compute. reflexivity.
Defined.


(** ** What signing sends *)

Section SigningTraffic.
Context (errors : errors_module).

Lemma quiet_now : network_quiet now.
Proof. by intros w r w' [= <- <-]. Qed.

Create HintDb traffic.
#[local] Hint Resolve quiet_getitem quiet_setitem quiet_py_get quiet_py_add
  quiet_fromtimestamp quiet_store_token quiet_load_config quiet_now : traffic.
#[local] Hint Extern 1 (network_quiet (ret _)) => apply quiet_ret : traffic.
#[local] Hint Extern 1 (network_quiet (raise _)) => apply quiet_raise : traffic.
#[local] Hint Extern 2 (network_quiet (bind _ _)) =>
  apply quiet_bind; [|intros ?] : traffic.
#[local] Hint Extern 3 (network_quiet (if ?b then _ else _)) => destruct b : traffic.

Lemma ro_quiet {A} base (c : M A) : network_quiet c → refresh_only base c.
Proof. intros Hq w r w' H. left. by destruct (Hq _ _ _ H). Qed.

Lemma ro_bind_l {A B} base (c : M A) (f : A → M B) :
  network_quiet c → (∀ a, refresh_only base (f a)) → refresh_only base (bind c f).
Proof.
  intros Hc Hf w r w'. unfold bind.
  destruct (c w) as [[x|e] w1] eqn:E; destruct (Hc _ _ _ E) as [S1 _].
  - intros H. rewrite <- S1. by eapply Hf.
  - intros [= <- <-]. by left.
Qed.

Lemma ro_bind_r {A B} base (c : M A) (f : A → M B) :
  refresh_only base c → (∀ a, network_quiet (f a)) → refresh_only base (bind c f).
Proof.
  intros Hc Hf w r w'. unfold bind.
  destruct (c w) as [[x|e] w1] eqn:E.
  - intros H. destruct (Hf _ _ _ _ H) as [-> _]. by eapply Hc.
  - intros [= <- <-]. by eapply Hc.
Qed.

Lemma ro_refresh_exchange a data :
  HttpClient.auth (TokenAuth.client a) = None →
  refresh_only (HttpClient.base_url (TokenAuth.client a))
    (try_except
       (r <~ HttpClient.post errors (TokenAuth.client a) "/oauth/token" data ;;
        ret (Some r))
       (TokenAuth.caught_as_OAuthException errors)
       (ret None)).
Proof.
  intros Hauth w r w'. unfold try_except, HttpClient.post. unfold bind at 1.
  rewrite (request_plain errors _ _ _ _ _ Hauth). cbn zeta.
  assert (∀ w1 : world,
    sent w1 = (sent w ++ [Request "post"
                 (HttpClient.base_url (TokenAuth.client a) +:+ "/oauth/token")
                 (HttpClient.headers (TokenAuth.client a))
                 (payload_of "post" data)])%list →
    sent w1 = sent w
    ∨ ∃ rq, sent w1 = (sent w ++ [rq])%list ∧ rq_method rq = "post"
            ∧ rq_url rq = HttpClient.base_url (TokenAuth.client a) +:+ "/oauth/token")
    as Hgoal.
  { intros w1 H. right. eexists. split; [exact H|]. done. }
  destruct (inbox w) as [|resp rest]; [by intros [= <- <-]; apply Hgoal|].
  destruct (status_code resp =? 204); [by intros [= <- <-]; apply Hgoal|].
  destruct (HttpClient.error_map errors !! status_code resp) as [cls|].
  { cbn [TokenAuth.caught_as_OAuthException].
    destruct (is_OAuthException errors cls); by intros [= <- <-]; apply Hgoal. }
  destruct (content resp); by intros [= <- <-]; apply Hgoal.
Qed.

Lemma ro_refresh_token a :
  HttpClient.auth (TokenAuth.client a) = None →
  refresh_only (HttpClient.base_url (TokenAuth.client a))
    (TokenAuth.refresh_token errors a).
Proof.
  intros Hauth. unfold TokenAuth.refresh_token.
  do 4 (apply ro_bind_l; [apply quiet_getitem|intros ?]).
  apply ro_bind_r; [by apply ro_refresh_exchange|].
  intros [resp|]; auto 40 with traffic.
Qed.

Lemma ro_validate_token a :
  HttpClient.auth (TokenAuth.client a) = None →
  refresh_only (HttpClient.base_url (TokenAuth.client a))
    (TokenAuth.validate_token errors a).
Proof.
  intros Hauth. unfold TokenAuth.validate_token.
  apply ro_bind_l; [apply quiet_now|intros current].
  apply ro_bind_l; [apply quiet_getitem|intros ts].
  apply ro_bind_l; [apply quiet_fromtimestamp|intros expires_at].
  destruct (timedelta_days 2 <? expires_at - current).
  - apply ro_quiet, quiet_setitem.
  - by apply ro_refresh_token.
Qed.

(** X14. Signing sends at most one request of its own, and only the
    refresh: however the hook of a [TokenAuth] with a hook-free client
    ends, the wire has seen either nothing new or exactly one more
    request, a POST to [/oauth/token] under the client's base url. *)
Theorem call_sends_at_most_the_refresh py_repr a rq w r w' :
  HttpClient.auth (TokenAuth.client a) = None →
  TokenAuth.__call__ errors py_repr a rq w = (r, w') →
  sent w' = sent w
  ∨ ∃ rq', sent w' = (sent w ++ [rq'])%list
           ∧ rq_method rq' = "post"
           ∧ rq_url rq' = HttpClient.base_url (TokenAuth.client a) +:+ "/oauth/token".
Proof.
  intros Hauth.
  assert (refresh_only (HttpClient.base_url (TokenAuth.client a))
            (TokenAuth.__call__ errors py_repr a rq)) as Hro; [|by apply Hro].
  unfold TokenAuth.__call__. apply ro_bind_r; [|intros [cid tok]; apply quiet_ret].
  unfold TokenAuth.get_token.
  apply ro_bind_l; [apply quiet_load_config|intros _].
  apply ro_bind_l; [apply quiet_getitem|intros valid].
  apply ro_bind_l; [auto 20 with traffic|intros go].
  apply ro_bind_r; [|auto 20 with traffic].
  destruct go; [by apply ro_validate_token|apply ro_quiet, quiet_ret].
Qed.

End SigningTraffic.

Lemma call_sends_at_most_the_refresh_witness :
  ∃ rq',
    sent (snd (TokenAuth.__call__ Sample.errors Sample.repr Sample.auth
                 (Request "get" "https://api.trakt.tv/users/me" ∅ (Params VNone))
                 (Sample.world_of
                    (Sample.params (VInt (Sample.now_s + 3600)) (VStr "old-token") VNone)
                    [Sample.unauthorized])))
    = [rq']
    ∧ rq_url rq' = "https://api.trakt.tv/oauth/token".
Proof.
  destruct (call_sends_at_most_the_refresh Sample.errors Sample.repr Sample.auth
              (Request "get" "https://api.trakt.tv/users/me" ∅ (Params VNone))
              (Sample.world_of
                 (Sample.params (VInt (Sample.now_s + 3600)) (VStr "old-token") VNone)
                 [Sample.unauthorized])
              _ _ eq_refl (surjective_pairing _)) as [H|(rq' & H & _ & Hurl)].
  - vm_compute in H. discriminate H.
  - exists rq'. split; [exact H|exact Hurl].
Defined.


(** ** A signed request whose token needs a refresh *)

Section SignedRefresh.
Context (errors : errors_module) (py_repr : value → string).

Lemma get_token_refreshes a w wl valid e ref :
  TokenAuth.load_config a w = (Ok tt, wl) →
  fields wl !! "OAUTH_TOKEN_VALID" = Some valid → truthy valid = false →
  fields wl !! "OAUTH_EXPIRES_AT" = Some (VInt e) →
  in_datetime_range e = true →
  e * 1000000 - clock wl ≤ timedelta_days 2 →
  fields wl !! "OAUTH_REFRESH" = Some ref → ref ≠ VNone →
  TokenAuth.get_token errors a w =
  bind (TokenAuth.refresh_token errors a)
    (λ _, client_id <~ TokenAuth.getitem "CLIENT_ID" ;;
          client_token <~ TokenAuth.getitem "OAUTH_TOKEN" ;;
          ret (client_id, client_token)) wl.
Proof.
  intros Hl Hv Ht He Hrange Hcmp Hr Hrn.
  rewrite (get_token_routes errors a w wl valid (VInt e) ref) by done.
  unfold TokenAuth.validate_token.
  unfold bind at 1. unfold bind at 1. unfold now at 1.
  rewrite (bind_getitem _ _ _ _ He).
  rewrite (bind_Ok _ _ _ _ _ (fromtimestamp_in_range _ _ Hrange)).
  apply Z.ltb_ge in Hcmp. rewrite Hcmp. reflexivity.
Qed.

Lemma refresh_token_on_failure a w resp rest cls :
  has_keys w →
  HttpClient.auth (TokenAuth.client a) = None →
  inbox w = resp :: rest →
  status_code resp ≠ 204 →
  HttpClient.error_map errors !! status_code resp = Some cls →
  TokenAuth.refresh_token errors a w
  = (if is_OAuthException errors cls then Ok tt else Raise (TraktError cls resp),
     after_exchange (refresh_request (TokenAuth.client a) w) rest w).
Proof.
  intros Hk Hauth Hin H204 Hmap.
  destruct (has_keys_lookup w "CLIENT_ID" Hk) as [cid Hcid]; [repeat constructor|].
  destruct (has_keys_lookup w "CLIENT_SECRET" Hk) as [sec Hsec]; [repeat constructor|].
  destruct (has_keys_lookup w "OAUTH_REFRESH" Hk) as [ref Href]; [repeat constructor|].
  destruct (has_keys_lookup w "REDIRECT_URI" Hk) as [uri Huri]; [repeat constructor|].
  rewrite (refresh_token_unfold errors a w _ _ _ _ Hcid Hsec Href Huri).
  unfold try_except, HttpClient.post. unfold bind at 1. unfold bind at 1.
  rewrite (request_plain errors _ _ _ _ _ Hauth), Hin. cbn zeta.
  apply Z.eqb_neq in H204. rewrite H204, Hmap.
  cbn [TokenAuth.caught_as_OAuthException].
  by destruct (is_OAuthException errors cls).
Qed.

(** X15. Only [OAuthException] is swallowed.  When a request is signed
    by a [TokenAuth] whose token is within the margin, and the refresh is
    answered with a status whose class is not an [OAuthException], the
    request the caller made ends in that exception, built from the answer
    to the refresh, and is never transmitted: the wire has seen the
    refresh request only, and the dict is as the load left it. *)
Theorem refresh_failure_aborts_signed_request
    a c method url data w wl valid e ref resp rest cls :
  HttpClient.auth c = Some (TokenAuth.__call__ errors py_repr a) →
  HttpClient.auth (TokenAuth.client a) = None →
  TokenAuth.load_config a w = (Ok tt, wl) →
  has_keys wl →
  fields wl !! "OAUTH_TOKEN_VALID" = Some valid → truthy valid = false →
  fields wl !! "OAUTH_EXPIRES_AT" = Some (VInt e) →
  in_datetime_range e = true →
  e * 1000000 - clock wl ≤ timedelta_days 2 →
  fields wl !! "OAUTH_REFRESH" = Some ref → ref ≠ VNone →
  inbox wl = resp :: rest →
  status_code resp ≠ 204 →
  HttpClient.error_map errors !! status_code resp = Some cls →
  is_OAuthException errors cls = false →
  ∃ w', HttpClient.request errors c method url data w
        = (Raise (TraktError cls resp), w')
        ∧ sent w' = (sent w ++ [refresh_request (TokenAuth.client a) wl])%list
        ∧ fields w' = fields wl ∧ files w' = files w.
Proof.
  intros Hc Hauth Hl Hk Hv Ht He Hrange Hcmp Hr Hrn Hin H204 Hmap Hno.
  destruct (load_config_keeps _ _ _ _ Hl) as [(Fl & Il & Sl & _) _].
  eexists. split.
  - apply (request_aborts_when_hook_raises errors c (TokenAuth.__call__ errors py_repr a)); [done|].
    unfold TokenAuth.__call__. apply bind_Raise.
    rewrite (get_token_refreshes a w wl valid e ref) by done.
    apply bind_Raise.
    rewrite (refresh_token_on_failure a wl resp rest cls) by done.
    by rewrite Hno.
  - simpl. by rewrite Sl, Fl.
Qed.

Lemma signed_request_goes_out c a method url data w cid tok w1 :
  HttpClient.auth c = Some (TokenAuth.__call__ errors py_repr a) →
  TokenAuth.get_token errors a w = (Ok (cid, tok), w1) →
  ∃ r w', HttpClient.request errors c method url data w = (r, w')
    ∧ sent w' = (sent w1 ++ [signed py_repr cid tok
                   (Request method (HttpClient.base_url c +:+ url)
                      (HttpClient.headers c) (payload_of method data))])%list
    ∧ fields w' = fields w1 ∧ files w' = files w1.
Proof.
  intros Hc Hget. rewrite request_unfold. unfold bind at 1.
  unfold session_request. rewrite Hc.
  rewrite (bind_Ok _ _ _ _ _ (call_signs errors py_repr a _ w cid tok w1 Hget)).
  unfold transmit.
  destruct (inbox w1) as [|resp rest]; [by eexists _, _|].
  destruct (status_code resp =? 204); [by eexists _, _|].
  unfold HttpClient.raise_if_needed, HttpClient.json_loads, bind.
  destruct (HttpClient.error_map errors !! status_code resp); [by eexists _, _|].
  cbn [ret]. destruct (content resp); by eexists _, _.
Qed.


End SignedRefresh.


Lemma refresh_failure_aborts_signed_request_witness :
  ∃ w',
    HttpClient.request Sample.errors Sample.signing_client "get" "/users/me" VNone
      (Sample.world_of
         (Sample.params (VInt (Sample.now_s + 3600)) (VStr "old-token") VNone)
         [Sample.server_error; Sample.empty_object])
    = (Raise (TraktError (Build_ErrClass "TraktInternalException" 500) Sample.server_error), w')
    ∧ length (sent w') = 1%nat.
Proof.
  destruct (refresh_failure_aborts_signed_request Sample.errors Sample.repr Sample.auth
              Sample.signing_client "get" "/users/me" VNone
              (Sample.world_of
                 (Sample.params (VInt (Sample.now_s + 3600)) (VStr "old-token") VNone)
                 [Sample.server_error; Sample.empty_object])
              (Sample.world_of
                 (Sample.params (VInt (Sample.now_s + 3600)) (VStr "old-token") VNone)
                 [Sample.server_error; Sample.empty_object])
              VNone (Sample.now_s + 3600) (VStr "old-refresh")
              Sample.server_error [Sample.empty_object]
              (Build_ErrClass "TraktInternalException" 500))
    as (w' & Hrun & Hs & _).
  - reflexivity.
  - reflexivity.
  - vm_compute. reflexivity.
  - apply sample_has_keys.
  - vm_compute. reflexivity.
  - reflexivity.
  - vm_compute. reflexivity.
  - reflexivity.
  - discriminate.
  - vm_compute. reflexivity.
  - discriminate.
  - vm_compute. reflexivity.
  - discriminate.
  - vm_compute. reflexivity.
  - reflexivity.
  - exists w'. split; [exact Hrun|]. rewrite Hs. reflexivity.
Defined.



(** ** [refresh_token] on a truncated token response *)

Section HalfRefresh.
Context (errors : errors_module).

(** X17. The refresh is not all-or-nothing.  On an answer that is a JSON
    object without [created_at], [refresh_token] has already assigned the
    new token and the new refresh token when the sum for the expiry
    raises [TypeError]: the dict is left with the new tokens beside the
    old expiry and the old valid flag, and nothing is written to the
    config file. *)
Theorem refresh_token_half_updates a w resp rest m :
  has_keys w →
  HttpClient.auth (TokenAuth.client a) = None →
  inbox w = resp :: rest →
  status_code resp ≠ 204 →
  HttpClient.error_map errors !! status_code resp = None →
  content resp = Some (VDict m) →
  m !! "created_at" = None →
  ∃ w', TokenAuth.refresh_token errors a w = (Raise TypeError, w')
    ∧ fields w' !! "OAUTH_TOKEN" = Some (default VNone (m !! "access_token"))
    ∧ fields w' !! "OAUTH_REFRESH" = Some (default VNone (m !! "refresh_token"))
    ∧ fields w' !! "OAUTH_EXPIRES_AT" = fields w !! "OAUTH_EXPIRES_AT"
    ∧ fields w' !! "OAUTH_TOKEN_VALID" = fields w !! "OAUTH_TOKEN_VALID"
    ∧ files w' = files w.
Proof.
  intros Hk Hauth Hin H204 Hmap Hc Hm.
  destruct (has_keys_lookup w "CLIENT_ID" Hk) as [cid Hcid]; [repeat constructor|].
  destruct (has_keys_lookup w "CLIENT_SECRET" Hk) as [sec Hsec]; [repeat constructor|].
  destruct (has_keys_lookup w "OAUTH_REFRESH" Hk) as [ref Href]; [repeat constructor|].
  destruct (has_keys_lookup w "REDIRECT_URI" Hk) as [uri Huri]; [repeat constructor|].
  rewrite (refresh_token_unfold errors a w _ _ _ _ Hcid Hsec Href Huri).
  unfold try_except, HttpClient.post. unfold bind at 1. unfold bind at 1.
  rewrite (request_plain errors _ _ _ _ _ Hauth), Hin. simpl.
  apply Z.eqb_neq in H204. rewrite H204, Hmap, Hc. simpl.
  rewrite bind_ret, bind_setitem, bind_ret, bind_setitem, !bind_ret.
  rewrite Hm. cbn [default]. unfold py_add at 1. cbn [as_int].
  rewrite bind_raise.
  eexists. split; [reflexivity|]. wsimpl.
  split; [by rewrite lookup_insert_ne, lookup_insert_eq|].
  split; [by rewrite lookup_insert_eq|].
  split; [by rewrite !lookup_insert_ne|].
  split; [by rewrite !lookup_insert_ne|done].
Qed.

End HalfRefresh.

Lemma refresh_token_half_updates_witness :
  ∃ w',
    TokenAuth.refresh_token Sample.errors Sample.auth
      (Sample.world_of Sample.with_application [Sample.truncated_token_response])
    = (Raise TypeError, w')
    ∧ fields w' !! "OAUTH_TOKEN" = Some (VStr "new-token")
    ∧ fields w' !! "OAUTH_EXPIRES_AT" = Some (VInt (Sample.now_s + 3600))
    ∧ files w' = ∅.
Proof.
  destruct (refresh_token_half_updates Sample.errors Sample.auth
              (Sample.world_of Sample.with_application [Sample.truncated_token_response])
              Sample.truncated_token_response []
              (list_to_map [
                 ("access_token", VStr "new-token");
                 ("refresh_token", VStr "new-refresh")]))
    as (w' & Hrun & Htok & _ & Hexp & _ & Hf).
  - apply sample_has_keys.
  - reflexivity.
  - vm_compute. reflexivity.
  - discriminate.
  - vm_compute. reflexivity.
  - vm_compute. reflexivity.
  - vm_compute. reflexivity.
  - exists w'. split; [exact Hrun|]. split; [exact Htok|].
    split; [rewrite Hexp; vm_compute; reflexivity|].
    rewrite Hf. reflexivity.
Defined.


(** ** [DeviceAuth]: the steps before the loop *)

Section DeviceSteps.
Context (get_client_info : M (value * value)).
Context (py_repr : value → string).

(** X18. [update_tokens] asks for the client id and secret only when
    both are missing.  When at least one was passed to [__init__],
    nobody is asked and both are written to the config as they are: with
    the id alone, the config's client secret becomes [None], whatever it
    held.  When both are missing the config receives what
    [get_client_info] returns, and stays untouched if that raises. *)
Theorem update_tokens_asks_only_without_both d w :
  (is_None (DeviceAuth.client_id d) && is_None (DeviceAuth.client_secret d) = false →
     ∃ w', DeviceAuth.update_tokens get_client_info d w = (Ok tt, w')
       ∧ config w' !! "CLIENT_ID" = Some (DeviceAuth.client_id d)
       ∧ config w' !! "CLIENT_SECRET" = Some (DeviceAuth.client_secret d)
       ∧ (∀ k, k ≠ "CLIENT_ID" → k ≠ "CLIENT_SECRET" → config w' !! k = config w !! k)
       ∧ fields w' = fields w ∧ files w' = files w ∧ sent w' = sent w
       ∧ printed w' = printed w)
  ∧ (is_None (DeviceAuth.client_id d) && is_None (DeviceAuth.client_secret d) = true →
     (∀ id sec w1, get_client_info w = (Ok (id, sec), w1) →
        ∃ w', DeviceAuth.update_tokens get_client_info d w = (Ok tt, w')
          ∧ config w' !! "CLIENT_ID" = Some id
          ∧ config w' !! "CLIENT_SECRET" = Some sec)
     ∧ (∀ e w1, get_client_info w = (Raise e, w1) →
          DeviceAuth.update_tokens get_client_info d w = (Raise e, w1))).
Proof.
  unfold DeviceAuth.update_tokens. split.
  - intros ->. rewrite bind_ret. cbn [fst snd].
    eexists. split; [reflexivity|]. simpl.
    split; [by rewrite lookup_insert_ne, lookup_insert_eq|].
    split; [by rewrite lookup_insert_eq|].
    split; [|done]. intros k H1 H2. by rewrite !lookup_insert_ne.
  - intros ->. split.
    + intros id sec w1 Hg. rewrite (bind_Ok _ _ _ _ _ Hg). cbn [fst snd].
      eexists. split; [reflexivity|]. simpl.
      split; [by rewrite lookup_insert_ne, lookup_insert_eq|].
      by rewrite lookup_insert_eq.
    + intros e w1 Hg. by apply bind_Raise.
Qed.

(** X19. [get_device_code] over a hook-free [HttpClient] whose code
    request is answered by a JSON object: it sends the config's client id
    to [/oauth/device/code], prints the user code and the verification
    url, printing the text [None] for one the answer lacks, and returns
    the object of the answer with every key as received except
    [requested], which is set (replacing one the answer may carry).  The
    config and the files are not touched. *)
Theorem get_device_code_stamps_answer errors c path cid sec st w resp rest cid' m :
  HttpClient.auth c = None →
  config w !! "CLIENT_ID" = Some cid' →
  inbox w = resp :: rest →
  status_code resp ≠ 204 →
  HttpClient.error_map errors !! status_code resp = None →
  content resp = Some (VDict m) →
  ∃ m' w',
    DeviceAuth.get_device_code py_repr
      (DeviceAuth.Make (of_HttpClient errors c) path cid sec st) w
    = (Ok (OValue (VDict m')), w')
    ∧ (∀ k, k ≠ "requested" → m' !! k = m !! k)
    ∧ is_Some (m' !! "requested")
    ∧ sent w' = (sent w ++ [device_code_request c cid'])%list
    ∧ inbox w' = rest
    ∧ printed w'
      = (printed w ++
         ["Your user code is: "
          +:+ TokenAuth.py_str py_repr (default VNone (m !! "user_code"))
          +:+ ", please navigate to "
          +:+ TokenAuth.py_str py_repr (default VNone (m !! "verification_url"))
          +:+ " to authenticate"])%list
    ∧ config w' = config w ∧ files w' = files w.
Proof.
  intros Hauth Hid Hin H204 Hmap Hc.
  unfold DeviceAuth.get_device_code, DeviceAuth.config_getattr.
  unfold bind at 1. rewrite Hid. cbn [DeviceAuth.client].
  unfold of_HttpClient, HttpClient.post. unfold bind at 1. unfold bind at 1.
  rewrite (request_plain errors _ _ _ _ _ Hauth), Hin. cbn zeta.
  apply Z.eqb_neq in H204. rewrite H204, Hmap, Hc.
  cbn [ret obj_get py_get]. rewrite !bind_ret.
  unfold print, modify, time. unfold bind. cbn [obj_setitem py_setitem ret].
  eexists _, _. split; [reflexivity|]. simpl.
  split; [by intros k Hk; rewrite lookup_insert_ne|].
  split; [rewrite lookup_insert_eq; eauto|]. done.
Qed.

Lemma poll_over_HttpClient errors c path cid sec st fuel device_code interval w :
  ∃ e w',
    DeviceAuth.poll py_repr (S fuel)
      (DeviceAuth.Make (of_HttpClient errors c) path cid sec st)
      device_code interval w = (Raise e, w').
Proof.
  cbn [DeviceAuth.poll DeviceAuth.store]. unfold bind at 1.
  destruct (get_device_token_over_HttpClient errors c path cid sec st
              device_code st w) as (e & w' & ->).
  eauto.
Qed.

(** X20. [authenticate] over an [HttpClient] never returns a result: for
    every server, failure table, config and input of the user, and any
    number of polls allowed, the call ends in an exception: out of
    [update_tokens] or [get_device_code], for a [device_code] or
    [interval] missing from the code response, or at the latest in the
    first poll. *)
Theorem authenticate_over_HttpClient_never_returns
    errors c path cid sec st fuel w :
  ∃ e w',
    DeviceAuth.authenticate get_client_info py_repr (S fuel)
      (DeviceAuth.Make (of_HttpClient errors c) path cid sec st) w
    = (Raise e, w').
Proof.
  unfold DeviceAuth.authenticate.
  apply raises_after. intros _ w1.
  apply raises_after. intros resp w2.
  apply raises_after. intros device_code w3.
  apply raises_after. intros interval w4.
  apply poll_over_HttpClient.
Qed.

End DeviceSteps.

Lemma update_tokens_asks_only_without_both_witness :
  ∃ w',
    DeviceAuth.update_tokens Sample.typed_in Sample.device_id_only
      (set_config (λ _, {["CLIENT_SECRET" := VStr "kept-secret"]})
         (Sample.device_world []))
    = (Ok tt, w')
    ∧ config w' !! "CLIENT_ID" = Some (VStr "my-id")
    ∧ config w' !! "CLIENT_SECRET" = Some VNone.
Proof.
  destruct (update_tokens_asks_only_without_both Sample.typed_in Sample.device_id_only
              (set_config (λ _, {["CLIENT_SECRET" := VStr "kept-secret"]})
                 (Sample.device_world []))) as [H _].
  destruct H as (w' & Hrun & Hid & Hsec & _); [reflexivity|].
  exists w'. split; [exact Hrun|]. split; [exact Hid|exact Hsec].
Defined.

Lemma get_device_code_stamps_answer_witness :
  ∃ m' w',
    DeviceAuth.get_device_code Sample.repr (Sample.device Sample.errors)
      (set_config (λ _, {["CLIENT_ID" := VStr "my-id"]})
         (Sample.device_world [Sample.bare_code_response]))
    = (Ok (OValue (VDict m')), w')
    ∧ m' !! "device_code" = Some (VStr "abc")
    ∧ printed w'
      = ["Your user code is: None, please navigate to None to authenticate"].
Proof.
  destruct (get_device_code_stamps_answer Sample.repr Sample.errors Sample.client
              "pytrakt.json" (VStr "my-id") (VStr "my-secret") true
              (set_config (λ _, {["CLIENT_ID" := VStr "my-id"]})
                 (Sample.device_world [Sample.bare_code_response]))
              Sample.bare_code_response [] (VStr "my-id")
              (list_to_map [
                 ("device_code", VStr "abc");
                 ("requested", VStr "never");
                 ("interval", VInt 5)]))
    as (m' & w' & Hrun & Hk & _ & _ & _ & Hp & _).
  - reflexivity.
  - vm_compute. reflexivity.
  - reflexivity.
  - discriminate.
  - vm_compute. reflexivity.
  - vm_compute. reflexivity.
  - exists m', w'. split; [exact Hrun|]. split.
    + rewrite Hk by discriminate. vm_compute. reflexivity.
    + rewrite Hp. vm_compute. reflexivity.
Defined.


(** ** The loop of [authenticate] over a client that answers the polls
       with response objects *)

Section PollRuns.
Context (py_repr : value → string).
Context (d : DeviceAuth.t) (device_code : value).
Context (Hclient : answers_polls_with_responses (DeviceAuth.client d)).

(** [authenticate] enters its loop once the id and secret are in the
    config and the code request was answered by an object with a
    [device_code] and an [interval]. *)
Lemma authenticate_enters_loop (get_client_info : M (value * value)) fuel w w0 m w1 dc i :
  DeviceAuth.update_tokens get_client_info d w = (Ok tt, w0) →
  DeviceAuth.get_device_code py_repr d w0 = (Ok (OValue (VDict m)), w1) →
  m !! "device_code" = Some dc → m !! "interval" = Some i →
  DeviceAuth.authenticate get_client_info py_repr fuel d w
  = DeviceAuth.poll py_repr fuel d dc i w1.
Proof.
  intros Hu Hc Hdc Hi. unfold DeviceAuth.authenticate.
  rewrite (bind_Ok _ _ _ _ _ Hu), (bind_Ok _ _ _ _ _ Hc).
  cbn [obj_getitem py_getitem]. by rewrite Hdc, bind_ret, Hi, bind_ret.
Qed.

Lemma get_device_token_passes store w r rest cid sec :
  config w !! "CLIENT_ID" = Some cid →
  config w !! "CLIENT_SECRET" = Some sec →
  inbox w = r :: rest →
  status_code r ≠ 200 →
  ∃ w1, DeviceAuth.get_device_token d device_code store w = (Ok (OResponse r), w1)
        ∧ inbox w1 = rest ∧ config w1 = config w ∧ files w1 = files w
        ∧ slept w1 = slept w ∧ printed w1 = printed w.
Proof.
  intros Hid Hsec Hin H200.
  unfold DeviceAuth.get_device_token, DeviceAuth.config_getattr.
  unfold bind at 1. rewrite Hid. unfold bind at 1. rewrite Hsec.
  destruct (Hclient
              (VDict (list_to_map [("code", device_code); ("client_id", cid);
                                   ("client_secret", sec)])) w r rest Hin)
    as (w1 & Hpost & F).
  rewrite (bind_Ok _ _ _ _ _ Hpost). cbn [attr_status_code]. rewrite bind_ret.
  apply Z.eqb_neq in H200. rewrite H200. cbv beta iota. rewrite bind_ret.
  exists w1. by split.
Qed.

Lemma py_add_pure a b w1 res w1' :
  py_add a b w1 = (res, w1') → w1' = w1 ∧ ∀ w, py_add a b w = (res, w).
Proof.
  unfold py_add. destruct (as_int a), (as_int b), a, b;
    by intros [= <- <-].
Qed.

Lemma next_interval_ge i r : 0 ≤ i → i ≤ next_interval i r.
Proof. unfold next_interval. destruct (status_code r =? 429); lia. Qed.

(** The interval never shrinks: nothing in the loop resets it. *)
Lemma last_interval_ge rs : ∀ i, 0 ≤ i → i ≤ last_interval i rs.
Proof.
  induction rs as [|r rs IH]; intros i Hi; simpl; [lia|].
  pose proof (next_interval_ge i r Hi). specialize (IH (next_interval i r)). lia.
Qed.

Lemma poll_waits rs : ∀ n i w tl cid sec,
  0 ≤ i → last_interval i rs ≤ MAX_SLEEP →
  config w !! "CLIENT_ID" = Some cid →
  config w !! "CLIENT_SECRET" = Some sec →
  inbox w = (rs ++ tl)%list →
  Forall transitional rs →
  ∃ w1, DeviceAuth.poll py_repr (length rs + n) d device_code (VInt i) w
        = DeviceAuth.poll py_repr n d device_code (VInt (last_interval i rs)) w1
        ∧ 0 ≤ last_interval i rs
        ∧ inbox w1 = tl
        ∧ slept w1 = (slept w ++ sleeps i rs)%list
        ∧ config w1 = config w ∧ files w1 = files w ∧ printed w1 = printed w.
Proof.
  induction rs as [|r rs IH]; intros n i w tl cid sec Hi Hmax Hid Hsec Hin Hrs.
  - exists w. simpl. rewrite (right_id_L [] (++)). by repeat split.
  - apply Forall_cons in Hrs as [Hr Hrs].
    assert (status_code r ≠ 200) as H200 by (destruct Hr as [-> | ->]; discriminate).
    destruct (get_device_token_passes (DeviceAuth.store d) w r (rs ++ tl)%list cid sec
                Hid Hsec Hin H200) as (w1 & Hg & I1 & C1 & F1 & S1 & P1).
    pose proof (next_interval_ge i r Hi) as Hni.
    cbn [last_interval] in Hmax.
    pose proof (last_interval_ge rs (next_interval i r) ltac:(lia)) as Hle.
    assert (DeviceAuth.poll py_repr (length (r :: rs) + n) d device_code (VInt i) w
            = DeviceAuth.poll py_repr (length rs + n) d device_code
                (VInt (next_interval i r)) (after_sleep (next_interval i r) w1)) as Hstep.
    { unfold next_interval in *. destruct Hr as [Hr|Hr].
      - rewrite Hr in *. cbn [Z.eqb Pos.eqb] in *.
        apply (poll_pending py_repr d device_code _ i w r w1 Hg Hr Hi). lia.
      - rewrite Hr in *. cbn [Z.eqb Pos.eqb] in *.
        apply (poll_slow_down py_repr d device_code _ i w r w1 Hg Hr Hi). lia. }
    destruct (IH n (next_interval i r) (after_sleep (next_interval i r) w1) tl cid sec)
      as (w2 & Hrun & Hl & I2 & S2 & C2 & F2 & P2); try done.
    { lia. }
    { simpl. by rewrite C1. }
    { simpl. by rewrite C1. }
    exists w2. rewrite Hstep, Hrun. cbn [last_interval sleeps].
    split; [done|]. split; [done|]. split; [done|].
    split; [rewrite S2; simpl; rewrite S1, <- (assoc_L (++)); done|].
    split; [rewrite C2; simpl; done|]. split; [rewrite F2; simpl; done|].
    rewrite P2. simpl. done.
Qed.

(** X21. The loop has no bound of its own.  Over a client that answers
    the polls with response objects, a run of 400 and 429 answers of any
    length, as long as the interval stays within what [sleep] takes,
    leaves the loop polling: it has slept once after each answer, a 429
    doubling the interval for its own sleep and all later ones (nothing
    ever resets it), a 400 keeping it, and has printed nothing and changed
    neither the config nor the files. *)
Theorem poll_waits_through_transitional rs i w tl cid sec :
  0 ≤ i → last_interval i rs ≤ MAX_SLEEP →
  config w !! "CLIENT_ID" = Some cid →
  config w !! "CLIENT_SECRET" = Some sec →
  inbox w = (rs ++ tl)%list →
  Forall transitional rs →
  ∃ w', DeviceAuth.poll py_repr (length rs) d device_code (VInt i) w = (Ok None, w')
        ∧ inbox w' = tl
        ∧ slept w' = (slept w ++ sleeps i rs)%list
        ∧ config w' = config w ∧ files w' = files w ∧ printed w' = printed w.
Proof.
  intros Hi Hmax Hid Hsec Hin Hrs.
  destruct (poll_waits rs 0%nat i w tl cid sec Hi Hmax Hid Hsec Hin Hrs)
    as (w1 & Hrun & _ & F).
  exists w1. rewrite Nat.add_0_r in Hrun. by rewrite Hrun.
Qed.

(** X22. After any run of 400 and 429 answers that keeps the interval
    within what [sleep] takes, a response object whose status is none of
    200, 400 and 429 ends the loop at once: the response is returned, the
    line printed is the fixed message for 404, 409, 410 and 418 and the
    response's reason for any other status, no sleep follows, and neither
    the config nor the files have changed. *)
Theorem poll_stops_at_terminal rs r n i w tl cid sec :
  0 ≤ i → last_interval i rs ≤ MAX_SLEEP →
  config w !! "CLIENT_ID" = Some cid →
  config w !! "CLIENT_SECRET" = Some sec →
  inbox w = (rs ++ r :: tl)%list →
  Forall transitional rs →
  status_code r ≠ 200 → status_code r ≠ 429 → status_code r ≠ 400 →
  ∃ w', DeviceAuth.poll py_repr (length rs + S n) d device_code (VInt i) w
        = (Ok (Some (OResponse r)), w')
        ∧ printed w'
          = (printed w ++
             [default (reason r) (DeviceAuth.error_messages !! status_code r)])%list
        ∧ slept w' = (slept w ++ sleeps i rs)%list
        ∧ inbox w' = tl
        ∧ config w' = config w ∧ files w' = files w.
Proof.
  intros Hi Hmax Hid Hsec Hin Hrs H200 H429 H400.
  destruct (poll_waits rs (S n) i w (r :: tl) cid sec Hi Hmax Hid Hsec Hin Hrs)
    as (w1 & Hrun & _ & I1 & S1 & C1 & F1 & P1).
  destruct (get_device_token_passes (DeviceAuth.store d) w1 r tl cid sec)
    as (w2 & Hg & I2 & C2 & F2 & S2 & P2); try done; try (by rewrite C1).
  eexists. split.
  - rewrite Hrun.
    apply (poll_terminal py_repr d device_code n _ w1 r w2 Hg H200 H429 H400).
  - simpl. rewrite P2, P1, S2, S1, C2, C1, F2, F1. done.
Qed.

(** X26. The backoff ends the loop by itself.  The interval is doubled by
    every 429 and never reset, so after a run of 400 and 429 answers the
    429 that doubles it past what [sleep] takes (9223372036 seconds)
    makes [sleep] raise [OverflowError] out of [authenticate]; the config
    and the files are as before, and nothing was printed. *)
Theorem poll_backoff_overflows rs r n i w tl cid sec :
  0 ≤ i → last_interval i rs ≤ MAX_SLEEP →
  config w !! "CLIENT_ID" = Some cid →
  config w !! "CLIENT_SECRET" = Some sec →
  inbox w = (rs ++ r :: tl)%list →
  Forall transitional rs →
  status_code r = 429 → MAX_SLEEP < last_interval i rs * 2 →
  ∃ w', DeviceAuth.poll py_repr (length rs + S n) d device_code (VInt i) w
        = (Raise OverflowError, w')
        ∧ slept w' = (slept w ++ sleeps i rs)%list
        ∧ inbox w' = tl
        ∧ config w' = config w ∧ files w' = files w ∧ printed w' = printed w.
Proof.
  intros Hi Hmax Hid Hsec Hin Hrs H429 Hover.
  destruct (poll_waits rs (S n) i w (r :: tl) cid sec Hi Hmax Hid Hsec Hin Hrs)
    as (w1 & Hrun & _ & I1 & S1 & C1 & F1 & P1).
  destruct (get_device_token_passes (DeviceAuth.store d) w1 r tl cid sec)
    as (w2 & Hg & I2 & C2 & F2 & S2 & P2); try done; try (by rewrite C1).
  { rewrite H429. discriminate. }
  exists w2. split.
  - rewrite Hrun.
    apply (poll_slow_down_too_long py_repr d device_code n _ w1 r w2 Hg H429 Hover).
  - rewrite S2, S1, C2, C1, F2, F1, P2, P1. done.
Qed.

(** X23. [get_device_token] on a 200 response object updates the config
    in one step or not at all.  Whatever the body is, the call either
    returns the response with [OAUTH_TOKEN], [OAUTH_REFRESH] and
    [OAUTH_EXPIRES_AT] all set from it (the expiry being [created_at +
    expires_in]) and the config file written exactly when [store] was
    asked for, or it raises with the config and the files as they
    were. *)
Theorem get_device_token_all_or_nothing store w r rest cid sec res w' :
  config w !! "CLIENT_ID" = Some cid →
  config w !! "CLIENT_SECRET" = Some sec →
  inbox w = r :: rest →
  status_code r = 200 →
  DeviceAuth.get_device_token d device_code store w = (res, w') →
  (∃ e, res = Raise e ∧ config w' = config w ∧ files w' = files w)
  ∨ (∃ m exp,
       res = Ok (OResponse r) ∧ content r = Some (VDict m)
       ∧ py_add (default VNone (m !! "created_at"))
                (default VNone (m !! "expires_in")) w = (Ok exp, w)
       ∧ config w' !! "OAUTH_TOKEN" = Some (default VNone (m !! "access_token"))
       ∧ config w' !! "OAUTH_REFRESH" = Some (default VNone (m !! "refresh_token"))
       ∧ config w' !! "OAUTH_EXPIRES_AT" = Some exp
       ∧ (∀ k, k ≠ "OAUTH_TOKEN" → k ≠ "OAUTH_REFRESH" → k ≠ "OAUTH_EXPIRES_AT" →
               config w' !! k = config w !! k)
       ∧ files w'
         = if store
           then <[DeviceAuth.config_path d := FileJson (VDict (config w'))]> (files w)
           else files w).
Proof.
  intros Hid Hsec Hin H200.
  unfold DeviceAuth.get_device_token, DeviceAuth.config_getattr.
  unfold bind at 1. rewrite Hid. unfold bind at 1. rewrite Hsec.
  destruct (Hclient
              (VDict (list_to_map [("code", device_code); ("client_id", cid);
                                   ("client_secret", sec)])) w r rest Hin)
    as (w1 & Hpost & I1 & C1 & F1 & S1 & P1).
  rewrite (bind_Ok _ _ _ _ _ Hpost). cbn [attr_status_code]. rewrite bind_ret.
  rewrite H200. cbn [Z.eqb Pos.eqb meth_json].
  destruct (content r) as [body|] eqn:Hc.
  2:{ intros [= <- <-]. left. eauto. }
  destruct body as [| | | | |m];
    try (intros [= <- <-]; left; by eauto).
  cbv beta iota.
  do 5 (rewrite bind_assoc, bind_ret; cbn [py_get]).
  rewrite bind_assoc. unfold bind at 1.
  destruct (py_add (default VNone (m !! "created_at"))
              (default VNone (m !! "expires_in")) w1) as [[exp|e] w1'] eqn:Hadd;
    destruct (py_add_pure _ _ _ _ _ Hadd) as [-> Hany].
  2:{ intros [= <- <-]. left. eauto. }
  pose proof (Hany w) as Hadd'.
  unfold DeviceAuth.config_update, DeviceAuth.config_store, modify, bind, ret.
  destruct store; intros [= <- <-]; right; exists m, exp; simpl;
    rewrite ?C1, ?F1;
    (split; [done|]; split; [done|]; split; [done|];
     split; [by apply lookup_union_Some_l; simplify_map_eq|];
     split; [by apply lookup_union_Some_l; simplify_map_eq|];
     split; [by apply lookup_union_Some_l; simplify_map_eq|];
     split; [|done];
     intros k H1 H2 H3; apply lookup_union_r; by simplify_map_eq).
Qed.

End PollRuns.


Section PollGrants.
Context (py_repr : value → string).
Context (d : DeviceAuth.t) (device_code : value).
Context (Hclient : answers_polls_with_responses (DeviceAuth.client d)).

Lemma get_device_token_grants store w r rest cid sec m created expires :
  config w !! "CLIENT_ID" = Some cid →
  config w !! "CLIENT_SECRET" = Some sec →
  inbox w = r :: rest →
  status_code r = 200 →
  content r = Some (VDict m) →
  as_int (default VNone (m !! "created_at")) = Some created →
  as_int (default VNone (m !! "expires_in")) = Some expires →
  ∃ w1, DeviceAuth.get_device_token d device_code store w
        = (Ok (OResponse r), after_grant d store m (VInt (created + expires)) w1)
        ∧ inbox w1 = rest ∧ config w1 = config w ∧ files w1 = files w
        ∧ slept w1 = slept w ∧ printed w1 = printed w.
Proof.
  intros Hid Hsec Hin H200 Hc Hcr Hex.
  unfold DeviceAuth.get_device_token, DeviceAuth.config_getattr.
  unfold bind at 1. rewrite Hid. unfold bind at 1. rewrite Hsec.
  destruct (Hclient
              (VDict (list_to_map [("code", device_code); ("client_id", cid);
                                   ("client_secret", sec)])) w r rest Hin)
    as (w1 & Hpost & F).
  rewrite (bind_Ok _ _ _ _ _ Hpost). cbn [attr_status_code]. rewrite bind_ret.
  rewrite H200. cbn [Z.eqb Pos.eqb meth_json]. rewrite Hc. cbv beta iota.
  do 5 (rewrite bind_assoc, bind_ret; cbn [py_get]).
  rewrite bind_assoc.
  rewrite (bind_Ok _ _ _ _ _ (py_add_ints _ _ _ _ w1 Hcr Hex)).
  exists w1. split; [|done].
  unfold DeviceAuth.config_update, DeviceAuth.config_store, modify, bind, ret, after_grant.
  by destruct store.
Qed.

(** X24. After any run of 400 and 429 answers that keeps the interval
    within what [sleep] takes, a 200 response object with a token body (an
    object with [access_token], [refresh_token] and integer [created_at]
    and [expires_in]) ends the loop with that response: the config holds
    the token, the refresh token and the expiry [created_at +
    expires_in], the config file is written exactly when the [store] flag
    is set and then holds the whole config, the success line is printed,
    and no sleep follows the grant. *)
Theorem poll_stores_the_grant rs r n i w tl cid sec m created expires a b :
  0 ≤ i → last_interval i rs ≤ MAX_SLEEP →
  config w !! "CLIENT_ID" = Some cid →
  config w !! "CLIENT_SECRET" = Some sec →
  inbox w = (rs ++ r :: tl)%list →
  Forall transitional rs →
  status_code r = 200 →
  content r = Some (VDict m) →
  m !! "access_token" = Some a → m !! "refresh_token" = Some b →
  as_int (default VNone (m !! "created_at")) = Some created →
  as_int (default VNone (m !! "expires_in")) = Some expires →
  ∃ w', DeviceAuth.poll py_repr (length rs + S n) d device_code (VInt i) w
        = (Ok (Some (OResponse r)), w')
        ∧ config w' !! "OAUTH_TOKEN" = Some a
        ∧ config w' !! "OAUTH_REFRESH" = Some b
        ∧ config w' !! "OAUTH_EXPIRES_AT" = Some (VInt (created + expires))
        ∧ config w' !! "CLIENT_ID" = Some cid
        ∧ files w'
          = (if DeviceAuth.store d
             then <[DeviceAuth.config_path d := FileJson (VDict (config w'))]> (files w)
             else files w)
        ∧ printed w'
          = (printed w ++
             ["You've been successfully authenticated. With access_token "
              +:+ TokenAuth.py_str py_repr a
              +:+ " and refresh_token " +:+ TokenAuth.py_str py_repr b])%list
        ∧ slept w' = (slept w ++ sleeps i rs)%list.
Proof.
  intros Hi Hmax Hid Hsec Hin Hrs H200 Hc Ha Hb Hcr Hex.
  destruct (poll_waits py_repr d device_code Hclient rs (S n) i w (r :: tl) cid sec
              Hi Hmax Hid Hsec Hin Hrs)
    as (w1 & Hrun & _ & I1 & S1 & C1 & F1 & P1).
  destruct (get_device_token_grants (DeviceAuth.store d) w1 r tl cid sec m created expires)
    as (w2 & Hg & I2 & C2 & F2 & S2 & P2); try done; try (by rewrite C1).
  eexists. split.
  - rewrite Hrun.
    apply (poll_granted py_repr d device_code n _ w1 r _ m a b Hg H200 Hc Ha Hb).
  - unfold after_grant. rewrite Ha, Hb. cbn [default].
    destruct (DeviceAuth.store d); simpl;
      rewrite ?C2, ?C1, ?F2, ?F1, ?P2, ?P1, ?S2, ?S1;
      (split; [by apply lookup_union_Some_l; simplify_map_eq|];
       split; [by apply lookup_union_Some_l; simplify_map_eq|];
       split; [by apply lookup_union_Some_l; simplify_map_eq|];
       split; [by rewrite lookup_union_r by (by simplify_map_eq)|];
       done).
Qed.

(** X25. The token is stored before the success line is built.  When the
    body of the 200 response object lacks [access_token] or
    [refresh_token], the loop raises [KeyError] for the missing name out
    of [authenticate], and yet the config has already received the fields
    ([None] for the one that is missing) and, with the [store] flag, the
    config file has been written. *)
Theorem poll_raises_after_storing r n i w tl cid sec m created expires :
  config w !! "CLIENT_ID" = Some cid →
  config w !! "CLIENT_SECRET" = Some sec →
  inbox w = r :: tl →
  status_code r = 200 →
  content r = Some (VDict m) →
  m !! "access_token" = None ∨ m !! "refresh_token" = None →
  as_int (default VNone (m !! "created_at")) = Some created →
  as_int (default VNone (m !! "expires_in")) = Some expires →
  ∃ key w', DeviceAuth.poll py_repr (S n) d device_code i w = (Raise (KeyError key), w')
        ∧ (key = "access_token" ∨ key = "refresh_token") ∧ m !! key = None
        ∧ config w' !! "OAUTH_TOKEN" = Some (default VNone (m !! "access_token"))
        ∧ config w' !! "OAUTH_REFRESH" = Some (default VNone (m !! "refresh_token"))
        ∧ config w' !! "OAUTH_EXPIRES_AT" = Some (VInt (created + expires))
        ∧ files w'
          = (if DeviceAuth.store d
             then <[DeviceAuth.config_path d := FileJson (VDict (config w'))]> (files w)
             else files w)
        ∧ printed w' = printed w.
Proof.
  intros Hid Hsec Hin H200 Hc Hmiss Hcr Hex.
  destruct (get_device_token_grants (DeviceAuth.store d) w r tl cid sec m created expires)
    as (w1 & Hg & I1 & C1 & F1 & S1 & P1); try done.
  cbn [DeviceAuth.poll]. rewrite (bind_Ok _ _ _ _ _ Hg).
  cbn [attr_status_code]. rewrite bind_ret, H200.
  cbn [Z.eqb Pos.eqb meth_json]. rewrite Hc. cbv beta iota. rewrite bind_ret.
  assert (∃ key, DeviceAuth.success_message py_repr (VDict m)
                   (after_grant d (DeviceAuth.store d) m (VInt (created + expires)) w1)
                 = (Raise (KeyError key), after_grant d (DeviceAuth.store d) m
                                             (VInt (created + expires)) w1)
                 ∧ (key = "access_token" ∨ key = "refresh_token") ∧ m !! key = None)
    as (key & Hmsg & Hkey & Hnone).
  { unfold DeviceAuth.success_message, py_getitem.
    destruct (m !! "access_token") as [a|] eqn:Ha.
    - destruct Hmiss as [?|Hb]; [done|]. exists "refresh_token".
      rewrite bind_ret, Hb, bind_raise. auto.
    - exists "access_token". rewrite bind_raise. auto. }
  exists key. eexists. split; [by rewrite (bind_Raise _ _ _ _ _ Hmsg)|].
  split; [done|]. split; [done|].
  unfold after_grant.
  destruct (DeviceAuth.store d); simpl; rewrite ?C1, ?F1, ?P1;
    (split; [by apply lookup_union_Some_l; simplify_map_eq|];
     split; [by apply lookup_union_Some_l; simplify_map_eq|];
     split; [by apply lookup_union_Some_l; simplify_map_eq|];
     done).
Qed.

End PollGrants.

(** [Sample.hybrid_client] is a client of that kind. *)
Lemma hybrid_client_answers_polls :
  answers_polls_with_responses (DeviceAuth.client Sample.hybrid_device).
Proof.
  intros data w r rest Hin.
  unfold Sample.hybrid_device, Sample.hybrid_client, transmit, bind, ret. simpl.
  rewrite Hin. eexists. split; [reflexivity|]. by simpl.
Qed.

(** [Sample.raw_client] is a client of that kind too. *)
Lemma raw_client_answers_polls :
  answers_polls_with_responses (DeviceAuth.client Sample.raw_device).
Proof.
  intros data w r rest Hin.
  unfold Sample.raw_device, Sample.raw_client, transmit, bind, ret. simpl.
  rewrite Hin. eexists. split; [reflexivity|]. by simpl.
Qed.

(** Over it [authenticate] gets through [update_tokens] and
    [get_device_code] and enters the loop with the device code and the
    interval of the code response. *)
Lemma hybrid_authenticate_polls fuel answers :
  DeviceAuth.authenticate Sample.typed_in Sample.repr fuel Sample.hybrid_device
    (Sample.device_world (Sample.code_response :: answers))
  = DeviceAuth.poll Sample.repr fuel Sample.hybrid_device (VStr "abc") (VInt 5)
      (Sample.after_code_request answers).
Proof.
  apply (authenticate_enters_loop Sample.repr Sample.hybrid_device Sample.typed_in fuel
           _ (snd (DeviceAuth.update_tokens Sample.typed_in Sample.hybrid_device
                     (Sample.device_world (Sample.code_response :: answers))))
           Sample.stamped_code).
  - reflexivity.
  - vm_compute. reflexivity.
  - vm_compute. reflexivity.
  - vm_compute. reflexivity.
Qed.

Lemma poll_waits_through_transitional_witness :
  ∃ w',
    DeviceAuth.authenticate Sample.typed_in Sample.repr 3 Sample.hybrid_device
      (Sample.device_world
         [Sample.code_response; Sample.pending; Sample.slow_down; Sample.pending;
          Sample.token_response])
    = (Ok None, w')
    ∧ inbox w' = [Sample.token_response]
    ∧ slept w' = [VInt 5; VInt 10; VInt 10].
Proof.
  destruct (poll_waits_through_transitional Sample.repr Sample.hybrid_device (VStr "abc")
              hybrid_client_answers_polls
              [Sample.pending; Sample.slow_down; Sample.pending] 5
              (Sample.after_code_request
                 [Sample.pending; Sample.slow_down; Sample.pending;
                  Sample.token_response])
              [Sample.token_response] (VStr "my-id") (VStr "my-secret"))
    as (w' & Hrun & Hin & Hs & _).
  - lia.
  - vm_compute. discriminate.
  - vm_compute. reflexivity.
  - vm_compute. reflexivity.
  - vm_compute. reflexivity.
  - repeat constructor; (by left) || (by right).
  - exists w'. rewrite hybrid_authenticate_polls.
    split; [exact Hrun|]. split; [exact Hin|]. rewrite Hs. vm_compute. reflexivity.
Defined.

Lemma poll_stops_at_terminal_witness :
  ∃ w',
    DeviceAuth.authenticate Sample.typed_in Sample.repr 5 Sample.hybrid_device
      (Sample.device_world
         [Sample.code_response; Sample.slow_down; Sample.pending; Sample.denied])
    = (Ok (Some (OResponse Sample.denied)), w')
    ∧ printed w'
      = ["Your user code is: 5055CC52, please navigate to https://trakt.tv/activate to authenticate";
         "You explicitly denied this code"]
    ∧ slept w' = [VInt 10; VInt 10]
    ∧ files w' = ∅.
Proof.
  destruct (poll_stops_at_terminal Sample.repr Sample.hybrid_device (VStr "abc")
              hybrid_client_answers_polls
              [Sample.slow_down; Sample.pending] Sample.denied 2 5
              (Sample.after_code_request
                 [Sample.slow_down; Sample.pending; Sample.denied])
              [] (VStr "my-id") (VStr "my-secret"))
    as (w' & Hrun & Hp & Hs & _ & _ & Hf).
  - lia.
  - vm_compute. discriminate.
  - vm_compute. reflexivity.
  - vm_compute. reflexivity.
  - vm_compute. reflexivity.
  - repeat constructor; (by left) || (by right).
  - discriminate.
  - discriminate.
  - discriminate.
  - exists w'. rewrite hybrid_authenticate_polls.
    split; [exact Hrun|]. split; [|split].
    + rewrite Hp. vm_compute. reflexivity.
    + rewrite Hs. vm_compute. reflexivity.
    + rewrite Hf. vm_compute. reflexivity.
Defined.

Lemma poll_backoff_overflows_witness :
  ∃ w',
    DeviceAuth.authenticate Sample.typed_in Sample.repr 31 Sample.hybrid_device
      (Sample.device_world (Sample.code_response :: replicate 31 Sample.slow_down))
    = (Raise OverflowError, w')
    ∧ length (slept w') = 30%nat
    ∧ last (slept w') = Some (VInt 5368709120)
    ∧ inbox w' = []
    ∧ config w' !! "OAUTH_TOKEN" = None.
Proof.
  destruct (poll_backoff_overflows Sample.repr Sample.hybrid_device (VStr "abc")
              hybrid_client_answers_polls
              (replicate 30 Sample.slow_down) Sample.slow_down 0 5
              (Sample.after_code_request (replicate 31 Sample.slow_down))
              [] (VStr "my-id") (VStr "my-secret"))
    as (w' & Hrun & Hs & Hin & Hc & _).
  - lia.
  - vm_compute. discriminate.
  - vm_compute. reflexivity.
  - vm_compute. reflexivity.
  - vm_compute. reflexivity.
  - apply Forall_replicate. by right.
  - reflexivity.
  - vm_compute. reflexivity.
  - exists w'. rewrite hybrid_authenticate_polls.
    split; [exact Hrun|]. rewrite Hs, Hc.
    split; [vm_compute; reflexivity|]. split; [vm_compute; reflexivity|].
    split; [exact Hin|]. vm_compute. reflexivity.
Defined.

Lemma get_device_token_all_or_nothing_witness :
  ∃ w',
    DeviceAuth.get_device_token Sample.raw_device (VStr "abc") true
      (Sample.polling_world [Sample.token_response])
    = (Ok (OResponse Sample.token_response), w')
    ∧ config w' !! "OAUTH_EXPIRES_AT" = Some (VInt 1707776000)
    ∧ files w' !! "pytrakt.json" = Some (FileJson (VDict (config w'))).
Proof.
  destruct (DeviceAuth.get_device_token Sample.raw_device (VStr "abc") true
              (Sample.polling_world [Sample.token_response])) as [res w'] eqn:Hrun.
  destruct (get_device_token_all_or_nothing Sample.raw_device (VStr "abc")
              raw_client_answers_polls true
              (Sample.polling_world [Sample.token_response])
              Sample.token_response [] (VStr "my-id") (VStr "my-secret") res w')
    as [(e & -> & _) | (m & exp & -> & Hc & Hadd & _ & _ & Hexp & _ & Hf)].
  - vm_compute. reflexivity.
  - vm_compute. reflexivity.
  - reflexivity.
  - reflexivity.
  - exact Hrun.
  - vm_compute in Hrun. discriminate.
  - exists w'. split; [reflexivity|]. split.
    + rewrite Hexp. cbv [Sample.token_response content Sample.token_body] in Hc.
      injection Hc as <-.
      assert (exp = VInt 1707776000) as ->
        by (vm_compute in Hadd; congruence).
      reflexivity.
    + rewrite Hf. apply lookup_insert_eq.
Defined.

Lemma poll_stores_the_grant_witness :
  ∃ w',
    DeviceAuth.authenticate Sample.typed_in Sample.repr 4 Sample.hybrid_device
      (Sample.device_world
         [Sample.code_response; Sample.pending; Sample.pending; Sample.slow_down;
          Sample.token_response])
    = (Ok (Some (OResponse Sample.token_response)), w')
    ∧ config w' !! "OAUTH_TOKEN" = Some (VStr "new-token")
    ∧ config w' !! "OAUTH_REFRESH" = Some (VStr "new-refresh")
    ∧ config w' !! "OAUTH_EXPIRES_AT" = Some (VInt 1707776000)
    ∧ files w' !! "pytrakt.json" = Some (FileJson (VDict (config w')))
    ∧ slept w' = [VInt 5; VInt 5; VInt 10].
Proof.
  destruct (poll_stores_the_grant Sample.repr Sample.hybrid_device (VStr "abc")
              hybrid_client_answers_polls
              [Sample.pending; Sample.pending; Sample.slow_down] Sample.token_response 0 5
              (Sample.after_code_request
                 [Sample.pending; Sample.pending; Sample.slow_down;
                  Sample.token_response])
              [] (VStr "my-id") (VStr "my-secret")
              (list_to_map [
                 ("access_token", VStr "new-token");
                 ("token_type", VStr "bearer");
                 ("expires_in", VInt 7776000);
                 ("refresh_token", VStr "new-refresh");
                 ("scope", VStr "public");
                 ("created_at", VInt 1700000000)])
              1700000000 7776000 (VStr "new-token") (VStr "new-refresh"))
    as (w' & Hrun & Ht & Hr & He & _ & Hf & _ & Hs).
  - lia.
  - vm_compute. discriminate.
  - vm_compute. reflexivity.
  - vm_compute. reflexivity.
  - vm_compute. reflexivity.
  - repeat constructor; (by left) || (by right).
  - reflexivity.
  - reflexivity.
  - vm_compute. reflexivity.
  - vm_compute. reflexivity.
  - vm_compute. reflexivity.
  - vm_compute. reflexivity.
  - exists w'. rewrite hybrid_authenticate_polls.
    split; [exact Hrun|]. split; [exact Ht|]. split; [exact Hr|].
    split; [exact He|]. split.
    + rewrite Hf. apply lookup_insert_eq.
    + rewrite Hs. vm_compute. reflexivity.
Defined.

Lemma poll_raises_after_storing_witness :
  ∃ key w',
    DeviceAuth.authenticate Sample.typed_in Sample.repr 1 Sample.hybrid_device
      (Sample.device_world [Sample.code_response; Sample.tokenless_grant])
    = (Raise (KeyError key), w')
    ∧ config w' !! "OAUTH_TOKEN" = Some VNone
    ∧ config w' !! "OAUTH_EXPIRES_AT" = Some (VInt 1707776000)
    ∧ files w' !! "pytrakt.json" = Some (FileJson (VDict (config w'))).
Proof.
  destruct (poll_raises_after_storing Sample.repr Sample.hybrid_device (VStr "abc")
              hybrid_client_answers_polls
              Sample.tokenless_grant 0 (VInt 5)
              (Sample.after_code_request [Sample.tokenless_grant])
              [] (VStr "my-id") (VStr "my-secret")
              (list_to_map [
                 ("expires_in", VInt 7776000);
                 ("created_at", VInt 1700000000)])
              1700000000 7776000)
    as (key & w' & Hrun & _ & _ & Ht & _ & He & Hf & _).
  - vm_compute. reflexivity.
  - vm_compute. reflexivity.
  - vm_compute. reflexivity.
  - reflexivity.
  - reflexivity.
  - left. vm_compute. reflexivity.
  - vm_compute. reflexivity.
  - vm_compute. reflexivity.
  - exists key, w'. rewrite hybrid_authenticate_polls.
    split; [exact Hrun|]. split; [exact Ht|]. split; [exact He|].
    rewrite Hf. apply lookup_insert_eq.
Defined.
